(** * Portfolio API: a shallow embedding of [backend/main.py] and [schemas.py]

    The FastAPI handlers are embedded as computations in a small state and
    exception monad over the process state: the [db] handle, the
    module-level [_rate_cache] and the wall clock.  Documents are
    dictionaries from field names to BSON values, collections are lists of
    documents in insertion order, and the pymongo calls of the handlers
    ([find], [find_one], [count_documents], [insert_one], [update_one],
    [update_many], [delete_one], cursor [sort]/[skip]/[limit]) are given
    their driver semantics.

    What lies outside the two source files is taken as follows.
    - The store.  A read of a configured store succeeds unless the server
      refuses the filter; a write fails while its collection is in the set
      [down] of the state; the driver refuses integers beyond 8 bytes.
      Limits on the size of a document are not modelled.
    - The regular-expression engine of the store and [datetime.isoformat]
      are parameters.
    - Time.  The clock is a rational number of seconds since the epoch;
      the rounding of the floats of [datetime.timestamp] is not modelled.
      The store keeps a date to the millisecond, the model as it was
      written; a property that names a stored date through [at_ms] holds
      of both.
    - The bearer-token dependency runs before the admin handlers; the
      handlers are their bodies. *)

From Stdlib Require Import Ascii QArith Qround Lqa.
From Stdlib Require OrderedTypeEx.
From stdpp Require Import gmap strings list sorting pretty.

Local Open Scope string_scope.
Local Open Scope list_scope.

(** ** BSON values and documents *)

(** An ObjectId is a 12-byte value; it is kept as the number its 24
    hexadecimal digits denote. *)
Abbreviation oid := N (only parsing).

Inductive value :=
| VNull
| VBool (b : bool)
| VInt (n : Z)
| VStr (s : string)
| VList (l : list string)
| VDate (t : Q)
| VOid (o : oid)
| VDict (m : list (string * string)).

#[global] Instance Q_eq_dec : EqDecision Q.
Proof. solve_decision. Defined.

#[global] Instance value_eq_dec : EqDecision value.
Proof. solve_decision. Defined.

#[global] Instance Qlt_dec (x y : Q) : Decision (x < y)%Q.
Proof.
  destruct (Qlt_le_dec x y) as [H|H];
    [left; exact H | right; apply Qle_not_lt; exact H].
Defined.

(** A Python dict with string keys. *)
Abbreviation pydict := (gmap string value) (only parsing).

(** A stored document: the [_id] the driver assigned on insertion and the
    remaining fields. *)
Record doc := Doc { _id : oid; fields : gmap string value }.

(** The document as the driver hands it to Python: a dict with its [_id]. *)
Definition as_dict (x : doc) : gmap string value :=
  <["_id" := VOid (_id x)]> (fields x).

#[global] Instance doc_eq_dec : EqDecision doc.
Proof. solve_decision. Defined.

(** ** bson.ObjectId *)

Definition hex_val (c : ascii) : option N :=
  let n := N_of_ascii c in
  if (48 <=? n)%N && (n <=? 57)%N then Some (n - 48)%N
  else if (97 <=? n)%N && (n <=? 102)%N then Some (n - 87)%N
  else if (65 <=? n)%N && (n <=? 70)%N then Some (n - 55)%N
  else None.

Fixpoint fromhex (acc : N) (s : string) : option N :=
  match s with
  | EmptyString => Some acc
  | String c s' =>
      match hex_val c with
      | Some d => fromhex (16 * acc + d)%N s'
      | None => None
      end
  end.

(** [ObjectId(s)] on a string of 24 hexadecimal digits, the well-formed
    ids. *)
Definition oid_of_str (s : string) : option oid :=
  if Nat.eqb (String.length s) 24 then fromhex 0 s else None.

(** ASCII white space. *)
Definition is_space (c : ascii) : bool :=
  let n := N_of_ascii c in
  ((9 <=? n)%N && (n <=? 13)%N) || (n =? 32)%N.

Fixpoint has_junk (s : string) : bool :=
  match s with
  | EmptyString => false
  | String c s' =>
      (bool_decide (hex_val c = None) && negb (is_space c)) || has_junk s'
  end.

(** The strings the constructor rejects with [InvalidId] for certain: not
    24 characters long, or with a character that is neither a hexadecimal
    digit nor white space.  (The constructor decodes with [bytes.fromhex],
    which skips white space; what becomes of a 24-character string of
    digit pairs and white space is left out of the properties below.) *)
Definition malformed (id : string) : bool :=
  negb (Nat.eqb (String.length id) 24) || has_junk id.

Definition hex_char (d : N) : ascii :=
  ascii_of_N (if (d <? 10)%N then 48 + d else 87 + d)%N.

Fixpoint hexlify (k : nat) (n : N) (acc : string) : string :=
  match k with
  | O => acc
  | S k' => hexlify k' (n / 16)%N (String (hex_char (n mod 16)%N) acc)
  end.

(** [str(oid)]: the 24 lower-case hexadecimal digits. *)
Definition str_oid (o : oid) : string := hexlify 24 o "".

(** ** Queries *)

Inductive cond :=
| Eq_ (v : value)                      (* {k: v} *)
| Ne (v : value)                       (* {k: {"$ne": v}} *)
| In_ (vs : list value)                (* {k: {"$in": vs}} *)
| Regex (pattern options : string).    (* {k: {"$regex": p, "$options": o}} *)

Inductive clause :=
| Field (k : string) (c : cond)
| Or (alts : list (string * cond)).    (* {"$or": [{k: c}, ...]} *)

(** A filter dict, its entries in insertion order; all of them must hold. *)
Abbreviation query := (list clause) (only parsing).

(** Equality against a stored field: a missing field equals null, and an
    array field matches when it holds the value as an element. *)
Definition eq_match (fv : option value) (v : value) : bool :=
  match fv with
  | None => bool_decide (v = VNull)
  | Some (VList l) =>
      match v with
      | VStr s => bool_decide (s ∈ l)
      | _ => bool_decide (v = VList l)
      end
  | Some x => bool_decide (x = v)
  end.

(** ** BSON encoding *)

(** BSON integers have at most 8 bytes; the driver raises [OverflowError]
    on a Python int beyond them. *)
Definition int64 (n : Z) : bool := (- 2 ^ 63 <=? n)%Z && (n <? 2 ^ 63)%Z.

Definition int_ok (v : value) : bool :=
  match v with
  | VInt n => int64 n
  | _ => true
  end.

(** The driver can encode the document. *)
Definition encodable (d : gmap string value) : Prop :=
  map_Forall (λ _ v, int_ok v = true) d.

#[global] Instance encodable_dec d : Decision (encodable d).
Proof. unfold encodable. apply _. Defined.

(** ** Cursor sort *)

(** BSON comparison order across types; a missing field sorts as null. *)
Definition type_rank (v : option value) : N :=
  match v with
  | None | Some VNull => 1
  | Some (VInt _) => 2
  | Some (VStr _) => 3
  | Some (VDict _) => 4
  | Some (VList _) => 5
  | Some (VOid _) => 7
  | Some (VBool _) => 8
  | Some (VDate _) => 9
  end%N.

(** Values of one type compare by value; the handlers never sort on an
    array or an embedded document, which compare by rank only here. *)
Definition bson_compare (a b : option value) : comparison :=
  match a, b with
  | Some (VInt x), Some (VInt y) => (x ?= y)%Z
  | Some (VStr x), Some (VStr y) => String.compare x y
  | Some (VOid x), Some (VOid y) => (x ?= y)%N
  | Some (VBool x), Some (VBool y) => Bool.compare x y
  | Some (VDate x), Some (VDate y) => (x ?= y)%Q
  | _, _ => (type_rank a ?= type_rank b)%N
  end.

(** A sort specification [[(key, direction)]], direction 1 or -1. *)
Fixpoint compare_by (spec : list (string * Z)) (a b : gmap string value)
  : comparison :=
  match spec with
  | [] => Eq
  | (k, dir) :: rest =>
      match bson_compare (a !! k) (b !! k) with
      | Eq => compare_by rest a b
      | c => if (dir <? 0)%Z then CompOpp c else c
      end
  end.

Definition sort_le (spec : list (string * Z)) (a b : doc) : Prop :=
  compare_by spec (as_dict a) (as_dict b) ≠ Gt.

#[global] Instance sort_le_dec spec a b : Decision (sort_le spec a b).
Proof. unfold sort_le. apply _. Defined.

Definition sort (spec : list (string * Z)) (l : list doc) : list doc :=
  merge_sort (sort_le spec) l.

(** ** Pydantic schemas ([schemas.py]) and their [model_dump] *)

Definition opt_str (o : option string) : value :=
  match o with Some s => VStr s | None => VNull end.

Definition opt_date (o : option Q) : value :=
  match o with Some t => VDate t | None => VNull end.

Module Project.
Record t := {
  title : string;
  slug : string;
  shortDesc : string;
  longDesc : option string;
  tech : list string;
  tags : list string;
  liveDemoUrl : option string;
  githubUrl : option string;
  images : list string;
  featured : bool;
  published : bool;
  orderIndex : Z;
  createdAt : option Q;
  updatedAt : option Q;
  deleted : bool
}.
Definition model_dump (p : t) : gmap string value :=
  list_to_map [
    ("title", VStr (title p)); ("slug", VStr (slug p));
    ("shortDesc", VStr (shortDesc p)); ("longDesc", opt_str (longDesc p));
    ("tech", VList (tech p)); ("tags", VList (tags p));
    ("liveDemoUrl", opt_str (liveDemoUrl p));
    ("githubUrl", opt_str (githubUrl p));
    ("images", VList (images p)); ("featured", VBool (featured p));
    ("published", VBool (published p)); ("orderIndex", VInt (orderIndex p));
    ("createdAt", opt_date (createdAt p));
    ("updatedAt", opt_date (updatedAt p));
    ("deleted", VBool (deleted p)) ].
End Project.

Module Skill.
Record t := {
  name : string;
  level : Z;
  category : string;
  icon : option string;
  description : option string;
  orderIndex : Z;
  published : bool;
  deleted : bool
}.
Definition model_dump (p : t) : gmap string value :=
  list_to_map [
    ("name", VStr (name p)); ("level", VInt (level p));
    ("category", VStr (category p)); ("icon", opt_str (icon p));
    ("description", opt_str (description p));
    ("orderIndex", VInt (orderIndex p));
    ("published", VBool (published p)); ("deleted", VBool (deleted p)) ].
End Skill.

Module Testimonial.
Record t := {
  name : string;
  role : option string;
  quote : string;
  avatar : option string;
  sourceUrl : option string;
  orderIndex : Z;
  published : bool;
  deleted : bool
}.
Definition model_dump (p : t) : gmap string value :=
  list_to_map [
    ("name", VStr (name p)); ("role", opt_str (role p));
    ("quote", VStr (quote p)); ("avatar", opt_str (avatar p));
    ("sourceUrl", opt_str (sourceUrl p));
    ("orderIndex", VInt (orderIndex p));
    ("published", VBool (published p)); ("deleted", VBool (deleted p)) ].
End Testimonial.

Module Certificate.
Record t := {
  title : string;
  issuer : string;
  issueDate : string;
  image : option string;
  description : option string;
  tags : list string;
  published : bool;
  deleted : bool
}.
Definition model_dump (p : t) : gmap string value :=
  list_to_map [
    ("title", VStr (title p)); ("issuer", VStr (issuer p));
    ("issueDate", VStr (issueDate p)); ("image", opt_str (image p));
    ("description", opt_str (description p)); ("tags", VList (tags p));
    ("published", VBool (published p)); ("deleted", VBool (deleted p)) ].
End Certificate.

Module ContactForm.
Record t := { name : string; email : string; message : string }.
Definition model_dump (f : t) : list (string * string) :=
  [("name", name f); ("email", email f); ("message", message f)].
End ContactForm.

(** ** Process state, exceptions and the handler monad *)

Inductive exn :=
| HTTPException (status_code : Z) (detail : string)
| InvalidId          (* bson.errors.InvalidId *)
| ValueError
| TypeError
| OverflowError      (* BSON can only handle up to 8-byte ints *)
| OperationFailure   (* the server refuses the command *)
| PyMongoError.      (* the store fails a write *)

Inductive Res (A : Type) :=
| Ok (a : A)
| Raise (e : exn).
Arguments Ok {A} a.
Arguments Raise {A} e.

(** The module globals [db] and [_rate_cache] with the environment the
    handlers read: the wall clock (seconds since the epoch) and the set of
    collections whose writes the store currently rejects. *)
Record World := {
  db : option (gmap string (list doc));
  _rate_cache : gmap string (list Q);
  clock : Q;
  down : gset string
}.

Definition M (A : Type) : Type := World → Res A * World.

Definition ret {A} (a : A) : M A := λ w, (Ok a, w).

Definition raise {A} (e : exn) : M A := λ w, (Raise e, w).

Definition bind {A B} (m : M A) (k : A → M B) : M B :=
  λ w, match m w with
       | (Ok a, w') => k a w'
       | (Raise e, w') => (Raise e, w')
       end.

#[global] Instance M_ret : MRet M := @ret.
#[global] Instance M_bind : MBind M := λ A B k m, bind m k.

(** The status the framework answers with: an [HTTPException] carries its
    own, any other exception escaping a handler is a 500. *)
Definition status_of {A} (r : Res A) : Z :=
  match r with
  | Ok _ => 200
  | Raise (HTTPException s _) => s
  | Raise _ => 500
  end.

Definition is_client_error (s : Z) : bool := (400 <=? s)%Z && (s <? 500)%Z.

(** An exception that is not the framework's own. *)
Definition unhandled (e : exn) : Prop :=
  match e with
  | HTTPException _ _ => False
  | _ => True
  end.

Section Store.

(** The regular-expression engine of the store: a pattern and its options
    compile to a test on subjects, or do not compile. *)
Variable regex_compile : string → string → option (string → bool).

(** [datetime.isoformat]. *)
Variable isoformat : Q → string.

Definition regex_match (pattern options : string) (fv : option value) : bool :=
  match regex_compile pattern options, fv with
  | Some test, Some (VStr s) => test s
  | Some test, Some (VList l) => existsb test l
  | _, _ => false
  end.

Definition cond_match (c : cond) (fv : option value) : bool :=
  match c with
  | Eq_ v => eq_match fv v
  | Ne v => negb (eq_match fv v)
  | In_ vs => existsb (eq_match fv) vs
  | Regex p o => regex_match p o fv
  end.

Definition clause_match (d : gmap string value) (cl : clause) : bool :=
  match cl with
  | Field k c => cond_match c (d !! k)
  | Or alts => existsb (λ kc, cond_match kc.2 (d !! kc.1)) alts
  end.

Definition matches (q : query) (x : doc) : bool :=
  forallb (clause_match (as_dict x)) q.

(** The server accepts the filter: its patterns compile. *)
Definition cond_ok (c : cond) : bool :=
  match c with
  | Regex p o => bool_decide (is_Some (regex_compile p o))
  | _ => true
  end.

Definition clause_ok (cl : clause) : bool :=
  match cl with
  | Field _ c => cond_ok c
  | Or alts => forallb (λ kc, cond_ok kc.2) alts
  end.

Definition query_ok (q : query) : bool := forallb clause_ok q.



(** ** The pymongo operations the handlers call *)

(** [db[c]]: subscripting the handle, which is [None] when no store is
    configured; a collection that was never written is empty. *)
Definition collection (c : string) : M (list doc) :=
  λ w, match db w with
       | Some D => (Ok (D !!! c), w)
       | None => (Raise TypeError, w)
       end.

Definition with_db (D : gmap string (list doc)) (w : World) : World :=
  {| db := Some D; _rate_cache := _rate_cache w;
     clock := clock w; down := down w |}.

(** A write to collection [c]; the store rejects it while [c] is down. *)
Definition store (c : string) (l : list doc) : M unit :=
  λ w, match db w with
       | Some D =>
           if decide (c ∈ down w) then (Raise PyMongoError, w)
           else (Ok tt, with_db (<[c := l]> D) w)
       | None => (Raise TypeError, w)
       end.

(** The driver encodes the document it sends. *)
Definition encode (d : gmap string value) : M unit :=
  if decide (encodable d) then mret tt else raise OverflowError.

(** The server parses the filter of a command. *)
Definition parse (q : query) : M unit :=
  if query_ok q then mret tt else raise OperationFailure.

Definition find (c : string) (q : query) : M (list doc) :=
  l ← collection c; parse q;; mret (filter (λ x, matches q x = true) l).

Definition find_one (c : string) (q : query) : M (option doc) :=
  l ← collection c; parse q;;
  mret (head (filter (λ x, matches q x = true) l)).

Definition count_documents (c : string) (q : query) : M nat :=
  l ← collection c; parse q;;
  mret (length (filter (λ x, matches q x = true) l)).

(** The ObjectId the driver generates for a new document is unique in the
    collection; the model takes the successor of the largest one present. *)
Definition new_oid (l : list doc) : oid :=
  N.succ (foldr N.max 0%N (_id <$> l)).

(** [insert_one(data).inserted_id] *)
Definition insert_one (c : string) (data : gmap string value) : M oid :=
  l ← collection c;
  encode data;;
  let o := new_oid l in
  store c (l ++ [Doc o data]);;
  mret o.

(** [{"$set": upd}] on one document. *)
Definition set_fields (upd : gmap string value) (x : doc) : doc :=
  Doc (_id x) (upd ∪ fields x).

Fixpoint update_first (p : doc → bool) (f : doc → doc) (l : list doc)
  : list doc :=
  match l with
  | [] => []
  | x :: l' => if p x then f x :: l' else x :: update_first p f l'
  end.

Fixpoint delete_first (p : doc → bool) (l : list doc) : list doc :=
  match l with
  | [] => []
  | x :: l' => if p x then l' else x :: delete_first p l'
  end.

(** [update_one(q, {"$set": upd}).matched_count] *)
Definition update_one (c : string) (q : query) (upd : gmap string value)
  : M nat :=
  l ← collection c;
  encode upd;;
  parse q;;
  store c (update_first (matches q) (set_fields upd) l);;
  mret (if existsb (matches q) l then 1 else 0)%nat.

(** [update_many(q, {"$set": upd}).matched_count] *)
Definition update_many (c : string) (q : query) (upd : gmap string value)
  : M nat :=
  l ← collection c;
  encode upd;;
  parse q;;
  store c ((λ x, if matches q x then set_fields upd x else x) <$> l);;
  mret (length (filter (λ x, matches q x = true) l)).

(** [delete_one(q).deleted_count] *)
Definition delete_one (c : string) (q : query) : M nat :=
  l ← collection c;
  parse q;;
  store c (delete_first (matches q) l);;
  mret (if existsb (matches q) l then 1 else 0)%nat.

(** [cursor.skip(n)] raises [ValueError] on a negative [n]; the skip takes
    effect when the cursor is iterated. *)
Definition cursor_skip (n : Z) : M unit :=
  if (n <? 0)%Z then raise ValueError else mret tt.

(** [cursor.limit(n)]: 0 means no limit, a negative [n] asks for one batch
    of at most [|n|] documents. *)
Definition cursor_limit (n : Z) (cur : list doc) : list doc :=
  if (n =? 0)%Z then cur else take (Z.to_nat (Z.abs n)) cur.

(** Iterating the cursor sends the command, with its skip and the absolute
    value of its limit, and yields the documents past the skip, up to the
    limit. *)
Definition cursor_iter (skip limit : Z) (cur : list doc) : M (list doc) :=
  if int64 skip && int64 (Z.abs limit)
  then mret (cursor_limit limit (drop (Z.to_nat skip) cur))
  else raise OverflowError.

(** [ObjectId(id)] *)
Definition ObjectId (id : string) : M oid :=
  match oid_of_str id with
  | Some o => mret o
  | None => raise InvalidId
  end.

(** [datetime.now(timezone.utc)] and [datetime.now().timestamp()] *)
Definition datetime_now : M Q := λ w, (Ok (clock w), w).

(** ** Utilities of [main.py] *)

(** [to_dict]: a document off the driver always has its [_id], so the
    early return on a falsy [doc] is never taken. *)
Definition to_dict (x : doc) : gmap string value :=
  let d := <["id" := VStr (str_oid (_id x))]> (delete "_id" (as_dict x)) in
  foldl (λ d k, match d !! k with
                | Some (VDate t) => <[k := VStr (isoformat t)]> d
                | _ => d
                end)
        d ["created_at"; "updated_at"; "createdAt"; "updatedAt"].

(** What a handler returns. *)
Inductive response :=
| Page (items : list (gmap string value)) (total : nat) (page limit : Z)
| Items (items : list (gmap string value))   (* {"items": items} *)
| Item (d : gmap string value)               (* to_dict(doc) *)
| Created (id : string)                      (* {"id": id} *)
| OkTrue.                                    (* {"ok": True} *)

(** [if db is None: raise HTTPException(500, "Database not configured")] *)
Definition require_db : M unit :=
  λ w, match db w with
       | Some _ => (Ok tt, w)
       | None => (Raise (HTTPException 500 "Database not configured"), w)
       end.

(** An [Optional[str]] parameter under [if s:]. *)
Definition truthy (o : option string) : option string :=
  match o with
  | Some "" => None
  | _ => o
  end.

Definition not_deleted : clause := Field "deleted" (Ne (VBool true)).

Definition is_published : clause := Field "published" (Eq_ (VBool true)).

(** ** Public read endpoints *)

Definition projects_query (published : option bool) (tag search : option string)
  : query :=
  [not_deleted]
  ++ match published with
     | Some b => [Field "published" (Eq_ (VBool b))]
     | None => []
     end
  ++ match truthy tag with
     | Some t => [Field "tags" (In_ [VStr t])]
     | None => []
     end
  ++ match truthy search with
     | Some s => [Or [("title", Regex s "i"); ("shortDesc", Regex s "i");
                      ("tags", Regex s "i")]]
     | None => []
     end.

Definition list_projects (published : option bool) (tag search : option string)
    (page limit : Z) : M response :=
  require_db;;
  let q := projects_query published tag search in
  found ← find "project" q;
  let cursor :=
    sort [("featured", -1); ("orderIndex", 1); ("created_at", -1)]%Z found in
  total ← count_documents "project" q;
  cursor_skip ((page - 1) * limit);;
  docs ← cursor_iter ((page - 1) * limit) limit cursor;
  let items := to_dict <$> docs in
  mret (Page items total page limit).

Definition get_project (slug : string) : M response :=
  require_db;;
  doc ← find_one "project" [Field "slug" (Eq_ (VStr slug)); not_deleted];
  match doc with
  | None => raise (HTTPException 404 "Not found")
  | Some x => mret (Item (to_dict x))
  end.

Definition skills_query (category search : option string) : query :=
  [not_deleted; is_published]
  ++ match truthy category with
     | Some c => [Field "category" (Eq_ (VStr c))]
     | None => []
     end
  ++ match truthy search with
     | Some s => [Or [("name", Regex s "i"); ("category", Regex s "i")]]
     | None => []
     end.

Definition list_skills (category search : option string) : M response :=
  require_db;;
  found ← find "skill" (skills_query category search);
  mret (Items (to_dict <$> sort [("orderIndex", 1%Z)] found)).

Definition list_testimonials : M response :=
  require_db;;
  found ← find "testimonial" [not_deleted; is_published];
  mret (Items (to_dict <$> sort [("orderIndex", 1%Z)] found)).

Definition certificates_query (tag search : option string) : query :=
  [not_deleted; is_published]
  ++ match truthy tag with
     | Some t => [Field "tags" (In_ [VStr t])]
     | None => []
     end
  ++ match truthy search with
     | Some s => [Or [("title", Regex s "i"); ("issuer", Regex s "i");
                      ("tags", Regex s "i")]]
     | None => []
     end.

Definition list_certificates (tag search : option string) : M response :=
  require_db;;
  found ← find "certificate" (certificates_query tag search);
  mret (Items (to_dict <$> sort [("_id", (-1)%Z)] found)).

(** ** Admin endpoints (past the bearer-token dependency) *)

Definition log_entry (user_email action entity entity_id : string) (now : Q)
  : gmap string value :=
  list_to_map [
    ("user_email", VStr user_email); ("action", VStr action);
    ("entity", VStr entity); ("entity_id", VStr entity_id);
    ("timestamp", VDate now) ].

Definition by_id (o : oid) : query := [Field "_id" (Eq_ (VOid o))].

Definition create_project (payload : Project.t) : M response :=
  require_db;;
  now ← datetime_now;
  let data := <["updated_at" := VDate now]>
                (<["created_at" := VDate now]> (Project.model_dump payload)) in
  existing ← find_one "project"
               [Field "slug" (Eq_ (default VNull (data !! "slug")))];
  match existing with
  | Some _ => raise (HTTPException 400 "Slug already exists")
  | None =>
      _id ← insert_one "project" data;
      insert_one "activitylog"
        (log_entry "admin" "create" "project" (str_oid _id) now);;
      mret (Created (str_oid _id))
  end.

(** The create, update and delete handlers of skills, testimonials and
    certificates have one body each, on their own collection [c] and with
    their own schema's [model_dump]. *)
Definition create_entity (c : string) (dump : gmap string value) : M response :=
  now ← datetime_now;
  let data := <["updated_at" := VDate now]> (<["created_at" := VDate now]> dump) in
  _id ← insert_one c data;
  insert_one "activitylog" (log_entry "admin" "create" c (str_oid _id) now);;
  mret (Created (str_oid _id)).

Definition update_entity (c : string) (id : string) (dump : gmap string value)
  : M response :=
  now ← datetime_now;
  let data := <["updated_at" := VDate now]> dump in
  collection c;;
  o ← ObjectId id;
  matched_count ← update_one c (by_id o) data;
  if Nat.eqb matched_count 0 then raise (HTTPException 404 "Not found")
  else
    insert_one "activitylog" (log_entry "admin" "update" c id now);;
    mret OkTrue.

Definition delete_entity (c : string) (id : string) (hard : bool) : M response :=
  now ← datetime_now;
  (if hard then
     collection c;;
     o ← ObjectId id;
     delete_one c (by_id o)
   else
     collection c;;
     o ← ObjectId id;
     update_one c (by_id o)
       (list_to_map [("deleted", VBool true); ("updated_at", VDate now)]));;
  insert_one "activitylog" (log_entry "admin" "delete" c id now);;
  mret OkTrue.

(** The project handlers are the same bodies behind the [db is None] guard. *)
Definition update_project (id : string) (payload : Project.t) : M response :=
  require_db;; update_entity "project" id (Project.model_dump payload).

Definition delete_project (id : string) (hard : bool) : M response :=
  require_db;; delete_entity "project" id hard.

Definition create_skill (payload : Skill.t) : M response :=
  create_entity "skill" (Skill.model_dump payload).

Definition update_skill (id : string) (payload : Skill.t) : M response :=
  update_entity "skill" id (Skill.model_dump payload).

Definition delete_skill (id : string) (hard : bool) : M response :=
  delete_entity "skill" id hard.

Definition create_testimonial (payload : Testimonial.t) : M response :=
  create_entity "testimonial" (Testimonial.model_dump payload).

Definition update_testimonial (id : string) (payload : Testimonial.t)
  : M response :=
  update_entity "testimonial" id (Testimonial.model_dump payload).

Definition delete_testimonial (id : string) (hard : bool) : M response :=
  delete_entity "testimonial" id hard.

Definition create_certificate (payload : Certificate.t) : M response :=
  create_entity "certificate" (Certificate.model_dump payload).

Definition update_certificate (id : string) (payload : Certificate.t)
  : M response :=
  update_entity "certificate" id (Certificate.model_dump payload).

Definition delete_certificate (id : string) (hard : bool) : M response :=
  delete_entity "certificate" id hard.

(** [[ObjectId(x) for x in ids]] *)
Fixpoint object_ids (ids : list string) : M (list oid) :=
  match ids with
  | [] => mret []
  | x :: rest => o ← ObjectId x; os ← object_ids rest; mret (o :: os)
  end.

Definition bulk_publish_projects (ids : list string) (published : bool)
  : M response :=
  now ← datetime_now;
  oids ← object_ids ids;
  update_many "project" [Field "_id" (In_ (VOid <$> oids))]
    (list_to_map [("published", VBool published); ("updated_at", VDate now)]);;
  mret OkTrue.

(** [for idx, id in enumerate(ordered_ids)], from index [idx]. *)
Fixpoint reorder_from (idx : nat) (ordered_ids : list string) : M unit :=
  match ordered_ids with
  | [] => mret tt
  | id :: rest =>
      collection "project";;
      o ← ObjectId id;
      update_one "project" (by_id o) {["orderIndex" := VInt (Z.of_nat idx)]};;
      reorder_from (S idx) rest
  end.

Definition reorder_projects (ordered_ids : list string) : M response :=
  reorder_from 0 ordered_ids;; mret OkTrue.

(** ** The rate-limited contact endpoint *)

Definition window : Q := 60.

Definition get_rate_cache (ip : string) : M (list Q) :=
  λ w, (Ok (default [] (_rate_cache w !! ip)), w).

Definition set_rate_cache (ip : string) (entry : list Q) : M unit :=
  λ w, (Ok tt, {| db := db w; _rate_cache := <[ip := entry]> (_rate_cache w);
                  clock := clock w; down := down w |}).

Definition db_is_None : M bool :=
  λ w, (Ok (bool_decide (db w = None)), w).

(** [client] is [request.client.host], absent when [request.client] is. *)
Definition contact (form : ContactForm.t) (client : option string) : M response :=
  let ip := default "unknown" client in
  now ← datetime_now;
  entry ← get_rate_cache ip;
  let entry := filter (λ t, (now - t < window)%Q) entry in
  if (3 <=? length entry)%nat then raise (HTTPException 429 "Too many requests")
  else
    let entry := entry ++ [now] in
    set_rate_cache ip entry;;
    none ← db_is_None;
    (if none : bool then mret tt : M unit
     else
       utcnow ← datetime_now;
       insert_one "activitylog"
         (<["metadata" := VDict (ContactForm.model_dump form)]>
            (log_entry (ContactForm.email form) "contact" "message" "-" utcnow));;
       mret tt);;
    mret OkTrue.

(** ** Vocabulary of the properties *)

(** The soft-delete flag is set. *)
Definition is_deleted (x : doc) : Prop :=
  fields x !! "deleted" = Some (VBool true).

(** The documents a response carries. *)
Definition response_items (r : response) : list (gmap string value) :=
  match r with
  | Page items _ _ _ => items
  | Items items => items
  | Item d => [d]
  | Created _ | OkTrue => []
  end.

(** The filter [{"slug": slug}] selects the document. *)
Definition has_slug (slug : string) (x : doc) : Prop :=
  eq_match (fields x !! "slug") (VStr slug) = true.

(** The admin mutations: create, update and delete of the four entities. *)
Inductive mutation :=
| CreateProject (payload : Project.t)
| UpdateProject (id : string) (payload : Project.t)
| DeleteProject (id : string) (hard : bool)
| CreateSkill (payload : Skill.t)
| UpdateSkill (id : string) (payload : Skill.t)
| DeleteSkill (id : string) (hard : bool)
| CreateTestimonial (payload : Testimonial.t)
| UpdateTestimonial (id : string) (payload : Testimonial.t)
| DeleteTestimonial (id : string) (hard : bool)
| CreateCertificate (payload : Certificate.t)
| UpdateCertificate (id : string) (payload : Certificate.t)
| DeleteCertificate (id : string) (hard : bool).

Definition entity_of (m : mutation) : string :=
  match m with
  | CreateProject _ | UpdateProject _ _ | DeleteProject _ _ => "project"
  | CreateSkill _ | UpdateSkill _ _ | DeleteSkill _ _ => "skill"
  | CreateTestimonial _ | UpdateTestimonial _ _ | DeleteTestimonial _ _ =>
      "testimonial"
  | CreateCertificate _ | UpdateCertificate _ _ | DeleteCertificate _ _ =>
      "certificate"
  end.

(** The collection [c] as the store holds it (empty without a store). *)
Definition coll_of (c : string) (w : World) : list doc :=
  match db w with
  | Some D => D !!! c
  | None => []
  end.

(** The store after one more activity-log entry. *)
Definition logged (entry : gmap string value) (D : gmap string (list doc))
  : gmap string (list doc) :=
  <["activitylog" := D !!! "activitylog"
                     ++ [Doc (new_oid (D !!! "activitylog")) entry]]> D.

(** What an update with the payload dump [dump], served at time [now],
    makes of the document it reaches. *)
Definition updated (dump : gmap string value) (now : Q) (x : doc) : doc :=
  set_fields (<["updated_at" := VDate now]> dump) x.

(** [x] is a soft-deleted document with id [o] of the collection [c], which
    holds one document per id and accepts writes. *)
Definition soft_deleted_in (c : string) (o : oid) (w : World) (x : doc) : Prop :=
  (c ∉ down w) ∧ NoDup (_id <$> coll_of c w) ∧ (x ∈ coll_of c w)
  ∧ _id x = o ∧ is_deleted x.

(** The handler that serves a mutation. *)
Definition run_mutation (m : mutation) : M response :=
  match m with
  | CreateProject p => create_project p
  | UpdateProject id p => update_project id p
  | DeleteProject id hard => delete_project id hard
  | CreateSkill p => create_skill p
  | UpdateSkill id p => update_skill id p
  | DeleteSkill id hard => delete_skill id hard
  | CreateTestimonial p => create_testimonial p
  | UpdateTestimonial id p => update_testimonial id p
  | DeleteTestimonial id hard => delete_testimonial id hard
  | CreateCertificate p => create_certificate p
  | UpdateCertificate id p => update_certificate id p
  | DeleteCertificate id hard => delete_certificate id hard
  end.

(** The id strings [ids] parse to the ObjectIds [oids]. *)
Definition well_formed (ids : list string) (oids : list oid) : Prop :=
  Forall2 (λ id o, oid_of_str id = Some o) ids oids.

(** What the reorder loop, entered at index [idx], makes of one document. *)
Fixpoint reorder_doc (idx : nat) (oids : list oid) (x : doc) : doc :=
  match oids with
  | [] => x
  | o :: rest =>
      reorder_doc (S idx) rest
        (if bool_decide (_id x = o)
         then set_fields {["orderIndex" := VInt (Z.of_nat idx)]} x
         else x)
  end.

(** A contact submission: who sends it, what, and when it arrives. *)
Record request := {
  client : option string;
  form : ContactForm.t;
  arrival : Q
}.

Definition at_time (t : Q) (w : World) : World :=
  {| db := db w; _rate_cache := _rate_cache w; clock := t; down := down w |}.

(** The contact handler serving [rq] when the clock reads its arrival time. *)
Definition serve (rq : request) (w : World) : Res response * World :=
  contact (form rq) (client rq) (at_time (arrival rq) w).

Fixpoint serve_all (rqs : list request) (w : World)
  : list (Res response) * World :=
  match rqs with
  | [] => ([], w)
  | rq :: rest =>
      let r := serve rq w in
      let rs := serve_all rest r.2 in
      (r.1 :: rs.1, rs.2)
  end.

(** The key the limiter counts a submission under. *)
Definition caller (rq : request) : string := default "unknown" (client rq).

Definition is_ok {A} (r : Res A) : bool :=
  match r with
  | Ok _ => true
  | Raise _ => false
  end.

(** Arrival times of the submissions of [k] that were accepted, given the
    requests and the answers they got. *)
Fixpoint accepted (k : string) (rqs : list request) (rs : list (Res response))
  : list Q :=
  match rqs, rs with
  | rq :: rqs', r :: rs' =>
      (if is_ok r && bool_decide (caller rq = k) then [arrival rq] else [])
      ++ accepted k rqs' rs'
  | _, _ => []
  end.

(** The limiter refused the submission. *)
Definition refused (r : Res response) : bool := (status_of r =? 429)%Z.

(** Arrival times of the submissions of [k] that the limiter let pass,
    whether they were then answered or failed at the log write, given the
    requests and the answers they got. *)
Fixpoint counted (k : string) (rqs : list request) (rs : list (Res response))
  : list Q :=
  match rqs, rs with
  | rq :: rqs', r :: rs' =>
      (if negb (refused r) && bool_decide (caller rq = k) then [arrival rq]
       else [])
      ++ counted k rqs' rs'
  | _, _ => []
  end.

(** How many of the times [ts] are less than 60 seconds before [now]. *)
Definition within_60 (now : Q) (ts : list Q) : nat :=
  length (filter (λ t, (now - t < 60)%Q) ts).

(** A date as the store keeps it: the time [now] cut to the millisecond. *)
Definition at_ms (now t : Q) : Prop := (now - (1 # 1000) < t)%Q ∧ (t <= now)%Q.

(** [v'] is what the store holds once [v] was written to it: [v] itself, a
    date up to its millisecond. *)
Definition stored (v v' : value) : Prop :=
  match v with
  | VDate t => ∃ t', v' = VDate t' ∧ at_ms t t'
  | _ => v' = v
  end.

(** [e] is the activity-log entry of the admin's [action] on the document
    [entity_id] of the collection [entity], made at [now]: these five
    fields and no other. *)
Definition audit (action entity entity_id : string) (now : Q) (e : doc) : Prop :=
  fields e !! "user_email" = Some (VStr "admin")
  ∧ fields e !! "action" = Some (VStr action)
  ∧ fields e !! "entity" = Some (VStr entity)
  ∧ fields e !! "entity_id" = Some (VStr entity_id)
  ∧ (∃ t, fields e !! "timestamp" = Some (VDate t) ∧ at_ms now t)
  ∧ ∀ k, k ∉ ["user_email"; "action"; "entity"; "entity_id"; "timestamp"] →
         fields e !! k = None.

(** The activity-log entry of a contact submission. *)
Definition contact_entry (form : ContactForm.t) (now : Q) : gmap string value :=
  <["metadata" := VDict (ContactForm.model_dump form)]>
    (log_entry (ContactForm.email form) "contact" "message" "-" now).

(** The filter [{"tags": {"$in": [t]}}] selects the document: its [tags]
    array holds [t] (or the field is the string [t] itself). *)
Definition tagged (t : string) (x : doc) : Prop :=
  fields x !! "tags" = Some (VStr t)
  ∨ ∃ l, fields x !! "tags" = Some (VList l) ∧ t ∈ l.

(** One of the alternatives of a search, the pattern [s] on field [k]. *)
Definition search_hit (s k : string) (x : doc) : Prop :=
  regex_match s "i" (fields x !! k) = true.

(** The filter [{"category": c}] selects the document. *)
Definition has_category (c : string) (x : doc) : Prop :=
  eq_match (fields x !! "category") (VStr c) = true.

(** The documents an answer carries, none when the handler fails. *)
Definition items_of (r : Res response) : list (gmap string value) :=
  match r with
  | Ok r => response_items r
  | Raise _ => []
  end.

(** The items of the pages 1 to [n] of the project list, asked one after
    the other with one [limit]. *)
Fixpoint pages (n : nat) (published : option bool) (tag search : option string)
    (limit : Z) (w : World) : list (gmap string value) :=
  match n with
  | O => []
  | S n' =>
      pages n' published tag search limit w
      ++ items_of (list_projects published tag search (Z.of_nat n) limit w).1
  end.

(** The integer under [orderIndex]. *)
Definition order_index (x : doc) : option Z :=
  match fields x !! "orderIndex" with
  | Some (VInt n) => Some n
  | _ => None
  end.

(** [cmp] is the three-way comparison of a total preorder: swapping the
    arguments swaps the answer, and "not greater" is transitive. *)
Definition orders {A} (cmp : A → A → comparison) : Prop :=
  (∀ a b, cmp b a = CompOpp (cmp a b))
  ∧ (∀ a b c, cmp a b ≠ Gt → cmp b c ≠ Gt → cmp a c ≠ Gt).

(** No two documents of [l] compare equal on the sort keys [spec]. *)
Definition no_ties (spec : list (string * Z)) (l : list doc) : Prop :=
  ∀ x y, x ∈ l → y ∈ l →
         compare_by spec (as_dict x) (as_dict y) = Eq → x = y.

(** What a mutation asks of its entity collection: the payload dump of a
    create or update, the id of an update or delete. *)
Inductive action :=
| Creating (dump : gmap string value)
| Updating (id : string) (dump : gmap string value)
| Deleting (id : string) (hard : bool).

Definition action_of (m : mutation) : action :=
  match m with
  | CreateProject p => Creating (Project.model_dump p)
  | UpdateProject id p => Updating id (Project.model_dump p)
  | CreateSkill p => Creating (Skill.model_dump p)
  | UpdateSkill id p => Updating id (Skill.model_dump p)
  | CreateTestimonial p => Creating (Testimonial.model_dump p)
  | UpdateTestimonial id p => Updating id (Testimonial.model_dump p)
  | CreateCertificate p => Creating (Certificate.model_dump p)
  | UpdateCertificate id p => Updating id (Certificate.model_dump p)
  | DeleteProject id hard | DeleteSkill id hard | DeleteTestimonial id hard
  | DeleteCertificate id hard => Deleting id hard
  end.

(** The body the handlers of one kind share, on the collection [c]. *)
Definition perform (c : string) (a : action) : M response :=
  match a with
  | Creating dump => create_entity c dump
  | Updating id dump => update_entity c id dump
  | Deleting id hard => delete_entity c id hard
  end.

(** No project stands in the way of a project creation: none is selected
    by the filter on the payload's slug. *)
Definition slug_free (m : mutation) (w : World) : Prop :=
  ∀ p x, m = CreateProject p → x ∈ coll_of "project" w →
         ¬ has_slug (Project.slug p) x.

(** The endpoints that read or write the store or the rate cache. *)
Inductive endpoint :=
| ListProjects (published : option bool) (tag search : option string)
    (page limit : Z)
| GetProject (slug : string)
| ListSkills (category search : option string)
| ListTestimonials
| ListCertificates (tag search : option string)
| Mutate (m : mutation)
| BulkPublish (ids : list string) (published : bool)
| Reorder (ordered_ids : list string)
| Contact (form : ContactForm.t) (client : option string).

Definition handler (e : endpoint) : M response :=
  match e with
  | ListProjects published tag search page limit =>
      list_projects published tag search page limit
  | GetProject slug => get_project slug
  | ListSkills category search => list_skills category search
  | ListTestimonials => list_testimonials
  | ListCertificates tag search => list_certificates tag search
  | Mutate m => run_mutation m
  | BulkPublish ids published => bulk_publish_projects ids published
  | Reorder ordered_ids => reorder_projects ordered_ids
  | Contact form client => contact form client
  end.

(** No two documents of a collection share their [_id]. *)
Definition ids_unique (w : World) : Prop :=
  ∀ c, NoDup (_id <$> coll_of c w).

(** The slugs the projects carry. *)
Definition slugs (w : World) : list value :=
  omap (λ x, fields x !! "slug") (coll_of "project" w).

(** How a handler may leave the state [w'] it found as [w]: collections
    with unique ids keep them unique, the activity log only grows at its
    end, and the faults of the store stay as they are. *)
Definition evolves (w w' : World) : Prop :=
  (∀ c, NoDup (_id <$> coll_of c w) → NoDup (_id <$> coll_of c w'))
  ∧ coll_of "activitylog" w `prefix_of` coll_of "activitylog" w'
  ∧ down w' = down w.

(** Every run of the computation leaves the state in relation [R] to the
    one it started in. *)
Definition steps {A} (R : relation World) (m : M A) : Prop :=
  ∀ w, R w (m w).2.

(** ** Concrete data

    The properties below hold for every regular-expression engine and every
    rendering of timestamps.  To run the handlers on data,
    [literal_compile] serves the patterns without metacharacters (a
    substring search that ignores case under option [i]) and compiles no
    other, and [epoch_seconds] stands in for [datetime.isoformat]. *)

Definition lower (c : ascii) : ascii :=
  let n := N_of_ascii c in
  if (65 <=? n)%N && (n <=? 90)%N then ascii_of_N (n + 32) else c.

Fixpoint lower_str (s : string) : string :=
  match s with
  | EmptyString => EmptyString
  | String c s' => String (lower c) (lower_str s')
  end.

Definition literal_search (pattern options subject : string) : bool :=
  let fold s := if bool_decide (options = "i") then lower_str s else s in
  bool_decide (is_Some (String.index 0 (fold pattern) (fold subject))).

Definition plain (c : ascii) : bool :=
  let n := N_of_ascii c in
  ((48 <=? n)%N && (n <=? 57)%N) || ((65 <=? n)%N && (n <=? 90)%N)
  || ((97 <=? n)%N && (n <=? 122)%N) || (n =? 32)%N || (n =? 45)%N.

Fixpoint all_plain (s : string) : bool :=
  match s with
  | EmptyString => true
  | String c s' => plain c && all_plain s'
  end.

Definition literal_compile (pattern options : string)
  : option (string → bool) :=
  if all_plain pattern then Some (literal_search pattern options) else None.

Definition epoch_seconds (t : Q) : string := pretty (Qfloor t).

(** Three projects with ids a, b and c; a is soft-deleted. *)
Definition id_a : string := "00000000000000000000000a".
Definition id_b : string := "00000000000000000000000b".
Definition id_c : string := "00000000000000000000000c".
Definition id_absent : string := "000000000000000000000009".

Definition project_a : doc :=
  Doc 10 (list_to_map [("title", VStr "Alpha"); ("slug", VStr "alpha");
                       ("tags", VList ["design"]); ("published", VBool true);
                       ("orderIndex", VInt 5); ("deleted", VBool true)]).

Definition project_b : doc :=
  Doc 11 (list_to_map [("title", VStr "Beta"); ("slug", VStr "beta");
                       ("tags", VList ["design"; "3d"]);
                       ("published", VBool true); ("orderIndex", VInt 3);
                       ("created_at", VDate 500)]).

Definition project_c : doc :=
  Doc 12 (list_to_map [("title", VStr "Gamma"); ("slug", VStr "gamma");
                       ("published", VBool false); ("orderIndex", VInt 1);
                       ("deleted", VBool false)]).

Definition store0 : gmap string (list doc) :=
  {["project" := [project_a; project_b; project_c]]}.

Definition world0 : World :=
  {| db := Some store0; _rate_cache := ∅; clock := 1000; down := ∅ |}.

(** The same state while the store rejects writes to the activity log. *)
Definition world_log_down : World :=
  {| db := Some store0; _rate_cache := ∅; clock := 1000;
     down := {["activitylog"]} |}.

Definition sample_payload (slug : string) : Project.t :=
  {| Project.title := "Delta"; Project.slug := slug;
     Project.shortDesc := "A project"; Project.longDesc := None;
     Project.tech := []; Project.tags := [];
     Project.liveDemoUrl := None; Project.githubUrl := None;
     Project.images := []; Project.featured := false;
     Project.published := true; Project.orderIndex := 0;
     Project.createdAt := None; Project.updatedAt := None;
     Project.deleted := false |}.

(** A soft-deleted skill, testimonial and certificate beside the projects,
    each with id a, and a full payload for each. *)
Definition skill_a : doc :=
  Doc 10 (list_to_map [("name", VStr "Blender"); ("level", VInt 80);
                       ("category", VStr "3d"); ("published", VBool true);
                       ("deleted", VBool true)]).

Definition testimonial_a : doc :=
  Doc 10 (list_to_map [("name", VStr "Ann"); ("quote", VStr "Great work");
                       ("published", VBool true); ("deleted", VBool true)]).

Definition certificate_a : doc :=
  Doc 10 (list_to_map [("title", VStr "Modelling"); ("issuer", VStr "Academy");
                       ("issueDate", VStr "2024-01"); ("published", VBool true);
                       ("deleted", VBool true)]).

Definition store_entities : gmap string (list doc) :=
  <["skill" := [skill_a]]>
    (<["testimonial" := [testimonial_a]]>
       (<["certificate" := [certificate_a]]> store0)).

Definition world_entities : World :=
  {| db := Some store_entities; _rate_cache := ∅; clock := 1000; down := ∅ |}.

Definition sample_skill : Skill.t :=
  {| Skill.name := "Blender"; Skill.level := 90; Skill.category := "3d";
     Skill.icon := None; Skill.description := None; Skill.orderIndex := 0;
     Skill.published := true; Skill.deleted := false |}.

Definition sample_testimonial : Testimonial.t :=
  {| Testimonial.name := "Ann"; Testimonial.role := None;
     Testimonial.quote := "Great work"; Testimonial.avatar := None;
     Testimonial.sourceUrl := None; Testimonial.orderIndex := 0;
     Testimonial.published := true; Testimonial.deleted := false |}.

Definition sample_certificate : Certificate.t :=
  {| Certificate.title := "Modelling"; Certificate.issuer := "Academy";
     Certificate.issueDate := "2024-01"; Certificate.image := None;
     Certificate.description := None; Certificate.tags := [];
     Certificate.published := true; Certificate.deleted := false |}.

(** Contact submissions of one caller. *)
Definition submission (t : Q) : request :=
  {| client := Some "10.0.0.1";
     form := {| ContactForm.name := "Ann";
                ContactForm.email := "ann@example.com";
                ContactForm.message := "hello" |};
     arrival := t |}.

(** Twenty-five published projects. *)
Definition numbered_project (n : nat) : doc :=
  Doc (N.of_nat n) (list_to_map [("slug", VStr (pretty n));
                                 ("published", VBool true);
                                 ("orderIndex", VInt (Z.of_nat n))]).

Definition world25 : World :=
  {| db := Some {["project" := numbered_project <$> seq 1 25]};
     _rate_cache := ∅; clock := 1000; down := ∅ |}.

(** A process started without a store. *)
Definition world_no_db : World :=
  {| db := None; _rate_cache := ∅; clock := 1000; down := ∅ |}.

(** The state of [world0] while the store rejects writes to the projects. *)
Definition world_project_down : World :=
  {| db := Some store0; _rate_cache := ∅; clock := 1000;
     down := {["project"]} |}.

(** A store with live, published skills and a live testimonial beside a
    soft-deleted one. *)
Definition skill_b : doc :=
  Doc 11 (list_to_map [("name", VStr "React"); ("level", VInt 90);
                       ("category", VStr "Frontend"); ("orderIndex", VInt 2);
                       ("published", VBool true); ("deleted", VBool false)]).

Definition skill_c : doc :=
  Doc 12 (list_to_map [("name", VStr "FastAPI"); ("level", VInt 85);
                       ("category", VStr "Backend"); ("orderIndex", VInt 1);
                       ("published", VBool true); ("deleted", VBool false)]).

Definition testimonial_b : doc :=
  Doc 11 (list_to_map [("name", VStr "Leo"); ("quote", VStr "A joy");
                       ("orderIndex", VInt 0); ("published", VBool true);
                       ("deleted", VBool false)]).

Definition store_live : gmap string (list doc) :=
  <["skill" := [skill_a; skill_b; skill_c]]>
    (<["testimonial" := [testimonial_a; testimonial_b]]> store0).

Definition world_live : World :=
  {| db := Some store_live; _rate_cache := ∅; clock := 1000; down := ∅ |}.

(** * Properties *)

(** ** Running the monad *)

Lemma bind_run {A B} (m : M A) (k : A → M B) w a w' :
  m w = (Ok a, w') → (m ≫= k) w = k a w'.
Proof. intros H. unfold mbind, M_bind, bind. by rewrite H. Qed.

Lemma bind_raise {A B} (m : M A) (k : A → M B) w e w' :
  m w = (Raise e, w') → (m ≫= k) w = (Raise e, w').
Proof. intros H. unfold mbind, M_bind, bind. by rewrite H. Qed.

Lemma mret_run {A} (a : A) w : (mret a : M A) w = (Ok a, w).
Proof. reflexivity. Qed.

Lemma require_db_run w D : db w = Some D → require_db w = (Ok tt, w).
Proof. intros H. unfold require_db. by rewrite H. Qed.

Lemma require_db_none w :
  db w = None →
  require_db w = (Raise (HTTPException 500 "Database not configured"), w).
Proof. intros H. unfold require_db. by rewrite H. Qed.

Lemma collection_run c w D : db w = Some D → collection c w = (Ok (D !!! c), w).
Proof. intros H. unfold collection. by rewrite H. Qed.

Lemma collection_none c w : db w = None → collection c w = (Raise TypeError, w).
Proof. intros H. unfold collection. by rewrite H. Qed.

Lemma store_run c l w D :
  db w = Some D → c ∉ down w → store c l w = (Ok tt, with_db (<[c := l]> D) w).
Proof. intros H Hup. unfold store. rewrite H. by rewrite decide_False. Qed.

Lemma store_down c l w D :
  db w = Some D → c ∈ down w → store c l w = (Raise PyMongoError, w).
Proof. intros H Hdn. unfold store. rewrite H. by rewrite decide_True. Qed.

Lemma parse_run q w : query_ok q = true → parse q w = (Ok tt, w).
Proof. intros H. unfold parse. by rewrite H. Qed.

Lemma parse_refused q w :
  query_ok q = false → parse q w = (Raise OperationFailure, w).
Proof. intros H. unfold parse. by rewrite H. Qed.

Lemma encode_run d w : encodable d → encode d w = (Ok tt, w).
Proof. intros H. unfold encode. by rewrite decide_True. Qed.

Lemma encode_overflow d w :
  ¬ encodable d → encode d w = (Raise OverflowError, w).
Proof. intros H. unfold encode. by rewrite decide_False. Qed.

Lemma find_run c q w D :
  db w = Some D → query_ok q = true →
  find c q w = (Ok (filter (λ x, matches q x = true) (D !!! c)), w).
Proof.
  intros H Hq. unfold find.
  rewrite (bind_run _ _ _ _ _ (collection_run c w D H)).
  by rewrite (bind_run _ _ _ _ _ (parse_run q w Hq)).
Qed.

Lemma find_refused c q w D :
  db w = Some D → query_ok q = false →
  find c q w = (Raise OperationFailure, w).
Proof.
  intros H Hq. unfold find.
  rewrite (bind_run _ _ _ _ _ (collection_run c w D H)).
  by rewrite (bind_raise _ _ _ _ _ (parse_refused q w Hq)).
Qed.

Lemma find_one_run c q w D :
  db w = Some D → query_ok q = true →
  find_one c q w = (Ok (head (filter (λ x, matches q x = true) (D !!! c))), w).
Proof.
  intros H Hq. unfold find_one.
  rewrite (bind_run _ _ _ _ _ (collection_run c w D H)).
  by rewrite (bind_run _ _ _ _ _ (parse_run q w Hq)).
Qed.

Lemma count_documents_run c q w D :
  db w = Some D → query_ok q = true →
  count_documents c q w
  = (Ok (length (filter (λ x, matches q x = true) (D !!! c))), w).
Proof.
  intros H Hq. unfold count_documents.
  rewrite (bind_run _ _ _ _ _ (collection_run c w D H)).
  by rewrite (bind_run _ _ _ _ _ (parse_run q w Hq)).
Qed.

Lemma insert_one_run c data w D :
  db w = Some D → encodable data → c ∉ down w →
  insert_one c data w
  = (Ok (new_oid (D !!! c)),
     with_db (<[c := D !!! c ++ [Doc (new_oid (D !!! c)) data]]> D) w).
Proof.
  intros H Henc Hup. unfold insert_one.
  rewrite (bind_run _ _ _ _ _ (collection_run c w D H)).
  rewrite (bind_run _ _ _ _ _ (encode_run data w Henc)).
  by rewrite (bind_run _ _ _ _ _ (store_run c _ w D H Hup)).
Qed.

Lemma insert_one_overflow c data w D :
  db w = Some D → ¬ encodable data →
  insert_one c data w = (Raise OverflowError, w).
Proof.
  intros H Henc. unfold insert_one.
  rewrite (bind_run _ _ _ _ _ (collection_run c w D H)).
  by rewrite (bind_raise _ _ _ _ _ (encode_overflow data w Henc)).
Qed.

Lemma insert_one_down c data w D :
  db w = Some D → encodable data → c ∈ down w →
  insert_one c data w = (Raise PyMongoError, w).
Proof.
  intros H Henc Hdn. unfold insert_one.
  rewrite (bind_run _ _ _ _ _ (collection_run c w D H)).
  rewrite (bind_run _ _ _ _ _ (encode_run data w Henc)).
  by rewrite (bind_raise _ _ _ _ _ (store_down c _ w D H Hdn)).
Qed.

Lemma update_one_run c q upd w D :
  db w = Some D → encodable upd → query_ok q = true → c ∉ down w →
  update_one c q upd w
  = (Ok (if existsb (matches q) (D !!! c) then 1 else 0)%nat,
     with_db (<[c := update_first (matches q) (set_fields upd) (D !!! c)]> D) w).
Proof.
  intros H Henc Hq Hup. unfold update_one.
  rewrite (bind_run _ _ _ _ _ (collection_run c w D H)).
  rewrite (bind_run _ _ _ _ _ (encode_run upd w Henc)).
  rewrite (bind_run _ _ _ _ _ (parse_run q w Hq)).
  by rewrite (bind_run _ _ _ _ _ (store_run c _ w D H Hup)).
Qed.

Lemma update_one_overflow c q upd w D :
  db w = Some D → ¬ encodable upd →
  update_one c q upd w = (Raise OverflowError, w).
Proof.
  intros H Henc. unfold update_one.
  rewrite (bind_run _ _ _ _ _ (collection_run c w D H)).
  by rewrite (bind_raise _ _ _ _ _ (encode_overflow upd w Henc)).
Qed.

Lemma update_many_run c q upd w D :
  db w = Some D → encodable upd → query_ok q = true → c ∉ down w →
  update_many c q upd w
  = (Ok (length (filter (λ x, matches q x = true) (D !!! c))),
     with_db (<[c := (λ x, if matches q x then set_fields upd x else x)
                       <$> D !!! c]> D) w).
Proof.
  intros H Henc Hq Hup. unfold update_many.
  rewrite (bind_run _ _ _ _ _ (collection_run c w D H)).
  rewrite (bind_run _ _ _ _ _ (encode_run upd w Henc)).
  rewrite (bind_run _ _ _ _ _ (parse_run q w Hq)).
  by rewrite (bind_run _ _ _ _ _ (store_run c _ w D H Hup)).
Qed.

Lemma delete_one_run c q w D :
  db w = Some D → query_ok q = true → c ∉ down w →
  delete_one c q w
  = (Ok (if existsb (matches q) (D !!! c) then 1 else 0)%nat,
     with_db (<[c := delete_first (matches q) (D !!! c)]> D) w).
Proof.
  intros H Hq Hup. unfold delete_one.
  rewrite (bind_run _ _ _ _ _ (collection_run c w D H)).
  rewrite (bind_run _ _ _ _ _ (parse_run q w Hq)).
  by rewrite (bind_run _ _ _ _ _ (store_run c _ w D H Hup)).
Qed.

Lemma ObjectId_run id o w : oid_of_str id = Some o → ObjectId id w = (Ok o, w).
Proof. intros H. unfold ObjectId. by rewrite H. Qed.

Lemma ObjectId_invalid id w :
  oid_of_str id = None → ObjectId id w = (Raise InvalidId, w).
Proof. intros H. unfold ObjectId. by rewrite H. Qed.

(** ** Documents and filters *)

Lemma as_dict_lookup x k : k ≠ "_id" → as_dict x !! k = fields x !! k.
Proof. intros Hk. unfold as_dict. by rewrite lookup_insert_ne. Qed.

Lemma as_dict_id x : as_dict x !! "_id" = Some (VOid (_id x)).
Proof. unfold as_dict. by rewrite lookup_insert_eq. Qed.

Lemma not_deleted_match x :
  clause_match (as_dict x) not_deleted = true ↔ ¬ is_deleted x.
Proof.
  unfold not_deleted, is_deleted. cbn [clause_match cond_match].
  rewrite as_dict_lookup by done.
  rewrite negb_true_iff. unfold eq_match.
  destruct (fields x !! "deleted") as [[]|] eqn:E;
    rewrite ?bool_decide_eq_false; naive_solver.
Qed.

Lemma matches_cons cl q x :
  matches (cl :: q) x = clause_match (as_dict x) cl && matches q x.
Proof. reflexivity. Qed.

Lemma live_query q x : matches (not_deleted :: q) x = true → ¬ is_deleted x.
Proof.
  rewrite matches_cons, andb_true_iff. intros [H _]. by apply not_deleted_match.
Qed.

Lemma projects_query_live published tag search x :
  matches (projects_query published tag search) x = true → ¬ is_deleted x.
Proof.
  unfold projects_query. cbn [app]. apply live_query.
Qed.

Lemma skills_query_live category search x :
  matches (skills_query category search) x = true → ¬ is_deleted x.
Proof.
  unfold skills_query. cbn [app]. apply live_query.
Qed.

Lemma certificates_query_live tag search x :
  matches (certificates_query tag search) x = true → ¬ is_deleted x.
Proof.
  unfold certificates_query. cbn [app]. apply live_query.
Qed.

Lemma sort_Permutation spec l : sort spec l ≡ₚ l.
Proof. apply merge_sort_Permutation. Qed.

Lemma elem_of_sort spec l x : x ∈ sort spec l ↔ x ∈ l.
Proof. by rewrite sort_Permutation. Qed.

Lemma elem_of_cursor_limit n l x : x ∈ cursor_limit n l → x ∈ l.
Proof.
  unfold cursor_limit. destruct (n =? 0)%Z; [done|].
  intros H. eapply elem_of_sublist; [exact H | apply sublist_take].
Qed.

Lemma elem_of_drop {A} n (l : list A) x : x ∈ drop n l → x ∈ l.
Proof. intros H. eapply elem_of_sublist; [exact H | apply sublist_drop]. Qed.

(** ** [to_dict] keeps every field but the id and the timestamps *)

Lemma isoformat_fold_lookup ks (d : gmap string value) k :
  k ∉ ks →
  foldl (λ d k, match d !! k with
                | Some (VDate t) => <[k := VStr (isoformat t)]> d
                | _ => d
                end) d ks !! k = d !! k.
Proof.
  revert d. induction ks as [|k' ks IH]; intros d Hk; [done|].
  apply not_elem_of_cons in Hk as [Hne Hk]. cbn [foldl].
  rewrite IH by done.
  destruct (d !! k') as [[]|]; try done.
  by rewrite lookup_insert_ne.
Qed.

Lemma to_dict_lookup x k :
  k ∉ ["created_at"; "updated_at"; "createdAt"; "updatedAt"] →
  k ≠ "id" → k ≠ "_id" →
  to_dict x !! k = fields x !! k.
Proof.
  intros Hk Hid H_id. unfold to_dict.
  rewrite isoformat_fold_lookup by done.
  rewrite lookup_insert_ne, lookup_delete_ne by done.
  by apply as_dict_lookup.
Qed.

Lemma to_dict_deleted x y : to_dict x = to_dict y → is_deleted x → is_deleted y.
Proof.
  unfold is_deleted. intros Heq Hx.
  assert ("deleted" ∉ ["created_at"; "updated_at"; "createdAt"; "updatedAt"])
    as Hk by (rewrite !not_elem_of_cons; repeat split; try done; apply not_elem_of_nil).
  by rewrite <- (to_dict_lookup y "deleted"), <- Heq, to_dict_lookup.
Qed.

(** A deleted document is not among the rendered documents of a selection
    that holds live documents only. *)
Lemma deleted_not_rendered (sel : list doc) x :
  is_deleted x → (∀ y, y ∈ sel → ¬ is_deleted y) → to_dict x ∉ to_dict <$> sel.
Proof.
  intros Hx Hsel [y [Heq Hy]]%list_elem_of_fmap.
  apply (Hsel y Hy). by apply (to_dict_deleted x).
Qed.

(** ** The public reads, run on a configured store *)

Lemma list_projects_run published tag search page limit w D :
  db w = Some D →
  let q := projects_query published tag search in
  let found := filter (λ x, matches q x = true) (D !!! "project") in
  let cursor :=
    sort [("featured", -1); ("orderIndex", 1); ("created_at", -1)]%Z found in
  let skip := ((page - 1) * limit)%Z in
  list_projects published tag search page limit w
  = if query_ok q then
      if (skip <? 0)%Z then (Raise ValueError, w)
      else if int64 skip && int64 (Z.abs limit) then
        (Ok (Page (to_dict <$> cursor_limit limit (drop (Z.to_nat skip) cursor))
                  (length found) page limit), w)
      else (Raise OverflowError, w)
    else (Raise OperationFailure, w).
Proof.
  intros H q found cursor skip. unfold list_projects.
  rewrite (bind_run _ _ _ _ _ (require_db_run w D H)). fold q.
  destruct (query_ok q) eqn:Hq.
  - rewrite (bind_run _ _ _ _ _ (find_run "project" _ w D H Hq)).
    rewrite (bind_run _ _ _ _ _ (count_documents_run "project" _ w D H Hq)).
    unfold cursor_skip, cursor_iter. fold found cursor skip.
    destruct (skip <? 0)%Z; [done|].
    rewrite (bind_run _ _ _ _ _ (mret_run _ w)).
    by destruct (int64 skip && int64 (Z.abs limit)).
  - by rewrite (bind_raise _ _ _ _ _ (find_refused "project" _ w D H Hq)).
Qed.

Lemma get_project_run slug w D :
  db w = Some D →
  get_project slug w
  = match head (filter (λ x, matches [Field "slug" (Eq_ (VStr slug)); not_deleted] x = true)
                       (D !!! "project")) with
    | Some x => (Ok (Item (to_dict x)), w)
    | None => (Raise (HTTPException 404 "Not found"), w)
    end.
Proof.
  intros H. unfold get_project.
  rewrite (bind_run _ _ _ _ _ (require_db_run w D H)).
  rewrite (bind_run _ _ _ _ _
             (find_one_run "project"
                [Field "slug" (Eq_ (VStr slug)); not_deleted] w D H eq_refl)).
  by destruct (head _).
Qed.

Lemma list_skills_run category search w D :
  db w = Some D →
  let q := skills_query category search in
  list_skills category search w
  = if query_ok q then
      (Ok (Items (to_dict <$> sort [("orderIndex", 1%Z)]
                    (filter (λ x, matches q x = true) (D !!! "skill")))), w)
    else (Raise OperationFailure, w).
Proof.
  intros H q. unfold list_skills.
  rewrite (bind_run _ _ _ _ _ (require_db_run w D H)). fold q.
  destruct (query_ok q) eqn:Hq.
  - by rewrite (bind_run _ _ _ _ _ (find_run "skill" _ w D H Hq)).
  - by rewrite (bind_raise _ _ _ _ _ (find_refused "skill" _ w D H Hq)).
Qed.

Lemma list_testimonials_run w D :
  db w = Some D →
  list_testimonials w
  = (Ok (Items (to_dict <$> sort [("orderIndex", 1%Z)]
                  (filter (λ x, matches [not_deleted; is_published] x = true)
                          (D !!! "testimonial")))), w).
Proof.
  intros H. unfold list_testimonials.
  rewrite (bind_run _ _ _ _ _ (require_db_run w D H)).
  by rewrite (bind_run _ _ _ _ _
                (find_run "testimonial" [not_deleted; is_published] w D H eq_refl)).
Qed.

Lemma list_certificates_run tag search w D :
  db w = Some D →
  let q := certificates_query tag search in
  list_certificates tag search w
  = if query_ok q then
      (Ok (Items (to_dict <$> sort [("_id", (-1)%Z)]
                    (filter (λ x, matches q x = true) (D !!! "certificate")))), w)
    else (Raise OperationFailure, w).
Proof.
  intros H q. unfold list_certificates.
  rewrite (bind_run _ _ _ _ _ (require_db_run w D H)). fold q.
  destruct (query_ok q) eqn:Hq.
  - by rewrite (bind_run _ _ _ _ _ (find_run "certificate" _ w D H Hq)).
  - by rewrite (bind_raise _ _ _ _ _ (find_refused "certificate" _ w D H Hq)).
Qed.

Lemma slug_query_match slug x :
  matches [Field "slug" (Eq_ (VStr slug)); not_deleted] x = true
  ↔ has_slug slug x ∧ ¬ is_deleted x.
Proof.
  rewrite !matches_cons, !andb_true_iff, not_deleted_match.
  cbn [clause_match cond_match matches forallb]. rewrite as_dict_lookup by done.
  unfold has_slug. tauto.
Qed.

(** C1. A document with [deleted = true] is in no result of a public read:
    not in a page of the project list, whatever the published, tag and
    search filters and the page and limit, not in the answer of the slug
    lookup, and not in the skill, testimonial and certificate lists,
    whatever their category, tag and search filters; and the slug lookup
    fails with 404 "Not found" when the projects the slug selects are all
    soft-deleted. *)
Theorem soft_deleted_never_read w D x :
  db w = Some D → is_deleted x →
  (∀ published tag search page limit r w',
     list_projects published tag search page limit w = (Ok r, w') →
     to_dict x ∉ response_items r)
  ∧ (∀ slug r w',
       get_project slug w = (Ok r, w') → to_dict x ∉ response_items r)
  ∧ (∀ category search r w',
       list_skills category search w = (Ok r, w') →
       to_dict x ∉ response_items r)
  ∧ (∀ r w', list_testimonials w = (Ok r, w') → to_dict x ∉ response_items r)
  ∧ (∀ tag search r w',
       list_certificates tag search w = (Ok r, w') →
       to_dict x ∉ response_items r)
  ∧ (∀ slug,
       (∀ y, y ∈ D !!! "project" → has_slug slug y → is_deleted y) →
       get_project slug w = (Raise (HTTPException 404 "Not found"), w)).
Proof.
  intros Hdb Hx. repeat split.
  - intros published tag search page limit r w'.
    rewrite (list_projects_run _ _ _ _ _ w D Hdb).
    destruct (query_ok _); [|done]. destruct (_ <? 0)%Z; [done|].
    destruct (_ && _); [|done]. intros [= <- _]. cbn [response_items].
    apply deleted_not_rendered; [done|].
    intros y Hy%elem_of_cursor_limit%elem_of_drop%elem_of_sort.
    apply list_elem_of_filter in Hy as [Hy _].
    by apply projects_query_live in Hy.
  - intros slug r w'. rewrite (get_project_run slug w D Hdb).
    destruct (head _) as [y|] eqn:Hhead; [|done].
    intros [= <- _]. cbn [response_items].
    apply head_Some_elem_of, list_elem_of_filter in Hhead as [Hy _].
    apply slug_query_match in Hy as [_ Hy].
    intros Hin%list_elem_of_singleton. apply Hy. by apply (to_dict_deleted x).
  - intros category search r w'. rewrite (list_skills_run _ _ w D Hdb).
    destruct (query_ok _); [|done]. intros [= <- _]. cbn [response_items].
    apply deleted_not_rendered; [done|].
    intros y [Hy _]%elem_of_sort%list_elem_of_filter.
    by apply skills_query_live in Hy.
  - intros r w'. rewrite (list_testimonials_run w D Hdb).
    intros [= <- _]. cbn [response_items].
    apply deleted_not_rendered; [done|].
    intros y [Hy _]%elem_of_sort%list_elem_of_filter.
    exact (live_query [is_published] y Hy).
  - intros tag search r w'. rewrite (list_certificates_run _ _ w D Hdb).
    destruct (query_ok _); [|done]. intros [= <- _]. cbn [response_items].
    apply deleted_not_rendered; [done|].
    intros y [Hy _]%elem_of_sort%list_elem_of_filter.
    by apply certificates_query_live in Hy.
  - intros slug Hall. rewrite (get_project_run slug w D Hdb).
    destruct (head _) as [y|] eqn:Hhead; [|done].
    apply head_Some_elem_of, list_elem_of_filter in Hhead as [Hy Hin].
    apply slug_query_match in Hy as [Hs Hy]. destruct Hy. by apply Hall.
Qed.

(** C5 (amended). The project list does not validate [page] or [limit].
    With a search pattern the store accepts it fails exactly when
    [(page-1)*limit] is negative ([ValueError] from the cursor) or when the
    skip or the limit is beyond the 8-byte integers the driver can send
    ([OverflowError]), and then with a 500; otherwise it succeeds, [total]
    is the number of matching documents before skip and limit,
    [limit = 0] returns every matching document, and for [page >= 1] and
    [limit >= 1] the page holds the [limit] documents after the first
    [(page-1)*limit] of the sorted matches (fewer at the end). *)
Theorem list_projects_pagination published tag search page limit w D :
  db w = Some D →
  query_ok (projects_query published tag search) = true →
  let found := filter (λ x, matches (projects_query published tag search) x = true)
                      (D !!! "project") in
  let cursor :=
    sort [("featured", -1); ("orderIndex", 1); ("created_at", -1)]%Z found in
  let skip := ((page - 1) * limit)%Z in
  let r := list_projects published tag search page limit w in
  ((skip < 0)%Z → r = (Raise ValueError, w) ∧ status_of r.1 = 500%Z)
  ∧ ((0 ≤ skip)%Z → int64 skip && int64 (Z.abs limit) = false →
     r = (Raise OverflowError, w) ∧ status_of r.1 = 500%Z)
  ∧ ((0 ≤ skip)%Z → int64 skip && int64 (Z.abs limit) = true →
     ∃ items,
       r = (Ok (Page items (length found) page limit), w)
       ∧ (limit = 0%Z → items = to_dict <$> cursor)
       ∧ ((1 ≤ page)%Z → (1 ≤ limit)%Z →
          items = to_dict <$> take (Z.to_nat limit) (drop (Z.to_nat skip) cursor)
          ∧ length items
            = Nat.min (Z.to_nat limit) (length found - Z.to_nat skip))).
Proof.
  intros Hdb Hq found cursor skip r. subst r.
  rewrite (list_projects_run _ _ _ _ _ w D Hdb), Hq. fold found cursor skip.
  split; [|split].
  - intros Hneg. by rewrite (proj2 (Z.ltb_lt _ _) Hneg).
  - intros Hpos Hbig. by rewrite (proj2 (Z.ltb_ge _ _) Hpos), Hbig.
  - intros Hpos Hfit. rewrite (proj2 (Z.ltb_ge _ _) Hpos), Hfit.
    eexists; split; [reflexivity|]. split.
    + intros ->. unfold skip. by rewrite Z.mul_0_r.
    + intros Hpage Hlimit. unfold cursor_limit.
      rewrite (proj2 (Z.eqb_neq limit 0)) by lia.
      rewrite Z.abs_eq by lia. split; [done|].
      rewrite length_fmap, length_take, length_drop.
      unfold cursor. by rewrite sort_Permutation.
Qed.

(** ** Project creation *)

Lemma datetime_now_run w : datetime_now w = (Ok (clock w), w).
Proof. reflexivity. Qed.

Lemma stamped_slug (now : Q) payload :
  default VNull
    (<["updated_at" := VDate now]>
       (<["created_at" := VDate now]> (Project.model_dump payload)) !! "slug")
  = VStr (Project.slug payload).
Proof. by rewrite !lookup_insert_ne. Qed.

Lemma slug_filter_match slug x :
  fields x !! "slug" = Some (VStr slug) →
  matches [Field "slug" (Eq_ (VStr slug))] x = true.
Proof.
  intros H. cbn [matches forallb clause_match cond_match].
  rewrite as_dict_lookup, H by done. cbn [eq_match].
  by rewrite bool_decide_true.
Qed.

(** C2. Creating a project whose slug is carried by a document of the
    project collection, soft-deleted or not, fails with the conflict error
    (400 "Slug already exists", a client error) and leaves the store as it
    was: nothing is inserted. *)
Theorem create_project_conflict payload w D x :
  db w = Some D →
  x ∈ D !!! "project" →
  fields x !! "slug" = Some (VStr (Project.slug payload)) →
  create_project payload w = (Raise (HTTPException 400 "Slug already exists"), w)
  ∧ is_client_error (status_of (create_project payload w).1) = true.
Proof.
  intros Hdb Hx Hslug.
  assert (create_project payload w
          = (Raise (HTTPException 400 "Slug already exists"), w)) as ->;
    [|done].
  unfold create_project.
  rewrite (bind_run _ _ _ _ _ (require_db_run w D Hdb)).
  rewrite (bind_run _ _ _ _ _ (datetime_now_run w)).
  erewrite bind_run
    by (apply (find_one_run "project" _ w D Hdb); reflexivity).
  rewrite stamped_slug.
  destruct (head _) as [y|] eqn:Hhead; [done|].
  apply head_None in Hhead.
  assert (x ∈ filter (λ x, matches [Field "slug" (Eq_ (VStr (Project.slug payload)))] x = true)
                (D !!! "project")) as Hin
    by (apply list_elem_of_filter; split; [by apply slug_filter_match|done]).
  rewrite Hhead in Hin. by apply elem_of_nil in Hin.
Qed.

(** ** Filters on [_id] *)

Lemma matches_by_id o x : matches (by_id o) x = bool_decide (_id x = o).
Proof.
  unfold by_id. cbn [matches forallb clause_match cond_match].
  rewrite as_dict_id, andb_true_r. cbn [eq_match].
  apply bool_decide_ext. split; congruence.
Qed.

Lemma eq_match_oid_in (i : oid) oids :
  existsb (eq_match (Some (VOid i))) (VOid <$> oids) = bool_decide (i ∈ oids).
Proof.
  induction oids as [|o oids IH]; cbn [fmap list_fmap existsb].
  - symmetry. apply bool_decide_eq_false. apply not_elem_of_nil.
  - rewrite IH. cbn [eq_match].
    destruct (decide (i = o)) as [->|Hne].
    + rewrite (bool_decide_true (VOid o = VOid o)) by done.
      by rewrite (bool_decide_true (o ∈ o :: oids)) by apply list_elem_of_here.
    + rewrite (bool_decide_false (VOid i = VOid o)) by congruence.
      cbn [orb]. apply bool_decide_ext. rewrite elem_of_cons. tauto.
Qed.

Lemma matches_id_in oids x :
  matches [Field "_id" (In_ (VOid <$> oids))] x = bool_decide (_id x ∈ oids).
Proof.
  cbn [matches forallb clause_match cond_match].
  by rewrite as_dict_id, andb_true_r, eq_match_oid_in.
Qed.

Lemma existsb_by_id o l :
  existsb (matches (by_id o)) l = bool_decide (o ∈ _id <$> l).
Proof.
  induction l as [|x l IH]; cbn [existsb fmap list_fmap].
  - symmetry. apply bool_decide_eq_false, not_elem_of_nil.
  - rewrite IH, matches_by_id.
    destruct (decide (_id x = o)) as [<-|Hne].
    + rewrite (bool_decide_true (_id x = _id x)) by done.
      by rewrite (bool_decide_true (_id x ∈ _id x :: (_id <$> l)))
        by apply list_elem_of_here.
    + rewrite (bool_decide_false (_id x = o)) by done.
      cbn [orb]. apply bool_decide_ext. rewrite elem_of_cons.
      split; [by right | intros [?|?]; [congruence | done]].
Qed.

Lemma update_first_absent o f l :
  o ∉ _id <$> l → update_first (matches (by_id o)) f l = l.
Proof.
  induction l as [|x l IH]; [done|]. cbn [fmap list_fmap update_first].
  intros [Hne Hl]%not_elem_of_cons. rewrite matches_by_id.
  rewrite bool_decide_false by done. by rewrite IH.
Qed.

Lemma delete_first_absent o l :
  o ∉ _id <$> l → delete_first (matches (by_id o)) l = l.
Proof.
  induction l as [|x l IH]; [done|]. cbn [fmap list_fmap delete_first].
  intros [Hne Hl]%not_elem_of_cons. rewrite matches_by_id.
  rewrite bool_decide_false by done. by rewrite IH.
Qed.

(** With unique ids, updating the first match updates the match. *)
Lemma update_first_by_id o f l :
  NoDup (_id <$> l) →
  update_first (matches (by_id o)) f l
  = (λ x, if bool_decide (_id x = o) then f x else x) <$> l.
Proof.
  induction l as [|x l IH]; [done|]. cbn [fmap list_fmap update_first].
  intros [Hx Hl]%NoDup_cons. rewrite matches_by_id.
  destruct (decide (_id x = o)) as [Ho|Ho].
  - rewrite !bool_decide_true by done. f_equal.
    rewrite <- (update_first_absent o f l) at 1 by congruence.
    rewrite <- IH by done. by rewrite update_first_absent by congruence.
  - rewrite !bool_decide_false by done. f_equal. by apply IH.
Qed.

(** ** The store after a write *)

Lemma with_db_twice D D' w : with_db D' (with_db D w) = with_db D' w.
Proof. reflexivity. Qed.

Lemma encodable_insert k v (d : gmap string value) :
  int_ok v = true → encodable d → encodable (<[k := v]> d).
Proof. intros Hv Hd. by apply map_Forall_insert_2. Qed.

Lemma encodable_empty : encodable ∅.
Proof. apply map_Forall_empty. Qed.

Lemma log_entry_encodable user_email action entity entity_id now :
  encodable (log_entry user_email action entity entity_id now).
Proof.
  unfold log_entry. cbn [list_to_map foldr fst snd uncurry].
  repeat (apply encodable_insert; [reflexivity|]). apply encodable_empty.
Qed.

Lemma stamped_encodable (now : Q) dump :
  encodable dump →
  encodable (<["updated_at" := VDate now]> (<["created_at" := VDate now]> dump)).
Proof. intros H. by repeat (apply encodable_insert; [reflexivity|]). Qed.

Lemma soft_delete_encodable (now : Q) :
  encodable (list_to_map [("deleted", VBool true); ("updated_at", VDate now)]).
Proof.
  cbn [list_to_map foldr fst snd uncurry].
  repeat (apply encodable_insert; [reflexivity|]). apply encodable_empty.
Qed.

Lemma insert_one_spec c data w D :
  db w = Some D → encodable data →
  insert_one c data w
  = if decide (c ∈ down w) then (Raise PyMongoError, w)
    else (Ok (new_oid (D !!! c)),
          with_db (<[c := D !!! c ++ [Doc (new_oid (D !!! c)) data]]> D) w).
Proof.
  intros H Henc. destruct (decide (c ∈ down w)).
  - by apply (insert_one_down _ _ _ D).
  - by apply insert_one_run.
Qed.

(** The activity-log append that ends every mutation. *)
Lemma log_append_spec {A} user_email action entity entity_id now (a : A) w D :
  db w = Some D →
  (insert_one "activitylog" (log_entry user_email action entity entity_id now) ;;
   mret a) w
  = if decide ("activitylog" ∈ down w) then (Raise PyMongoError, w)
    else (Ok a, with_db (logged (log_entry user_email action entity entity_id now)
                           D) w).
Proof.
  intros H. unfold mbind, M_bind, bind.
  rewrite (insert_one_spec _ _ w D H (log_entry_encodable _ _ _ _ _)).
  by destruct (decide _).
Qed.

(** ** The admin mutations, run on a configured store *)

Lemma create_entity_run c dump w D :
  db w = Some D → c ∉ down w →
  let now := clock w in
  let data := <["updated_at" := VDate now]> (<["created_at" := VDate now]> dump) in
  let o := new_oid (D !!! c) in
  let D1 := <[c := D !!! c ++ [Doc o data]]> D in
  create_entity c dump w
  = if decide (encodable data) then
      if decide ("activitylog" ∈ down w) then (Raise PyMongoError, with_db D1 w)
      else (Ok (Created (str_oid o)),
            with_db (logged (log_entry "admin" "create" c (str_oid o) now) D1) w)
    else (Raise OverflowError, w).
Proof.
  intros Hdb Hup now data o D1. unfold create_entity.
  rewrite (bind_run _ _ _ _ _ (datetime_now_run w)). fold now data.
  destruct (decide (encodable data)) as [Henc|Henc].
  - rewrite (bind_run _ _ _ _ _ (insert_one_run c _ w D Hdb Henc Hup)).
    by rewrite (log_append_spec _ _ _ _ _ _ _ D1).
  - by rewrite (bind_raise _ _ _ _ _ (insert_one_overflow c _ w D Hdb Henc)).
Qed.

Lemma update_entity_run c id dump w D o :
  db w = Some D → c ∉ down w → oid_of_str id = Some o →
  let now := clock w in
  let data := <["updated_at" := VDate now]> dump in
  let D1 := <[c := update_first (matches (by_id o)) (set_fields data) (D !!! c)]> D in
  update_entity c id dump w
  = if decide (encodable data) then
      if bool_decide (o ∈ _id <$> D !!! c) then
        if decide ("activitylog" ∈ down w)
        then (Raise PyMongoError, with_db D1 w)
        else (Ok OkTrue,
              with_db (logged (log_entry "admin" "update" c id now) D1) w)
      else (Raise (HTTPException 404 "Not found"), with_db D1 w)
    else (Raise OverflowError, w).
Proof.
  intros Hdb Hup Hid now data D1. unfold update_entity.
  rewrite (bind_run _ _ _ _ _ (datetime_now_run w)).
  rewrite (bind_run _ _ _ _ _ (collection_run c w D Hdb)).
  rewrite (bind_run _ _ _ _ _ (ObjectId_run id o w Hid)). fold now data.
  destruct (decide (encodable data)) as [Henc|Henc].
  - rewrite (bind_run _ _ _ _ _
               (update_one_run c (by_id o) data w D Hdb Henc eq_refl Hup)).
    rewrite existsb_by_id. fold D1.
    destruct (bool_decide (o ∈ _id <$> D !!! c)); cbn [Nat.eqb]; [|done].
    by rewrite (log_append_spec _ _ _ _ _ _ _ D1).
  - by rewrite (bind_raise _ _ _ _ _ (update_one_overflow c _ _ w D Hdb Henc)).
Qed.

Lemma delete_entity_run c id (hard : bool) w D o :
  db w = Some D → c ∉ down w → oid_of_str id = Some o →
  let now := clock w in
  let l' := if hard then delete_first (matches (by_id o)) (D !!! c)
            else update_first (matches (by_id o))
                   (set_fields (list_to_map [("deleted", VBool true);
                                             ("updated_at", VDate now)]))
                   (D !!! c) in
  let D1 := <[c := l']> D in
  delete_entity c id hard w
  = if decide ("activitylog" ∈ down w) then (Raise PyMongoError, with_db D1 w)
    else (Ok OkTrue, with_db (logged (log_entry "admin" "delete" c id now) D1) w).
Proof.
  intros Hdb Hup Hid now l' D1. unfold delete_entity.
  rewrite (bind_run _ _ _ _ _ (datetime_now_run w)). fold now.
  destruct hard.
  - assert ((collection c ;; o ← ObjectId id; delete_one c (by_id o)) w
            = (Ok (if existsb (matches (by_id o)) (D !!! c) then 1 else 0)%nat,
               with_db D1 w)) as Hstep.
    { rewrite (bind_run _ _ _ _ _ (collection_run c w D Hdb)).
      rewrite (bind_run _ _ _ _ _ (ObjectId_run id o w Hid)).
      by rewrite (delete_one_run c (by_id o) w D Hdb eq_refl Hup). }
    rewrite (bind_run _ _ _ _ _ Hstep).
    by rewrite (log_append_spec _ _ _ _ _ _ _ D1).
  - assert ((collection c ;; o ← ObjectId id;
             update_one c (by_id o)
               (list_to_map [("deleted", VBool true); ("updated_at", VDate now)])) w
            = (Ok (if existsb (matches (by_id o)) (D !!! c) then 1 else 0)%nat,
               with_db D1 w)) as Hstep.
    { rewrite (bind_run _ _ _ _ _ (collection_run c w D Hdb)).
      rewrite (bind_run _ _ _ _ _ (ObjectId_run id o w Hid)).
      by rewrite (update_one_run c (by_id o) _ w D Hdb
                    (soft_delete_encodable now) eq_refl Hup). }
    rewrite (bind_run _ _ _ _ _ Hstep).
    by rewrite (log_append_spec _ _ _ _ _ _ _ D1).
Qed.

Lemma coll_of_db c w D : db w = Some D → coll_of c w = D !!! c.
Proof. intros H. unfold coll_of. by rewrite H. Qed.

Lemma coll_of_with_db c D w : coll_of c (with_db D w) = D !!! c.
Proof. reflexivity. Qed.

Lemma logged_log entry (D : gmap string (list doc)) :
  logged entry D !!! "activitylog"
  = D !!! "activitylog" ++ [Doc (new_oid (D !!! "activitylog")) entry].
Proof. unfold logged. by rewrite lookup_total_insert_eq. Qed.

Lemma logged_other entry (D : gmap string (list doc)) c :
  c ≠ "activitylog" → logged entry D !!! c = D !!! c.
Proof. intros Hc. unfold logged. by rewrite lookup_total_insert_ne. Qed.

Lemma create_project_unfold payload w D :
  db w = Some D →
  create_project payload w
  = match head (filter (λ x, matches [Field "slug" (Eq_ (VStr (Project.slug payload)))] x = true)
                       (D !!! "project")) with
    | Some _ => (Raise (HTTPException 400 "Slug already exists"), w)
    | None => create_entity "project" (Project.model_dump payload) w
    end.
Proof.
  intros Hdb. unfold create_project, create_entity.
  rewrite (bind_run _ _ _ _ _ (require_db_run w D Hdb)).
  rewrite !(bind_run _ _ _ _ _ (datetime_now_run w)).
  erewrite bind_run
    by (apply (find_one_run "project" _ w D Hdb); reflexivity).
  rewrite stamped_slug. by destruct (head _).
Qed.

Lemma update_project_unfold id payload w D :
  db w = Some D →
  update_project id payload w
  = update_entity "project" id (Project.model_dump payload) w.
Proof.
  intros Hdb. unfold update_project.
  by rewrite (bind_run _ _ _ _ _ (require_db_run w D Hdb)).
Qed.

Lemma delete_project_unfold id hard w D :
  db w = Some D →
  delete_project id hard w = delete_entity "project" id hard w.
Proof.
  intros Hdb. unfold delete_project.
  by rewrite (bind_run _ _ _ _ _ (require_db_run w D Hdb)).
Qed.

(** ** Deleting an id that is not there *)

Lemma delete_entity_absent c id o (hard : bool) w D :
  db w = Some D → c ∉ down w → "activitylog" ∉ down w → c ≠ "activitylog" →
  oid_of_str id = Some o → o ∉ _id <$> coll_of c w →
  ∃ w', delete_entity c id hard w = (Ok OkTrue, w')
        ∧ coll_of c w' = coll_of c w
        ∧ coll_of "activitylog" w'
          = coll_of "activitylog" w
            ++ [Doc (new_oid (coll_of "activitylog" w))
                    (log_entry "admin" "delete" c id (clock w))].
Proof.
  intros Hdb Hup Hlog Hc Hid Habs.
  rewrite !(coll_of_db _ w D Hdb) in *.
  rewrite (delete_entity_run c id hard w D o Hdb Hup Hid).
  rewrite decide_False by done. eexists; split; [reflexivity|].
  rewrite !coll_of_with_db, logged_log, logged_other by done.
  rewrite lookup_total_insert_eq, lookup_total_insert_ne by done.
  split; [|done].
  destruct hard; [by apply delete_first_absent | by apply update_first_absent].
Qed.

Lemma log_entry_audit action entity entity_id now o :
  audit action entity entity_id now
    (Doc o (log_entry "admin" action entity entity_id now)).
Proof.
  unfold audit, log_entry. cbn [fields list_to_map foldr fst snd uncurry].
  split; [reflexivity|]. split; [reflexivity|]. split; [reflexivity|].
  split; [reflexivity|]. split.
  - exists now. split; [reflexivity|]. unfold at_ms. split; [lra|apply Qle_refl].
  - intros k Hk. rewrite !not_elem_of_cons in Hk.
    destruct Hk as (? & ? & ? & ? & ? & _).
    by rewrite !lookup_insert_ne, lookup_empty.
Qed.

Lemma delete_entity_absent_audit c id o (hard : bool) w D :
  db w = Some D → c ∉ down w → "activitylog" ∉ down w → c ≠ "activitylog" →
  oid_of_str id = Some o → o ∉ _id <$> coll_of c w →
  ∃ w' e, delete_entity c id hard w = (Ok OkTrue, w')
          ∧ coll_of c w' = coll_of c w
          ∧ coll_of "activitylog" w' = coll_of "activitylog" w ++ [e]
          ∧ audit "delete" c id (clock w) e.
Proof.
  intros Hdb Hup Hlog Hc Hid Habs.
  destruct (delete_entity_absent c id o hard w D Hdb Hup Hlog Hc Hid Habs)
    as (w' & Hrun & Hcoll & Hentry).
  exists w', (Doc (new_oid (coll_of "activitylog" w))
                  (log_entry "admin" "delete" c id (clock w))).
  split; [exact Hrun|]. split; [exact Hcoll|]. split; [exact Hentry|].
  apply log_entry_audit.
Qed.

(** C10. Deleting, soft or hard, with a well-formed id that matches no
    document of the collection still answers [{"ok": True}], leaves the
    collection as it was and appends one activity-log entry; so for the
    project handler and for the skill, testimonial and certificate ones.
    The entry appended has [user_email = "admin"], [action = "delete"],
    the name of the collection as [entity], the id as [entity_id], the
    time of the request as [timestamp], and no other field. *)
Theorem delete_absent_id_logged id o (hard : bool) w D :
  db w = Some D → "activitylog" ∉ down w → oid_of_str id = Some o →
  ("project" ∉ down w → o ∉ _id <$> coll_of "project" w →
   ∃ w' e, delete_project id hard w = (Ok OkTrue, w')
           ∧ coll_of "project" w' = coll_of "project" w
           ∧ coll_of "activitylog" w' = coll_of "activitylog" w ++ [e]
           ∧ audit "delete" "project" id (clock w) e)
  ∧ ("skill" ∉ down w → o ∉ _id <$> coll_of "skill" w →
     ∃ w' e, delete_skill id hard w = (Ok OkTrue, w')
             ∧ coll_of "skill" w' = coll_of "skill" w
             ∧ coll_of "activitylog" w' = coll_of "activitylog" w ++ [e]
             ∧ audit "delete" "skill" id (clock w) e)
  ∧ ("testimonial" ∉ down w → o ∉ _id <$> coll_of "testimonial" w →
     ∃ w' e, delete_testimonial id hard w = (Ok OkTrue, w')
             ∧ coll_of "testimonial" w' = coll_of "testimonial" w
             ∧ coll_of "activitylog" w' = coll_of "activitylog" w ++ [e]
             ∧ audit "delete" "testimonial" id (clock w) e)
  ∧ ("certificate" ∉ down w → o ∉ _id <$> coll_of "certificate" w →
     ∃ w' e, delete_certificate id hard w = (Ok OkTrue, w')
             ∧ coll_of "certificate" w' = coll_of "certificate" w
             ∧ coll_of "activitylog" w' = coll_of "activitylog" w ++ [e]
             ∧ audit "delete" "certificate" id (clock w) e).
Proof.
  intros Hdb Hlog Hid. split; [|split; [|split]].
  - intros Hup Habs. rewrite (delete_project_unfold id hard w D Hdb).
    exact (delete_entity_absent_audit "project" id o hard w D Hdb Hup Hlog
             ltac:(done) Hid Habs).
  - intros Hup Habs.
    exact (delete_entity_absent_audit "skill" id o hard w D Hdb Hup Hlog
             ltac:(done) Hid Habs).
  - intros Hup Habs.
    exact (delete_entity_absent_audit "testimonial" id o hard w D Hdb Hup Hlog
             ltac:(done) Hid Habs).
  - intros Hup Habs.
    exact (delete_entity_absent_audit "certificate" id o hard w D Hdb Hup Hlog
             ltac:(done) Hid Habs).
Qed.

(** ** Malformed ids *)

Lemma update_entity_malformed c id dump w :
  oid_of_str id = None → status_of (update_entity c id dump w).1 = 500%Z.
Proof.
  intros Hid. unfold update_entity.
  rewrite (bind_run _ _ _ _ _ (datetime_now_run w)).
  destruct (db w) as [D|] eqn:Hdb.
  - rewrite (bind_run _ _ _ _ _ (collection_run c w D Hdb)).
    by rewrite (bind_raise _ _ _ _ _ (ObjectId_invalid id w Hid)).
  - by rewrite (bind_raise _ _ _ _ _ (collection_none c w Hdb)).
Qed.

Lemma delete_entity_malformed c id (hard : bool) w :
  oid_of_str id = None → status_of (delete_entity c id hard w).1 = 500%Z.
Proof.
  intros Hid. unfold delete_entity.
  rewrite (bind_run _ _ _ _ _ (datetime_now_run w)).
  destruct hard, (db w) as [D|] eqn:Hdb.
  - assert ((collection c ;; o ← ObjectId id; delete_one c (by_id o)) w
            = (Raise InvalidId, w)) as Hstep.
    { rewrite (bind_run _ _ _ _ _ (collection_run c w D Hdb)).
      by rewrite (bind_raise _ _ _ _ _ (ObjectId_invalid id w Hid)). }
    by rewrite (bind_raise _ _ _ _ _ Hstep).
  - assert ((collection c ;; o ← ObjectId id; delete_one c (by_id o)) w
            = (Raise TypeError, w)) as Hstep
      by (by rewrite (bind_raise _ _ _ _ _ (collection_none c w Hdb))).
    by rewrite (bind_raise _ _ _ _ _ Hstep).
  - assert ((collection c ;; o ← ObjectId id;
             update_one c (by_id o)
               (list_to_map [("deleted", VBool true);
                             ("updated_at", VDate (clock w))])) w
            = (Raise InvalidId, w)) as Hstep.
    { rewrite (bind_run _ _ _ _ _ (collection_run c w D Hdb)).
      by rewrite (bind_raise _ _ _ _ _ (ObjectId_invalid id w Hid)). }
    by rewrite (bind_raise _ _ _ _ _ Hstep).
  - assert ((collection c ;; o ← ObjectId id;
             update_one c (by_id o)
               (list_to_map [("deleted", VBool true);
                             ("updated_at", VDate (clock w))])) w
            = (Raise TypeError, w)) as Hstep
      by (by rewrite (bind_raise _ _ _ _ _ (collection_none c w Hdb))).
    by rewrite (bind_raise _ _ _ _ _ Hstep).
Qed.

Lemma update_project_malformed id payload w :
  oid_of_str id = None → status_of (update_project id payload w).1 = 500%Z.
Proof.
  intros Hid. destruct (db w) as [D|] eqn:Hdb.
  - rewrite (update_project_unfold id payload w D Hdb).
    by apply update_entity_malformed.
  - unfold update_project.
    by rewrite (bind_raise _ _ _ _ _ (require_db_none w Hdb)).
Qed.

Lemma delete_project_malformed id (hard : bool) w :
  oid_of_str id = None → status_of (delete_project id hard w).1 = 500%Z.
Proof.
  intros Hid. destruct (db w) as [D|] eqn:Hdb.
  - rewrite (delete_project_unfold id hard w D Hdb).
    by apply delete_entity_malformed.
  - unfold delete_project.
    by rewrite (bind_raise _ _ _ _ _ (require_db_none w Hdb)).
Qed.

Lemma object_ids_malformed ids id w :
  id ∈ ids → oid_of_str id = None → object_ids ids w = (Raise InvalidId, w).
Proof.
  intros Hin Hid. induction ids as [|x ids IH]; [by apply elem_of_nil in Hin|].
  cbn [object_ids]. destruct (oid_of_str x) as [o|] eqn:Hx.
  - rewrite (bind_run _ _ _ _ _ (ObjectId_run x o w Hx)).
    apply elem_of_cons in Hin as [->|Hin]; [congruence|].
    by rewrite (bind_raise _ _ _ _ _ (IH Hin)).
  - by rewrite (bind_raise _ _ _ _ _ (ObjectId_invalid x w Hx)).
Qed.

Lemma bulk_publish_malformed ids id published w :
  id ∈ ids → oid_of_str id = None →
  bulk_publish_projects ids published w = (Raise InvalidId, w).
Proof.
  intros Hin Hid. unfold bulk_publish_projects.
  rewrite (bind_run _ _ _ _ _ (datetime_now_run w)).
  by rewrite (bind_raise _ _ _ _ _ (object_ids_malformed ids id w Hin Hid)).
Qed.

Lemma unhandled_status {A} (e : exn) :
  unhandled e → status_of (Raise e : Res A) = 500%Z.
Proof. by destruct e. Qed.

(** The store either takes an update or raises; it raises no HTTP error. *)
Lemma update_one_cases c q upd w :
  (∃ n w', update_one c q upd w = (Ok n, w'))
  ∨ (∃ e, update_one c q upd w = (Raise e, w) ∧ unhandled e).
Proof.
  unfold update_one. destruct (db w) as [D|] eqn:Hdb.
  - rewrite (bind_run _ _ _ _ _ (collection_run c w D Hdb)).
    destruct (decide (encodable upd)) as [Henc|Henc].
    + rewrite (bind_run _ _ _ _ _ (encode_run upd w Henc)).
      destruct (query_ok q) eqn:Hq.
      * rewrite (bind_run _ _ _ _ _ (parse_run q w Hq)).
        destruct (decide (c ∈ down w)) as [Hdn|Hup].
        -- right. exists PyMongoError.
           by rewrite (bind_raise _ _ _ _ _ (store_down c _ w D Hdb Hdn)).
        -- left. rewrite (bind_run _ _ _ _ _ (store_run c _ w D Hdb Hup)). eauto.
      * right. exists OperationFailure.
        by rewrite (bind_raise _ _ _ _ _ (parse_refused q w Hq)).
    + right. exists OverflowError.
      by rewrite (bind_raise _ _ _ _ _ (encode_overflow upd w Henc)).
  - right. exists TypeError.
    by rewrite (bind_raise _ _ _ _ _ (collection_none c w Hdb)).
Qed.

Lemma reorder_from_malformed ids id idx w :
  id ∈ ids → oid_of_str id = None →
  ∃ e w', reorder_from idx ids w = (Raise e, w') ∧ unhandled e.
Proof.
  intros Hin Hid. revert idx w.
  induction ids as [|x ids IH]; intros idx w; [by apply elem_of_nil in Hin|].
  cbn [reorder_from]. destruct (db w) as [D|] eqn:Hdb.
  - rewrite (bind_run _ _ _ _ _ (collection_run "project" w D Hdb)).
    destruct (oid_of_str x) as [o|] eqn:Hx.
    + rewrite (bind_run _ _ _ _ _ (ObjectId_run x o w Hx)).
      apply elem_of_cons in Hin as [->|Hin]; [congruence|].
      destruct (update_one_cases "project" (by_id o)
                  {["orderIndex" := VInt (Z.of_nat idx)]} w)
        as [(n & w' & Hrun)|(e & Hrun & He)].
      * rewrite (bind_run _ _ _ _ _ Hrun). by apply IH.
      * rewrite (bind_raise _ _ _ _ _ Hrun). by exists e, w.
    + rewrite (bind_raise _ _ _ _ _ (ObjectId_invalid x w Hx)).
      by exists InvalidId, w.
  - rewrite (bind_raise _ _ _ _ _ (collection_none "project" w Hdb)).
    by exists TypeError, w.
Qed.

Lemma has_junk_fromhex s acc : has_junk s = true → fromhex acc s = None.
Proof.
  revert acc. induction s as [|c s IH]; intros acc; [done|].
  cbn [has_junk fromhex]. destruct (hex_val c) as [d|]; [|done].
  rewrite bool_decide_false by done. cbn [andb orb]. apply IH.
Qed.

Lemma malformed_rejected id : malformed id = true → oid_of_str id = None.
Proof.
  unfold malformed, oid_of_str.
  destruct (Nat.eqb (String.length id) 24); [|done].
  cbn [negb orb]. apply has_junk_fromhex.
Qed.

(** C4 (amended). A malformed id string, one that [ObjectId] rejects, is
    not answered with a client error: the [InvalidId] (or an earlier
    failure of the store) escapes the handler and the caller gets a 500,
    in update and delete of every entity, in bulk-publish and in reorder
    whenever the id is among those given, whatever the state of the
    store. *)
Theorem malformed_id_server_error id w :
  malformed id = true →
  (∀ payload, status_of (update_project id payload w).1 = 500%Z)
  ∧ (∀ hard, status_of (delete_project id hard w).1 = 500%Z)
  ∧ (∀ payload, status_of (update_skill id payload w).1 = 500%Z)
  ∧ (∀ hard, status_of (delete_skill id hard w).1 = 500%Z)
  ∧ (∀ payload, status_of (update_testimonial id payload w).1 = 500%Z)
  ∧ (∀ hard, status_of (delete_testimonial id hard w).1 = 500%Z)
  ∧ (∀ payload, status_of (update_certificate id payload w).1 = 500%Z)
  ∧ (∀ hard, status_of (delete_certificate id hard w).1 = 500%Z)
  ∧ (∀ ids published,
       id ∈ ids → status_of (bulk_publish_projects ids published w).1 = 500%Z)
  ∧ (∀ ordered_ids,
       id ∈ ordered_ids → status_of (reorder_projects ordered_ids w).1 = 500%Z)
  ∧ is_client_error 500 = false.
Proof.
  intros Hid%malformed_rejected. repeat split; intros.
  - by apply update_project_malformed.
  - by apply delete_project_malformed.
  - unfold update_skill. by apply update_entity_malformed.
  - unfold delete_skill. by apply delete_entity_malformed.
  - unfold update_testimonial. by apply update_entity_malformed.
  - unfold delete_testimonial. by apply delete_entity_malformed.
  - unfold update_certificate. by apply update_entity_malformed.
  - unfold delete_certificate. by apply delete_entity_malformed.
  - by rewrite (bulk_publish_malformed ids id).
  - destruct (reorder_from_malformed ordered_ids id 0 w) as (e & w' & Hrun & He);
      [done..|].
    unfold reorder_projects. rewrite (bind_raise _ _ _ _ _ Hrun).
    by apply unhandled_status.
Qed.

(** ** A failing activity-log append *)

Section LogFault.

(** [w] is the state in which the store rejects writes to the activity log
    only, [w0] the same state with a healthy store. *)
Variables (w w0 : World) (D : gmap string (list doc)).
Hypothesis Hdb : db w = Some D.
Hypothesis Hdb0 : db w0 = Some D.
Hypothesis Hclock : clock w0 = clock w.
Hypothesis Hdown : down w = {["activitylog"]}.
Hypothesis Hdown0 : down w0 = ∅.

Lemma log_is_down : "activitylog" ∈ down w.
Proof. rewrite Hdown. by apply elem_of_singleton. Qed.

Lemma entity_is_up c : c ≠ "activitylog" → c ∉ down w.
Proof. rewrite Hdown. intros Hc. by rewrite elem_of_singleton. Qed.

Lemma all_up0 c : c ∉ down w0.
Proof. rewrite Hdown0. apply not_elem_of_empty. Qed.

Lemma create_entity_log_fault c dump r w0' :
  c ≠ "activitylog" →
  create_entity c dump w0 = (Ok r, w0') →
  ∃ w', create_entity c dump w = (Raise PyMongoError, w')
        ∧ coll_of c w' = coll_of c w0'
        ∧ coll_of "activitylog" w' = coll_of "activitylog" w.
Proof.
  intros Hc.
  rewrite (create_entity_run c dump w0 D Hdb0 (all_up0 c)).
  rewrite (create_entity_run c dump w D Hdb (entity_is_up c Hc)).
  rewrite (decide_False (P := "activitylog" ∈ down w0)) by apply all_up0.
  rewrite (decide_True (P := "activitylog" ∈ down w)) by apply log_is_down.
  rewrite Hclock. destruct (decide (encodable _)); [|done].
  intros [= _ <-]. eexists; split; [reflexivity|].
  rewrite !coll_of_with_db, (coll_of_db _ w D Hdb), logged_other by done.
  split; [reflexivity|]. by rewrite lookup_total_insert_ne by done.
Qed.

Lemma update_entity_log_fault c id dump r w0' :
  c ≠ "activitylog" →
  update_entity c id dump w0 = (Ok r, w0') →
  ∃ w', update_entity c id dump w = (Raise PyMongoError, w')
        ∧ coll_of c w' = coll_of c w0'
        ∧ coll_of "activitylog" w' = coll_of "activitylog" w.
Proof.
  intros Hc Hrun. destruct (oid_of_str id) as [o|] eqn:Hid.
  - revert Hrun.
    rewrite (update_entity_run c id dump w0 D o Hdb0 (all_up0 c) Hid).
    rewrite (update_entity_run c id dump w D o Hdb (entity_is_up c Hc) Hid).
    rewrite (decide_False (P := "activitylog" ∈ down w0)) by apply all_up0.
    rewrite (decide_True (P := "activitylog" ∈ down w)) by apply log_is_down.
    rewrite Hclock. destruct (decide (encodable _)); [|done].
    destruct (bool_decide _); [|done].
    intros [= _ <-]. eexists; split; [reflexivity|].
    rewrite !coll_of_with_db, (coll_of_db _ w D Hdb), logged_other by done.
    split; [reflexivity|]. by rewrite lookup_total_insert_ne by done.
  - pose proof (update_entity_malformed c id dump w0 Hid) as Hs.
    rewrite Hrun in Hs. discriminate Hs.
Qed.

Lemma delete_entity_log_fault c id (hard : bool) r w0' :
  c ≠ "activitylog" →
  delete_entity c id hard w0 = (Ok r, w0') →
  ∃ w', delete_entity c id hard w = (Raise PyMongoError, w')
        ∧ coll_of c w' = coll_of c w0'
        ∧ coll_of "activitylog" w' = coll_of "activitylog" w.
Proof.
  intros Hc Hrun. destruct (oid_of_str id) as [o|] eqn:Hid.
  - revert Hrun.
    rewrite (delete_entity_run c id hard w0 D o Hdb0 (all_up0 c) Hid).
    rewrite (delete_entity_run c id hard w D o Hdb (entity_is_up c Hc) Hid).
    rewrite (decide_False (P := "activitylog" ∈ down w0)) by apply all_up0.
    rewrite (decide_True (P := "activitylog" ∈ down w)) by apply log_is_down.
    rewrite Hclock. intros [= _ <-]. eexists; split; [reflexivity|].
    rewrite !coll_of_with_db, (coll_of_db _ w D Hdb), logged_other by done.
    split; [reflexivity|]. by rewrite lookup_total_insert_ne by done.
  - pose proof (delete_entity_malformed c id hard w0 Hid) as Hs.
    rewrite Hrun in Hs. discriminate Hs.
Qed.

Lemma mutation_log_fault m r w0' :
  run_mutation m w0 = (Ok r, w0') →
  ∃ w', run_mutation m w = (Raise PyMongoError, w')
        ∧ coll_of (entity_of m) w' = coll_of (entity_of m) w0'
        ∧ coll_of "activitylog" w' = coll_of "activitylog" w.
Proof.
  destruct m; cbn [run_mutation entity_of].
  - rewrite (create_project_unfold payload w0 D Hdb0).
    rewrite (create_project_unfold payload w D Hdb).
    destruct (head _); [done|]. by apply create_entity_log_fault.
  - rewrite (update_project_unfold id payload w0 D Hdb0).
    rewrite (update_project_unfold id payload w D Hdb).
    by apply update_entity_log_fault.
  - rewrite (delete_project_unfold id hard w0 D Hdb0).
    rewrite (delete_project_unfold id hard w D Hdb).
    by apply delete_entity_log_fault.
  - unfold create_skill. by apply create_entity_log_fault.
  - unfold update_skill. by apply update_entity_log_fault.
  - unfold delete_skill. by apply delete_entity_log_fault.
  - unfold create_testimonial. by apply create_entity_log_fault.
  - unfold update_testimonial. by apply update_entity_log_fault.
  - unfold delete_testimonial. by apply delete_entity_log_fault.
  - unfold create_certificate. by apply create_entity_log_fault.
  - unfold update_certificate. by apply update_entity_log_fault.
  - unfold delete_certificate. by apply delete_entity_log_fault.
Qed.

End LogFault.

(** C3 (amended). A failure of the activity-log append is not swallowed.
    For every admin mutation that succeeds on a healthy store, the same
    call in the same state with a store that rejects the log write ends in
    the store's exception, which the caller sees as a 500; the effect on
    the entity collection, applied before the append, is the one of the
    successful run, and the log is unchanged. *)
Theorem log_failure_fails_mutation m w w0 D r w0' :
  db w = Some D → db w0 = Some D → clock w0 = clock w →
  down w = {["activitylog"]} → down w0 = ∅ →
  run_mutation m w0 = (Ok r, w0') →
  ∃ w', run_mutation m w = (Raise PyMongoError, w')
        ∧ status_of (run_mutation m w).1 = 500%Z
        ∧ coll_of (entity_of m) w' = coll_of (entity_of m) w0'
        ∧ coll_of "activitylog" w' = coll_of "activitylog" w.
Proof.
  intros Hdb Hdb0 Hclock Hdown Hdown0 Hrun.
  destruct (mutation_log_fault w w0 D Hdb Hdb0 Hclock Hdown Hdown0 m r w0' Hrun)
    as (w' & Hfail & Hentity & Hlog).
  exists w'. rewrite Hfail. repeat split; assumption.
Qed.

(** ** Updating a document *)

Lemma opt_str_ok o : int_ok (opt_str o) = true.
Proof. by destruct o. Qed.

Lemma opt_date_ok o : int_ok (opt_date o) = true.
Proof. by destruct o. Qed.

Lemma project_dump_encodable payload :
  int64 (Project.orderIndex payload) = true →
  encodable (Project.model_dump payload).
Proof.
  intros H. unfold Project.model_dump. cbn [list_to_map foldr fst snd uncurry].
  repeat (apply encodable_insert;
          [first [reflexivity | assumption | apply opt_str_ok
                 | apply opt_date_ok]|]).
  apply encodable_empty.
Qed.

Lemma update_entity_found c id o dump x w D :
  db w = Some D → c ∉ down w → "activitylog" ∉ down w →
  oid_of_str id = Some o → encodable dump →
  NoDup (_id <$> D !!! c) → x ∈ D !!! c → _id x = o →
  let data := <["updated_at" := VDate (clock w)]> dump in
  update_entity c id dump w
  = (Ok OkTrue,
     with_db (logged (log_entry "admin" "update" c id (clock w))
                (<[c := (λ y, if bool_decide (_id y = o) then set_fields data y
                              else y) <$> D !!! c]> D)) w).
Proof.
  intros Hdb Hup Hlog Hid Henc Hnodup Hx Hxo data.
  rewrite (update_entity_run c id dump w D o Hdb Hup Hid).
  rewrite decide_True by (by apply encodable_insert).
  rewrite bool_decide_true by (apply list_elem_of_fmap; by exists x).
  rewrite decide_False by done.
  by rewrite update_first_by_id.
Qed.

Lemma set_fields_lookup upd x k v :
  upd !! k = Some v → fields (set_fields upd x) !! k = Some v.
Proof. intros H. cbn [set_fields fields]. by apply lookup_union_Some_l. Qed.

Lemma set_fields_frame upd x k :
  upd !! k = None → fields (set_fields upd x) !! k = fields x !! k.
Proof. intros H. cbn [set_fields fields]. by apply lookup_union_r. Qed.

Lemma has_slug_intro slug x :
  fields x !! "slug" = Some (VStr slug) → has_slug slug x.
Proof. intros H. unfold has_slug. rewrite H. cbn [eq_match]. by apply bool_decide_true. Qed.

Lemma cursor_limit_all limit (l : list doc) :
  (1 ≤ limit)%Z → (Z.of_nat (length l) ≤ limit)%Z → cursor_limit limit l = l.
Proof.
  intros Hpos Hlen. unfold cursor_limit.
  rewrite (proj2 (Z.eqb_neq limit 0)) by lia.
  apply take_ge. lia.
Qed.

Lemma skill_dump_encodable payload :
  int64 (Skill.level payload) = true →
  int64 (Skill.orderIndex payload) = true →
  encodable (Skill.model_dump payload).
Proof.
  intros Hlevel Hidx. unfold Skill.model_dump.
  cbn [list_to_map foldr fst snd uncurry].
  repeat (apply encodable_insert;
          [first [reflexivity | assumption | apply opt_str_ok]|]).
  apply encodable_empty.
Qed.

Lemma testimonial_dump_encodable payload :
  int64 (Testimonial.orderIndex payload) = true →
  encodable (Testimonial.model_dump payload).
Proof.
  intros Hidx. unfold Testimonial.model_dump.
  cbn [list_to_map foldr fst snd uncurry].
  repeat (apply encodable_insert;
          [first [reflexivity | assumption | apply opt_str_ok]|]).
  apply encodable_empty.
Qed.

Lemma certificate_dump_encodable payload :
  encodable (Certificate.model_dump payload).
Proof.
  unfold Certificate.model_dump. cbn [list_to_map foldr fst snd uncurry].
  repeat (apply encodable_insert; [first [reflexivity | apply opt_str_ok]|]).
  apply encodable_empty.
Qed.

(** The update body on a soft-deleted target: it succeeds, and the target
    carries the flag of the dump afterwards. *)
Lemma update_entity_resurrects c id o dump x w D (del : bool) :
  db w = Some D → c ≠ "activitylog" → "activitylog" ∉ down w →
  oid_of_str id = Some o → soft_deleted_in c o w x → encodable dump →
  dump !! "deleted" = Some (VBool del) →
  let x' := updated dump (clock w) x in
  ∃ D',
    update_entity c id dump w = (Ok OkTrue, with_db D' w)
    ∧ length (D' !!! c) = length (D !!! c)
    ∧ x' ∈ D' !!! c
    ∧ fields x' !! "deleted" = Some (VBool del)
    ∧ (del = false → ¬ is_deleted x').
Proof.
  intros Hdb Hc Hlog Hid (Hup & Hnodup & Hx & Hxo & _) Henc Hdel x'.
  rewrite (coll_of_db c w D Hdb) in Hnodup, Hx.
  eexists. split.
  { rewrite (update_entity_found c id o dump x w D) by done. reflexivity. }
  rewrite logged_other, lookup_total_insert_eq by done.
  assert (Hflag : fields x' !! "deleted" = Some (VBool del)).
  { apply set_fields_lookup. by rewrite lookup_insert_ne. }
  split; [by rewrite length_fmap|]. split.
  { apply list_elem_of_fmap. exists x. split; [|done].
    by rewrite bool_decide_true. }
  split; [exact Hflag|].
  intros ->. unfold is_deleted. rewrite Hflag. congruence.
Qed.

Lemma live_published_match x :
  ¬ is_deleted x → fields x !! "published" = Some (VBool true) →
  matches [not_deleted; is_published] x = true.
Proof.
  intros Hlive Hpub. rewrite !matches_cons, !andb_true_iff.
  split; [by apply not_deleted_match|]. split; [|reflexivity].
  unfold is_published. cbn [clause_match cond_match].
  rewrite as_dict_lookup by done. rewrite Hpub. cbn [eq_match].
  by apply bool_decide_true.
Qed.

Lemma rendered_when_selected spec q (l : list doc) x :
  x ∈ l → matches q x = true →
  to_dict x ∈ to_dict <$> sort spec (filter (λ y, matches q y = true) l).
Proof.
  intros Hx Hq. apply list_elem_of_fmap. exists x. split; [done|].
  by apply elem_of_sort, list_elem_of_filter.
Qed.

(** C9. No update endpoint looks at the soft-delete flag of its target: on
    a soft-deleted project, skill, testimonial or certificate the update
    succeeds (for a payload the driver can encode) and overwrites [deleted]
    with the payload's value.  With the payload's [deleted = False] the
    document is live again: a project is listed by the public project list
    and the lookup of its slug succeeds; a skill, testimonial or
    certificate is listed by its public list when the payload is
    published, the one other filter of those lists. *)
Theorem update_resurrects id o w D :
  db w = Some D → "activitylog" ∉ down w → oid_of_str id = Some o →
  (∀ payload x,
     soft_deleted_in "project" o w x →
     int64 (Project.orderIndex payload) = true →
     let x' := updated (Project.model_dump payload) (clock w) x in
     ∃ w',
       update_project id payload w = (Ok OkTrue, w')
       ∧ x' ∈ coll_of "project" w'
       ∧ _id x' = _id x
       ∧ fields x' !! "deleted" = Some (VBool (Project.deleted payload))
       ∧ (Project.deleted payload = false →
          ¬ is_deleted x'
          ∧ (∀ limit, (Z.of_nat (length (D !!! "project")) ≤ limit)%Z →
               int64 limit = true →
               ∃ items total,
                 list_projects None None None 1 limit w'
                 = (Ok (Page items total 1 limit), w')
                 ∧ to_dict x' ∈ items)
          ∧ (∃ y, get_project (Project.slug payload) w'
                  = (Ok (Item (to_dict y)), w'))))
  ∧ (∀ payload x,
       soft_deleted_in "skill" o w x →
       int64 (Skill.level payload) = true →
       int64 (Skill.orderIndex payload) = true →
       let x' := updated (Skill.model_dump payload) (clock w) x in
       ∃ w',
         update_skill id payload w = (Ok OkTrue, w')
         ∧ x' ∈ coll_of "skill" w'
         ∧ _id x' = _id x
         ∧ fields x' !! "deleted" = Some (VBool (Skill.deleted payload))
         ∧ (Skill.deleted payload = false →
            ¬ is_deleted x'
            ∧ (Skill.published payload = true →
               ∃ items,
                 list_skills None None w' = (Ok (Items items), w')
                 ∧ to_dict x' ∈ items)))
  ∧ (∀ payload x,
       soft_deleted_in "testimonial" o w x →
       int64 (Testimonial.orderIndex payload) = true →
       let x' := updated (Testimonial.model_dump payload) (clock w) x in
       ∃ w',
         update_testimonial id payload w = (Ok OkTrue, w')
         ∧ x' ∈ coll_of "testimonial" w'
         ∧ _id x' = _id x
         ∧ fields x' !! "deleted" = Some (VBool (Testimonial.deleted payload))
         ∧ (Testimonial.deleted payload = false →
            ¬ is_deleted x'
            ∧ (Testimonial.published payload = true →
               ∃ items,
                 list_testimonials w' = (Ok (Items items), w')
                 ∧ to_dict x' ∈ items)))
  ∧ (∀ payload x,
       soft_deleted_in "certificate" o w x →
       let x' := updated (Certificate.model_dump payload) (clock w) x in
       ∃ w',
         update_certificate id payload w = (Ok OkTrue, w')
         ∧ x' ∈ coll_of "certificate" w'
         ∧ _id x' = _id x
         ∧ fields x' !! "deleted" = Some (VBool (Certificate.deleted payload))
         ∧ (Certificate.deleted payload = false →
            ¬ is_deleted x'
            ∧ (Certificate.published payload = true →
               ∃ items,
                 list_certificates None None w' = (Ok (Items items), w')
                 ∧ to_dict x' ∈ items))).
Proof.
  intros Hdb Hlog Hid. split; [|split; [|split]].
  - intros payload x Htarget Hint x'.
    destruct (update_entity_resurrects "project" id o
                (Project.model_dump payload) x w D (Project.deleted payload))
      as (D' & Hrun & Hlen & Hx' & Hflag & Hlive);
      [done | done | done | done | done | by apply project_dump_encodable
       | reflexivity |].
    fold x' in Hx', Hflag, Hlive.
    destruct Htarget as (_ & _ & Hx & _).
    rewrite (coll_of_db _ w D Hdb) in Hx.
    exists (with_db D' w). rewrite (update_project_unfold id payload w D Hdb).
    split; [exact Hrun|]. rewrite coll_of_with_db.
    split; [exact Hx'|]. split; [reflexivity|]. split; [exact Hflag|].
    intros Hfalse. specialize (Hlive Hfalse). split; [exact Hlive|].
    assert (Hdb' : db (with_db D' w) = Some D') by reflexivity.
    split.
    + intros limit Hlimit Hfit.
      rewrite (list_projects_run None None None 1 limit _ D' Hdb').
      change (query_ok (projects_query None None None)) with true.
      change ((1 - 1) * limit)%Z with 0%Z. change (0 <? 0)%Z with false.
      change (int64 0) with true. rewrite Z.abs_eq, Hfit by lia. cbn [andb].
      change (Z.to_nat 0) with 0%nat. rewrite drop_0.
      eexists _, _. split; [reflexivity|].
      assert (1 ≤ Z.of_nat (length (D !!! "project")))%Z as Hne.
      { destruct (D !!! "project"); [by apply elem_of_nil in Hx | cbn; lia]. }
      rewrite cursor_limit_all.
      * apply rendered_when_selected; [exact Hx'|].
        change (projects_query None None None) with [not_deleted].
        rewrite matches_cons, andb_true_r. by apply not_deleted_match.
      * lia.
      * rewrite sort_Permutation.
        pose proof (length_filter
                      (λ x, matches (projects_query None None None) x = true)
                      (D' !!! "project")) as Hle.
        lia.
    + rewrite (get_project_run _ _ D' Hdb').
      destruct (head _) as [y|] eqn:Hhead; [by exists y|].
      apply head_None in Hhead.
      assert (x' ∈ filter (λ x, matches [Field "slug" (Eq_ (VStr (Project.slug payload)));
                                         not_deleted] x = true) (D' !!! "project")) as Hin.
      { apply list_elem_of_filter. split; [|exact Hx']. apply slug_query_match.
        split; [|exact Hlive]. apply has_slug_intro.
        apply set_fields_lookup. by rewrite lookup_insert_ne. }
      rewrite Hhead in Hin. by apply elem_of_nil in Hin.
  - intros payload x Htarget Hlevel Hidx x'.
    destruct (update_entity_resurrects "skill" id o
                (Skill.model_dump payload) x w D (Skill.deleted payload))
      as (D' & Hrun & _ & Hx' & Hflag & Hlive);
      [done | done | done | done | done | by apply skill_dump_encodable
       | reflexivity |].
    fold x' in Hx', Hflag, Hlive.
    exists (with_db D' w). unfold update_skill.
    split; [exact Hrun|]. rewrite coll_of_with_db.
    split; [exact Hx'|]. split; [reflexivity|]. split; [exact Hflag|].
    intros Hfalse. specialize (Hlive Hfalse). split; [exact Hlive|].
    intros Hpub. eexists.
    rewrite (list_skills_run None None (with_db D' w) D' eq_refl).
    change (query_ok (skills_query None None)) with true.
    split; [reflexivity|].
    apply rendered_when_selected; [exact Hx'|].
    apply live_published_match; [exact Hlive|].
    apply set_fields_lookup. rewrite lookup_insert_ne by done.
    transitivity (Some (VBool (Skill.published payload)));
      [reflexivity | by rewrite Hpub].
  - intros payload x Htarget Hidx x'.
    destruct (update_entity_resurrects "testimonial" id o
                (Testimonial.model_dump payload) x w D
                (Testimonial.deleted payload))
      as (D' & Hrun & _ & Hx' & Hflag & Hlive);
      [done | done | done | done | done | by apply testimonial_dump_encodable
       | reflexivity |].
    fold x' in Hx', Hflag, Hlive.
    exists (with_db D' w). unfold update_testimonial.
    split; [exact Hrun|]. rewrite coll_of_with_db.
    split; [exact Hx'|]. split; [reflexivity|]. split; [exact Hflag|].
    intros Hfalse. specialize (Hlive Hfalse). split; [exact Hlive|].
    intros Hpub. eexists.
    rewrite (list_testimonials_run (with_db D' w) D' eq_refl).
    split; [reflexivity|].
    apply rendered_when_selected; [exact Hx'|].
    apply live_published_match; [exact Hlive|].
    apply set_fields_lookup. rewrite lookup_insert_ne by done.
    transitivity (Some (VBool (Testimonial.published payload)));
      [reflexivity | by rewrite Hpub].
  - intros payload x Htarget x'.
    destruct (update_entity_resurrects "certificate" id o
                (Certificate.model_dump payload) x w D
                (Certificate.deleted payload))
      as (D' & Hrun & _ & Hx' & Hflag & Hlive);
      [done | done | done | done | done | apply certificate_dump_encodable
       | reflexivity |].
    fold x' in Hx', Hflag, Hlive.
    exists (with_db D' w). unfold update_certificate.
    split; [exact Hrun|]. rewrite coll_of_with_db.
    split; [exact Hx'|]. split; [reflexivity|]. split; [exact Hflag|].
    intros Hfalse. specialize (Hlive Hfalse). split; [exact Hlive|].
    intros Hpub. eexists.
    rewrite (list_certificates_run None None (with_db D' w) D' eq_refl).
    change (query_ok (certificates_query None None)) with true.
    split; [reflexivity|].
    apply rendered_when_selected; [exact Hx'|].
    apply live_published_match; [exact Hlive|].
    apply set_fields_lookup. rewrite lookup_insert_ne by done.
    transitivity (Some (VBool (Certificate.published payload)));
      [reflexivity | by rewrite Hpub].
Qed.

(** ** Bulk publish *)

Lemma object_ids_run ids oids w :
  well_formed ids oids → object_ids ids w = (Ok oids, w).
Proof.
  induction 1 as [|id o ids oids Hid _ IH]; [done|]. cbn [object_ids].
  rewrite (bind_run _ _ _ _ _ (ObjectId_run id o w Hid)).
  by rewrite (bind_run _ _ _ _ _ IH).
Qed.

Lemma publish_update_lookup (published : bool) (now : Q) k :
  (list_to_map [("published", VBool published); ("updated_at", VDate now)]
    : gmap string value) !! k
  = if decide (k = "published") then Some (VBool published)
    else if decide (k = "updated_at") then Some (VDate now) else None.
Proof.
  cbn [list_to_map foldr fst snd uncurry].
  repeat case_decide; subst; by simplify_map_eq.
Qed.

Lemma publish_update_encodable (published : bool) (now : Q) :
  encodable (list_to_map [("published", VBool published);
                          ("updated_at", VDate now)]).
Proof.
  cbn [list_to_map foldr fst snd uncurry].
  repeat (apply encodable_insert; [reflexivity|]). apply encodable_empty.
Qed.

(** C7. Bulk publish with well-formed ids answers [{"ok": True}]; every
    project whose id is among them gets [published] set to the given value
    and [updated_at] set to the current time and keeps its other fields;
    every other project, and every other collection, is left as it was;
    ids that match no project change nothing and raise nothing. *)
Theorem bulk_publish_frame ids oids published w D :
  db w = Some D → "project" ∉ down w → well_formed ids oids →
  ∃ w',
    bulk_publish_projects ids published w = (Ok OkTrue, w')
    ∧ (∀ c, c ≠ "project" → coll_of c w' = coll_of c w)
    ∧ length (coll_of "project" w') = length (D !!! "project")
    ∧ ∀ i x, (D !!! "project") !! i = Some x →
        ∃ x', coll_of "project" w' !! i = Some x'
              ∧ _id x' = _id x
              ∧ (_id x ∈ oids →
                 fields x' !! "published" = Some (VBool published)
                 ∧ fields x' !! "updated_at" = Some (VDate (clock w))
                 ∧ ∀ k, k ≠ "published" → k ≠ "updated_at" →
                        fields x' !! k = fields x !! k)
              ∧ (_id x ∉ oids → x' = x).
Proof.
  intros Hdb Hup Hids. eexists. unfold bulk_publish_projects.
  rewrite (bind_run _ _ _ _ _ (datetime_now_run w)).
  rewrite (bind_run _ _ _ _ _ (object_ids_run ids oids w Hids)).
  rewrite (bind_run _ _ _ _ _
             (update_many_run "project" [Field "_id" (In_ (VOid <$> oids))] _
                w D Hdb (publish_update_encodable _ _) eq_refl Hup)).
  split; [reflexivity|]. rewrite !coll_of_with_db.
  split; [|split].
  - intros c Hc. rewrite coll_of_with_db, (coll_of_db c w D Hdb).
    by rewrite lookup_total_insert_ne.
  - by rewrite lookup_total_insert_eq, length_fmap.
  - intros i x Hi. rewrite lookup_total_insert_eq, list_lookup_fmap, Hi.
    cbn [fmap option_fmap option_map]. rewrite matches_id_in.
    eexists; split; [reflexivity|].
    destruct (decide (_id x ∈ oids)) as [Hin|Hout].
    + rewrite bool_decide_true by done. split; [done|]. split; [|done].
      intros _. split; [|split].
      * apply set_fields_lookup. by rewrite publish_update_lookup.
      * apply set_fields_lookup. by rewrite publish_update_lookup.
      * intros k Hk1 Hk2. apply set_fields_frame.
        rewrite publish_update_lookup. by rewrite !decide_False.
    + rewrite bool_decide_false by done. done.
Qed.

(** ** Reorder *)

Lemma reorder_doc_id idx oids x : _id (reorder_doc idx oids x) = _id x.
Proof.
  revert idx x. induction oids as [|o oids IH]; intros idx x; [done|].
  cbn [reorder_doc]. rewrite IH. by destruct (bool_decide _).
Qed.

Lemma reorder_doc_frame idx oids x k :
  k ≠ "orderIndex" → fields (reorder_doc idx oids x) !! k = fields x !! k.
Proof.
  intros Hk. revert idx x. induction oids as [|o oids IH]; intros idx x; [done|].
  cbn [reorder_doc]. rewrite IH. destruct (bool_decide _); [|done].
  apply set_fields_frame. by rewrite lookup_singleton_ne.
Qed.

Lemma reorder_doc_absent idx oids x :
  _id x ∉ oids → reorder_doc idx oids x = x.
Proof.
  revert idx x. induction oids as [|o oids IH]; intros idx x; [done|].
  intros [Hne Hout]%not_elem_of_cons. cbn [reorder_doc].
  rewrite bool_decide_false by done. by apply IH.
Qed.

Lemma reorder_doc_position idx oids x n :
  oids !! n = Some (_id x) →
  (∀ m, n < m → oids !! m ≠ Some (_id x)) →
  fields (reorder_doc idx oids x) !! "orderIndex"
  = Some (VInt (Z.of_nat (idx + n))).
Proof.
  revert idx x n. induction oids as [|o oids IH]; intros idx x n Hn Hlast;
    [done|].
  cbn [reorder_doc]. destruct n as [|n].
  - injection Hn as ->. rewrite bool_decide_true by done.
    rewrite reorder_doc_absent.
    + rewrite Nat.add_0_r. apply set_fields_lookup. by rewrite lookup_singleton_eq.
    + cbn [set_fields _id]. intros [m Hm]%list_elem_of_lookup.
      apply (Hlast (S m)); [lia|done].
  - replace (idx + S n) with (S idx + n) by lia.
    apply IH.
    + by destruct (bool_decide _).
    + intros m Hm. specialize (Hlast (S m) ltac:(lia)). cbn in Hlast.
      by destruct (bool_decide _).
Qed.

Lemma int64_of_nat n : (Z.of_nat n < 2 ^ 63)%Z → int64 (Z.of_nat n) = true.
Proof.
  intros H. unfold int64. apply andb_true_intro.
  split; [apply Z.leb_le | by apply Z.ltb_lt].
  transitivity 0%Z; [done|lia].
Qed.

Lemma order_index_encodable n :
  (Z.of_nat n < 2 ^ 63)%Z →
  encodable {["orderIndex" := VInt (Z.of_nat n)]}.
Proof. intros H. apply map_Forall_singleton. by apply int64_of_nat. Qed.

Lemma reorder_from_run ordered_ids oids :
  well_formed ordered_ids oids →
  ∀ idx w D,
    db w = Some D → "project" ∉ down w → NoDup (_id <$> D !!! "project") →
    (Z.of_nat (idx + length ordered_ids) ≤ 2 ^ 63)%Z →
    ∃ w', reorder_from idx ordered_ids w = (Ok tt, w')
          ∧ coll_of "project" w' = reorder_doc idx oids <$> D !!! "project"
          ∧ (∀ c, c ≠ "project" → coll_of c w' = coll_of c w).
Proof.
  induction 1 as [|id o ids oids Hid _ IH];
    intros idx w D Hdb Hup Hnodup Hlen.
  - exists w. cbn [reorder_from reorder_doc]. split; [done|].
    split; [|done]. rewrite (coll_of_db _ w D Hdb).
    by rewrite list_fmap_id.
  - cbn [reorder_from].
    rewrite (bind_run _ _ _ _ _ (collection_run "project" w D Hdb)).
    rewrite (bind_run _ _ _ _ _ (ObjectId_run id o w Hid)).
    cbn [length] in Hlen.
    rewrite (bind_run _ _ _ _ _
               (update_one_run "project" (by_id o) _ w D Hdb
                  (order_index_encodable idx ltac:(lia)) eq_refl Hup)).
    rewrite update_first_by_id by done.
    set (g := λ x, if bool_decide (_id x = o)
                   then set_fields {["orderIndex" := VInt (Z.of_nat idx)]} x
                   else x).
    set (D1 := <["project" := g <$> D !!! "project"]> D).
    assert (Hg : ∀ x, _id (g x) = _id x)
      by (intros x; unfold g; by destruct (bool_decide _)).
    destruct (IH (S idx) (with_db D1 w) D1) as (w' & Hrun & Hcoll & Hframe).
    + reflexivity.
    + done.
    + unfold D1. rewrite lookup_total_insert_eq, <- list_fmap_compose.
      erewrite list_fmap_ext; [exact Hnodup|]. intros ? x _. apply Hg.
    + lia.
    + exists w'. split; [done|]. split.
      * rewrite Hcoll. unfold D1.
        rewrite lookup_total_insert_eq, <- list_fmap_compose. done.
      * intros c Hc. rewrite (Hframe c Hc), coll_of_with_db, (coll_of_db c w D Hdb).
        unfold D1. by rewrite lookup_total_insert_ne.
Qed.

(** C6. Reorder with well-formed ids answers [{"ok": True}] and gives
    every project its position in the sequence: a project whose id stands
    at position [n] (and not again later) has [orderIndex = n] afterwards;
    a project whose id is not in the sequence is left as it was; no other
    field of any project and no other collection changes, and ids that
    match no project change nothing.  (The positions are sent as BSON
    integers, so the sequence has at most 2^63 ids.) *)
Theorem reorder_sets_positions ordered_ids oids w D :
  db w = Some D → "project" ∉ down w → NoDup (_id <$> D !!! "project") →
  well_formed ordered_ids oids →
  (Z.of_nat (length ordered_ids) ≤ 2 ^ 63)%Z →
  ∃ w',
    reorder_projects ordered_ids w = (Ok OkTrue, w')
    ∧ (∀ c, c ≠ "project" → coll_of c w' = coll_of c w)
    ∧ length (coll_of "project" w') = length (D !!! "project")
    ∧ ∀ i x, (D !!! "project") !! i = Some x →
        ∃ x', coll_of "project" w' !! i = Some x'
              ∧ _id x' = _id x
              ∧ (∀ k, k ≠ "orderIndex" → fields x' !! k = fields x !! k)
              ∧ (∀ n, oids !! n = Some (_id x) →
                      (∀ m, n < m → oids !! m ≠ Some (_id x)) →
                      fields x' !! "orderIndex" = Some (VInt (Z.of_nat n)))
              ∧ (_id x ∉ oids → x' = x).
Proof.
  intros Hdb Hup Hnodup Hids Hlen.
  destruct (reorder_from_run ordered_ids oids Hids 0 w D Hdb Hup Hnodup Hlen)
    as (w' & Hrun & Hcoll & Hframe).
  exists w'. unfold reorder_projects. rewrite (bind_run _ _ _ _ _ Hrun).
  split; [reflexivity|]. split; [exact Hframe|]. rewrite Hcoll.
  split; [by rewrite length_fmap|].
  intros i x Hi. exists (reorder_doc 0 oids x).
  rewrite list_lookup_fmap, Hi. split; [reflexivity|].
  split; [apply reorder_doc_id|]. split; [intros k; apply reorder_doc_frame|].
  split; [|apply reorder_doc_absent].
  intros n Hn Hlast. by rewrite (reorder_doc_position 0 oids x n).
Qed.

(** ** The contact rate limiter *)

Lemma window_filter_mono (t now : Q) (l : list Q) :
  (t <= now)%Q →
  filter (λ s, (now - s < window)%Q) (filter (λ s, (t - s < window)%Q) l)
  = filter (λ s, (now - s < window)%Q) l.
Proof.
  intros Hle. induction l as [|s l IH]; [done|].
  rewrite !(filter_cons _ s).
  destruct (decide (t - s < window)%Q) as [Ht|Ht].
  - rewrite (filter_cons _ s). by rewrite IH.
  - rewrite IH. destruct (decide (now - s < window)%Q) as [Hn|Hn]; [|done].
    exfalso. apply Ht. lra.
Qed.

Lemma get_rate_cache_run ip w :
  get_rate_cache ip w = (Ok (default [] (_rate_cache w !! ip)), w).
Proof. reflexivity. Qed.

Lemma set_rate_cache_run ip entry w :
  set_rate_cache ip entry w
  = (Ok tt, {| db := db w; _rate_cache := <[ip := entry]> (_rate_cache w);
               clock := clock w; down := down w |}).
Proof. reflexivity. Qed.

Lemma db_is_None_run w : db_is_None w = (Ok (bool_decide (db w = None)), w).
Proof. reflexivity. Qed.

Lemma contact_entry_encodable form now : encodable (contact_entry form now).
Proof.
  unfold contact_entry.
  apply encodable_insert; [reflexivity|apply log_entry_encodable].
Qed.

(** The handler, run: the limit check, then the cache, then the log. *)
Lemma contact_run form client w :
  let ip := default "unknown" client in
  let recent := filter (λ t, (clock w - t < window)%Q)
                       (default [] (_rate_cache w !! ip)) in
  let w2 := {| db := db w;
               _rate_cache := <[ip := recent ++ [clock w]]> (_rate_cache w);
               clock := clock w; down := down w |} in
  contact form client w
  = if (3 <=? length recent)%nat
    then (Raise (HTTPException 429 "Too many requests"), w)
    else match db w with
         | None => (Ok OkTrue, w2)
         | Some D =>
             if decide ("activitylog" ∈ down w) then (Raise PyMongoError, w2)
             else (Ok OkTrue,
                   with_db (<["activitylog" :=
                                D !!! "activitylog"
                                ++ [Doc (new_oid (D !!! "activitylog"))
                                        (contact_entry form (clock w))]]> D)
                           w2)
         end.
Proof.
  intros ip recent w2. unfold contact.
  rewrite (bind_run _ _ _ _ _ (datetime_now_run w)).
  rewrite (bind_run _ _ _ _ _ (get_rate_cache_run _ w)).
  change (default "unknown" client) with ip. fold recent.
  destruct (3 <=? length recent)%nat; [done|].
  rewrite (bind_run _ _ _ _ _ (set_rate_cache_run ip _ w)). fold w2.
  rewrite (bind_run _ _ _ _ _ (db_is_None_run w2)).
  destruct (db w) as [D|] eqn:Hdb.
  - assert (Hdb2 : db w2 = Some D) by (first [exact Hdb | reflexivity]).
    rewrite bool_decide_false by (rewrite Hdb2; done).
    assert ((utcnow ← datetime_now;
             insert_one "activitylog"
               (<["metadata" := VDict (ContactForm.model_dump form)]>
                  (log_entry (ContactForm.email form) "contact" "message" "-"
                     utcnow));;
             mret tt) w2
            = if decide ("activitylog" ∈ down w) then (Raise PyMongoError, w2)
              else (Ok tt,
                    with_db (<["activitylog" :=
                                 D !!! "activitylog"
                                 ++ [Doc (new_oid (D !!! "activitylog"))
                                         (contact_entry form (clock w))]]> D)
                            w2)) as Hlog.
    { rewrite (bind_run _ _ _ _ _ (datetime_now_run w2)).
      change (clock w2) with (clock w).
      change (<["metadata" := VDict (ContactForm.model_dump form)]>
                (log_entry (ContactForm.email form) "contact" "message" "-"
                   (clock w)))
        with (contact_entry form (clock w)).
      unfold mbind, M_bind, bind.
      rewrite (insert_one_spec "activitylog" _ w2 D Hdb2
                 (contact_entry_encodable form (clock w))).
      change (down w2) with (down w).
      by destruct (decide ("activitylog" ∈ down w)). }
    destruct (decide ("activitylog" ∈ down w)).
    + by rewrite (bind_raise _ _ _ _ _ Hlog).
    + by rewrite (bind_run _ _ _ _ _ Hlog).
  - assert (Hdb2 : db w2 = None) by (first [exact Hdb | reflexivity]).
    by rewrite bool_decide_true by done.
Qed.

(** One submission served: the answer, and what becomes of the cache.  The
    caller is counted as soon as the limiter lets the submission pass. *)
Lemma serve_run rq w :
  let t := arrival rq in
  let k := caller rq in
  let entry := filter (λ s, (t - s < window)%Q) (default [] (_rate_cache w !! k)) in
  ∃ w',
    serve rq w
    = (if (3 <=? length entry)%nat
       then Raise (HTTPException 429 "Too many requests")
       else match db w with
            | None => Ok OkTrue
            | Some _ => if decide ("activitylog" ∈ down w)
                        then Raise PyMongoError else Ok OkTrue
            end, w')
    ∧ down w' = down w
    ∧ (db w' = None ↔ db w = None)
    ∧ _rate_cache w'
      = if (3 <=? length entry)%nat then _rate_cache w
        else <[k := entry ++ [t]]> (_rate_cache w).
Proof.
  intros t k entry. unfold serve.
  rewrite (contact_run (form rq) (client rq) (at_time (arrival rq) w)).
  change (clock (at_time (arrival rq) w)) with t.
  change (_rate_cache (at_time (arrival rq) w)) with (_rate_cache w).
  change (db (at_time (arrival rq) w)) with (db w).
  change (down (at_time (arrival rq) w)) with (down w).
  change (default "unknown" (client rq)) with k. fold entry.
  destruct (3 <=? length entry)%nat.
  - eexists. split; [reflexivity|]. by repeat split.
  - destruct (db w) as [D|] eqn:Hdb.
    + destruct (decide ("activitylog" ∈ down w)).
      * eexists. split; [reflexivity|]. cbn [db down _rate_cache].
        repeat split; congruence.
      * eexists. split; [reflexivity|]. cbn [db down _rate_cache with_db].
        repeat split; congruence.
    + eexists. split; [reflexivity|]. cbn [db down _rate_cache].
      by repeat split.
Qed.

Lemma StronglySorted_snoc_Forall (l : list Q) (t : Q) :
  StronglySorted Qle (l ++ [t]) → Forall (λ s, (s <= t)%Q) l.
Proof.
  induction l as [|s l IH]; [by constructor|].
  cbn [app]. intros [Hl Hs]%StronglySorted_inv. constructor; [|by apply IH].
  apply (proj1 (Forall_forall _ _) Hs), elem_of_app.
  right. apply list_elem_of_here.
Qed.

(** The store works for the log write, or there is no store to write to. *)
Lemma log_write_cases w :
  (db w = None ∨ "activitylog" ∉ down w)
  ∨ (db w ≠ None ∧ "activitylog" ∈ down w).
Proof.
  destruct (db w); [|by left; left].
  destruct (decide ("activitylog" ∈ down w)); [by right | by left; right].
Qed.

(** The cache agrees, on every window that ends after the last request
    served, with the record of the submissions the limiter let pass. *)
Lemma serve_all_counted rqs :
  ∀ w (h : string → list Q) (tmax : Q),
    (∀ k now, Qle tmax now →
       filter (λ s, (now - s < window)%Q) (default [] (_rate_cache w !! k))
       = filter (λ s, (now - s < window)%Q) (h k)) →
    StronglySorted Qle (tmax :: (arrival <$> rqs)) →
    down (serve_all rqs w).2 = down w
    ∧ (db (serve_all rqs w).2 = None ↔ db w = None)
    ∧ (∀ k now,
         Forall (λ s, (s <= now)%Q) (tmax :: (arrival <$> rqs)) →
         filter (λ s, (now - s < window)%Q)
                (default [] (_rate_cache (serve_all rqs w).2 !! k))
         = filter (λ s, (now - s < window)%Q)
                  (h k ++ counted k rqs (serve_all rqs w).1))
    ∧ (db w = None ∨ "activitylog" ∉ down w →
       ∀ k, counted k rqs (serve_all rqs w).1
            = accepted k rqs (serve_all rqs w).1).
Proof.
  induction rqs as [|rq rest IH]; intros w h tmax Hinv Hsorted.
  - cbn [serve_all counted accepted fst snd]. split; [done|]. split; [done|].
    split; [|done].
    intros k now [Hnow _]%Forall_cons. rewrite app_nil_r. by apply Hinv.
  - cbn [serve_all fst snd fmap list_fmap] in *.
    destruct (serve_run rq w) as (w1 & Hrun & Hdown & Hdb & Hcache).
    rewrite Hrun. cbn [fst snd].
    apply StronglySorted_inv in Hsorted as [Hsorted Htmax].
    apply Forall_cons in Htmax as [Htmax _].
    set (t := arrival rq) in *. set (key := caller rq) in *.
    set (entry := filter (λ s, (t - s < window)%Q)
                         (default [] (_rate_cache w !! key))) in *.
    set (r := if (3 <=? length entry)%nat
              then Raise (HTTPException 429 "Too many requests")
              else match db w with
                   | None => Ok OkTrue
                   | Some _ => if decide ("activitylog" ∈ down w)
                               then Raise PyMongoError else Ok OkTrue
                   end) in *.
    assert (Hr : negb (refused r) = negb (3 <=? length entry)%nat).
    { unfold r. destruct (3 <=? length entry)%nat; [done|].
      destruct (db w); [destruct (decide _)|]; done. }
    set (h1 := λ k, h k ++ (if negb (refused r) && bool_decide (key = k)
                            then [t] else [])).
    destruct (IH w1 h1 t) as (Hdown' & Hdb' & Hinv' & Hacc').
    + intros k now Hnow. unfold h1. rewrite Hr, Hcache.
      assert (tmax <= now)%Q as Htn by (by apply (Qle_trans _ t)).
      destruct (3 <=? length entry)%nat; cbn [negb andb].
      * rewrite app_nil_r. by apply Hinv.
      * destruct (decide (key = k)) as [<-|Hk].
        -- rewrite lookup_insert_eq, bool_decide_true by done.
           change (default [] (Some (entry ++ [t]))) with (entry ++ [t]).
           rewrite !filter_app. unfold entry.
           rewrite window_filter_mono by done. by rewrite Hinv.
        -- rewrite lookup_insert_ne, bool_decide_false by done.
           rewrite app_nil_r. by apply Hinv.
    + done.
    + split; [by rewrite Hdown', Hdown|]. split; [by rewrite Hdb', Hdb|].
      split.
      * intros k now [_ Hnow]%Forall_cons.
        rewrite (Hinv' k now Hnow). unfold h1. cbn [counted].
        by rewrite <- app_assoc.
      * intros Hworks k. cbn [counted accepted]. rewrite Hacc'.
        -- f_equal. unfold r.
           destruct (3 <=? length entry)%nat; [done|].
           destruct (db w) as [D|]; [|done].
           destruct (decide ("activitylog" ∈ down w)) as [Hdn|]; [|done].
           by destruct Hworks.
        -- rewrite Hdown. destruct Hworks as [Hnone|Hup]; [|by right].
           left. by apply Hdb.
Qed.

(** C8 (amended). With a clock that does not run backwards, the contact
    endpoint answers 429 "Too many requests" exactly when the limiter let
    pass 3 or more submissions of the same caller less than 60 seconds
    before.  A submission the limiter lets pass is counted before the
    activity log is written: it is answered [{"ok": True}] when the log
    write works (or there is no store), and fails with the store's error, a
    500, when the store rejects the log write, and it counts against the
    limit in both cases.  With a working log the submissions counted are
    the accepted ones. *)
Theorem rate_limit_counts_attempts rqs rq w0 :
  _rate_cache w0 = ∅ →
  StronglySorted Qle (arrival <$> (rqs ++ [rq])) →
  let past := serve_all rqs w0 in
  let n := within_60 (arrival rq) (counted (caller rq) rqs past.1) in
  let answer := (serve rq past.2).1 in
  ((3 ≤ n)%nat → answer = Raise (HTTPException 429 "Too many requests"))
  ∧ ((n < 3)%nat →
     (db w0 = None ∨ "activitylog" ∉ down w0 → answer = Ok OkTrue)
     ∧ (db w0 ≠ None → "activitylog" ∈ down w0 →
        answer = Raise PyMongoError ∧ status_of answer = 500%Z))
  ∧ (db w0 = None ∨ "activitylog" ∉ down w0 →
     ∀ k, counted k rqs past.1 = accepted k rqs past.1).
Proof.
  intros Hcache Hsorted past n answer.
  rewrite fmap_app in Hsorted. cbn [fmap list_fmap] in Hsorted.
  pose proof (StronglySorted_snoc_Forall _ _ Hsorted) as Hbefore.
  set (tmax := match rqs with [] => arrival rq | r0 :: _ => arrival r0 end).
  assert (StronglySorted Qle (tmax :: (arrival <$> rqs))) as Hsorted'.
  { constructor.
    - by apply StronglySorted_app_1_l in Hsorted.
    - unfold tmax. destruct rqs as [|r0 rest]; [constructor|].
      cbn [fmap list_fmap app] in *. constructor; [apply Qle_refl|].
      apply StronglySorted_inv in Hsorted as [_ Hf].
      by apply Forall_app in Hf as [? _]. }
  assert (Forall (λ s, (s <= arrival rq)%Q) (tmax :: (arrival <$> rqs)))
    as Hall.
  { constructor; [|done]. unfold tmax.
    destruct rqs as [|r0 rest]; [apply Qle_refl|].
    by apply Forall_cons in Hbefore as [? _]. }
  destruct (serve_all_counted rqs w0 (λ _, []) tmax)
    as (Hdown & Hdb & Hinv & Hacc); [|done|].
  { intros k now _. rewrite Hcache, lookup_empty. done. }
  fold past in Hdown, Hdb, Hinv, Hacc.
  destruct (serve_run rq past.2) as (w' & Hrun & _).
  unfold answer. rewrite Hrun. cbn [fst].
  rewrite (Hinv (caller rq) (arrival rq) Hall). cbn [app].
  change (length (filter (λ s, (arrival rq - s < window)%Q)
                         (counted (caller rq) rqs past.1))) with n.
  split; [|split; [|exact Hacc]].
  - intros Hn. by rewrite (proj2 (Nat.leb_le 3 n)).
  - intros Hn. rewrite (proj2 (Nat.leb_gt 3 n)) by done. split.
    + intros [Hnone|Hup].
      * by rewrite (proj2 Hdb Hnone).
      * destruct (db past.2); [|done].
        by rewrite decide_False by (by rewrite Hdown).
    + intros Hsome Hdn.
      destruct (db past.2) eqn:Hdb2; [|by destruct Hsome; apply Hdb].
      by rewrite decide_True by (by rewrite Hdown).
Qed.

(** * Further properties of the handlers *)

(** ** What [to_dict] renders *)

Lemma isoformat_fold_spec ks (d : gmap string value) k :
  NoDup ks →
  foldl (λ d k, match d !! k with
                | Some (VDate t) => <[k := VStr (isoformat t)]> d
                | _ => d
                end) d ks !! k
  = if decide (k ∈ ks) then
      match d !! k with
      | Some (VDate t) => Some (VStr (isoformat t))
      | v => v
      end
    else d !! k.
Proof.
  intros Hnd. revert d. induction Hnd as [|k' ks Hk' Hnd IH]; intros d.
  - cbn [foldl]. by rewrite decide_False by apply not_elem_of_nil.
  - cbn [foldl]. rewrite IH. destruct (decide (k = k')) as [->|Hne].
    + rewrite (decide_False (P := k' ∈ ks)) by done.
      rewrite (decide_True (P := k' ∈ k' :: ks)) by apply list_elem_of_here.
      destruct (d !! k') as [[]|] eqn:E; rewrite ?E; try done.
      by rewrite lookup_insert_eq.
    + assert (match d !! k' with
              | Some (VDate t) => <[k' := VStr (isoformat t)]> d
              | _ => d
              end !! k = d !! k) as ->.
      { destruct (d !! k') as [[]|]; try done. by rewrite lookup_insert_ne. }
      destruct (decide (k ∈ ks)) as [Hin|Hout].
      * by rewrite decide_True by (by apply list_elem_of_further).
      * rewrite decide_False; [done|].
        rewrite elem_of_cons. intros [?|?]; done.
Qed.

Lemma stamps_NoDup :
  NoDup ["created_at"; "updated_at"; "createdAt"; "updatedAt"].
Proof. refine (bool_decide_unpack _ _). vm_compute. exact I. Qed.

(** X1. [to_dict] renders a stored document key by key: [id] is the string
    of the ObjectId (also over a stored field named [id]), [_id] is gone,
    a date under one of the four timestamp keys becomes its ISO string, and
    every other field is returned as stored. *)
Theorem to_dict_rendering x k :
  to_dict x !! k
  = if decide (k = "id") then Some (VStr (str_oid (_id x)))
    else if decide (k = "_id") then None
    else match fields x !! k with
         | Some (VDate t) =>
             if decide (k ∈ ["created_at"; "updated_at"; "createdAt";
                             "updatedAt"])
             then Some (VStr (isoformat t)) else Some (VDate t)
         | v => v
         end.
Proof.
  unfold to_dict. rewrite isoformat_fold_spec by apply stamps_NoDup.
  destruct (decide (k = "id")) as [->|Hid].
  - rewrite decide_False by (refine (bool_decide_unpack _ _); vm_compute; exact I).
    by rewrite lookup_insert_eq.
  - rewrite lookup_insert_ne by done.
    destruct (decide (k = "_id")) as [->|H_id].
    + rewrite decide_False by (refine (bool_decide_unpack _ _); vm_compute; exact I).
      by rewrite lookup_delete_eq.
    + rewrite lookup_delete_ne, as_dict_lookup by done.
      destruct (decide (k ∈ _)); destruct (fields x !! k) as [[]|]; done.
Qed.

Lemma to_dict_field x y k :
  to_dict x = to_dict y →
  k ∉ ["created_at"; "updated_at"; "createdAt"; "updatedAt"] →
  k ≠ "id" → k ≠ "_id" →
  fields x !! k = fields y !! k.
Proof.
  intros Heq Hk Hid H_id.
  by rewrite <- (to_dict_lookup x k), <- (to_dict_lookup y k), Heq.
Qed.

(** ** The public reads *)

(** X2. No public read changes the process state, whatever its parameters
    and whether it answers or fails. *)
Theorem public_reads_leave_state w :
  (∀ published tag search page limit,
     (list_projects published tag search page limit w).2 = w)
  ∧ (∀ slug, (get_project slug w).2 = w)
  ∧ (∀ category search, (list_skills category search w).2 = w)
  ∧ (list_testimonials w).2 = w
  ∧ (∀ tag search, (list_certificates tag search w).2 = w).
Proof.
  destruct (db w) as [D|] eqn:Hdb.
  - split; [|split; [|split; [|split]]].
    + intros. rewrite (list_projects_run _ _ _ _ _ w D Hdb).
      destruct (query_ok _); [|done]. destruct (_ <? 0)%Z; [done|].
      by destruct (_ && _).
    + intros. rewrite (get_project_run slug w D Hdb). by destruct (head _).
    + intros. rewrite (list_skills_run _ _ w D Hdb). by destruct (query_ok _).
    + by rewrite (list_testimonials_run w D Hdb).
    + intros. rewrite (list_certificates_run _ _ w D Hdb).
      by destruct (query_ok _).
  - split; [|split; [|split; [|split]]]; intros.
    + unfold list_projects.
      by rewrite (bind_raise _ _ _ _ _ (require_db_none w Hdb)).
    + unfold get_project.
      by rewrite (bind_raise _ _ _ _ _ (require_db_none w Hdb)).
    + unfold list_skills.
      by rewrite (bind_raise _ _ _ _ _ (require_db_none w Hdb)).
    + unfold list_testimonials.
      by rewrite (bind_raise _ _ _ _ _ (require_db_none w Hdb)).
    + unfold list_certificates.
      by rewrite (bind_raise _ _ _ _ _ (require_db_none w Hdb)).
Qed.

Lemma object_ids_cases ids w :
  (∃ oids, object_ids ids w = (Ok oids, w))
  ∨ object_ids ids w = (Raise InvalidId, w).
Proof.
  induction ids as [|x ids IH]; [left; by exists []|].
  cbn [object_ids]. destruct (oid_of_str x) as [o|] eqn:Hx.
  - rewrite (bind_run _ _ _ _ _ (ObjectId_run x o w Hx)).
    destruct IH as [[oids IH]|IH].
    + left. exists (o :: oids). by rewrite (bind_run _ _ _ _ _ IH).
    + right. by rewrite (bind_raise _ _ _ _ _ IH).
  - right. by rewrite (bind_raise _ _ _ _ _ (ObjectId_invalid x w Hx)).
Qed.

Lemma create_entity_none c dump w :
  db w = None → create_entity c dump w = (Raise TypeError, w).
Proof.
  intros Hdb. unfold create_entity, insert_one.
  rewrite (bind_run _ _ _ _ _ (datetime_now_run w)).
  erewrite bind_raise; [reflexivity|].
  by rewrite (bind_raise _ _ _ _ _ (collection_none c w Hdb)).
Qed.

Lemma update_entity_none c id dump w :
  db w = None → update_entity c id dump w = (Raise TypeError, w).
Proof.
  intros Hdb. unfold update_entity.
  rewrite (bind_run _ _ _ _ _ (datetime_now_run w)).
  by rewrite (bind_raise _ _ _ _ _ (collection_none c w Hdb)).
Qed.

Lemma delete_entity_none c id (hard : bool) w :
  db w = None → delete_entity c id hard w = (Raise TypeError, w).
Proof.
  intros Hdb. unfold delete_entity.
  rewrite (bind_run _ _ _ _ _ (datetime_now_run w)).
  erewrite bind_raise; [reflexivity|].
  destruct hard; by rewrite (bind_raise _ _ _ _ _ (collection_none c w Hdb)).
Qed.

Lemma contact_none form client w :
  db w = None →
  let r := contact form client w in
  db r.2 = None
  ∧ (r.1 = Ok OkTrue ∨ r.1 = Raise (HTTPException 429 "Too many requests")).
Proof.
  intros Hdb. cbn zeta. unfold contact.
  rewrite (bind_run _ _ _ _ _ (datetime_now_run w)).
  rewrite (bind_run _ _ _ _ _ (get_rate_cache_run _ w)).
  destruct (3 <=? _)%nat; [split; [exact Hdb | by right]|].
  rewrite (bind_run _ _ _ _ _ (set_rate_cache_run _ _ w)).
  set (w2 := {| db := db w |}).
  rewrite (bind_run _ _ _ _ _ (db_is_None_run w2)).
  assert (Hdb2 : db w2 = None) by exact Hdb.
  rewrite bool_decide_true by done.
  split; [exact Hdb2 | by left].
Qed.

(** X3. Without a configured store ([db is None]) the public reads and the
    three project mutations answer 500 "Database not configured"; the
    skill, testimonial and certificate mutations, bulk publish and a
    non-empty reorder have no such guard and fail on subscripting [None]
    with a [TypeError] (bulk publish with [InvalidId] when an id is
    malformed); an empty reorder answers [{"ok": True}].  None of them
    changes the state.  The contact endpoint keeps working: it answers
    [{"ok": True}] or 429 and logs nothing. *)
Theorem no_store_configured w :
  db w = None →
  let not_configured : Res response :=
    Raise (HTTPException 500 "Database not configured") in
  (∀ published tag search page limit,
     list_projects published tag search page limit w = (not_configured, w))
  ∧ (∀ slug, get_project slug w = (not_configured, w))
  ∧ (∀ category search, list_skills category search w = (not_configured, w))
  ∧ list_testimonials w = (not_configured, w)
  ∧ (∀ tag search, list_certificates tag search w = (not_configured, w))
  ∧ (∀ m, entity_of m = "project" → run_mutation m w = (not_configured, w))
  ∧ (∀ m, entity_of m ≠ "project" → run_mutation m w = (Raise TypeError, w))
  ∧ (∀ ids published,
       bulk_publish_projects ids published w = (Raise TypeError, w)
       ∨ bulk_publish_projects ids published w = (Raise InvalidId, w))
  ∧ reorder_projects [] w = (Ok OkTrue, w)
  ∧ (∀ id ordered_ids,
       reorder_projects (id :: ordered_ids) w = (Raise TypeError, w))
  ∧ (∀ form client,
       db (contact form client w).2 = None
       ∧ ((contact form client w).1 = Ok OkTrue
          ∨ (contact form client w).1
            = Raise (HTTPException 429 "Too many requests"))).
Proof.
  intros Hdb not_configured.
  pose proof (require_db_none w Hdb) as Hguard.
  repeat apply conj.
  - intros. unfold list_projects. by rewrite (bind_raise _ _ _ _ _ Hguard).
  - intros. unfold get_project. by rewrite (bind_raise _ _ _ _ _ Hguard).
  - intros. unfold list_skills. by rewrite (bind_raise _ _ _ _ _ Hguard).
  - unfold list_testimonials. by rewrite (bind_raise _ _ _ _ _ Hguard).
  - intros. unfold list_certificates. by rewrite (bind_raise _ _ _ _ _ Hguard).
  - intros m Hm. destruct m; try discriminate Hm; cbn [run_mutation].
    + unfold create_project. by rewrite (bind_raise _ _ _ _ _ Hguard).
    + unfold update_project. by rewrite (bind_raise _ _ _ _ _ Hguard).
    + unfold delete_project. by rewrite (bind_raise _ _ _ _ _ Hguard).
  - intros m Hm. destruct m; try (by destruct Hm); cbn [run_mutation].
    + exact (create_entity_none _ _ w Hdb).
    + exact (update_entity_none _ _ _ w Hdb).
    + exact (delete_entity_none _ _ _ w Hdb).
    + exact (create_entity_none _ _ w Hdb).
    + exact (update_entity_none _ _ _ w Hdb).
    + exact (delete_entity_none _ _ _ w Hdb).
    + exact (create_entity_none _ _ w Hdb).
    + exact (update_entity_none _ _ _ w Hdb).
    + exact (delete_entity_none _ _ _ w Hdb).
  - intros ids published. unfold bulk_publish_projects.
    rewrite (bind_run _ _ _ _ _ (datetime_now_run w)).
    destruct (object_ids_cases ids w) as [[oids Hids]|Hids].
    + left. rewrite (bind_run _ _ _ _ _ Hids).
      erewrite bind_raise; [reflexivity|]. unfold update_many.
      by rewrite (bind_raise _ _ _ _ _ (collection_none "project" w Hdb)).
    + right. by rewrite (bind_raise _ _ _ _ _ Hids).
  - reflexivity.
  - intros id ordered_ids. unfold reorder_projects. cbn [reorder_from].
    erewrite bind_raise; [reflexivity|].
    by rewrite (bind_raise _ _ _ _ _ (collection_none "project" w Hdb)).
  - intros form client. exact (contact_none form client w Hdb).
Qed.

(** X4. The slug lookup answers with a live project of that slug, and only
    with one: whenever it answers, the document is in the collection, has
    the slug and is not soft-deleted; whenever such a project exists it
    answers with one; and when exactly one exists it answers with that
    one.  The [published] flag is not consulted. *)
Theorem get_project_finds_live slug w D :
  db w = Some D →
  (∀ r w', get_project slug w = (Ok r, w') →
     ∃ x, x ∈ D !!! "project" ∧ r = Item (to_dict x)
          ∧ has_slug slug x ∧ ¬ is_deleted x)
  ∧ (∀ x, x ∈ D !!! "project" → has_slug slug x → ¬ is_deleted x →
       (∃ y, get_project slug w = (Ok (Item (to_dict y)), w)
             ∧ has_slug slug y ∧ ¬ is_deleted y)
       ∧ ((∀ y, y ∈ D !!! "project" → has_slug slug y → ¬ is_deleted y →
                y = x) →
          get_project slug w = (Ok (Item (to_dict x)), w))).
Proof.
  intros Hdb. rewrite (get_project_run slug w D Hdb).
  destruct (head _) as [y|] eqn:Hhead.
  - apply head_Some_elem_of, list_elem_of_filter in Hhead as [Hy Hin].
    apply slug_query_match in Hy as [Hslug Hlive].
    split.
    + intros r w' [= <- _]. by exists y.
    + intros x Hx Hxs Hxl. split; [by exists y|].
      intros Huniq. by rewrite (Huniq y Hin Hslug Hlive).
  - split; [done|]. intros x Hx Hxs Hxl. exfalso.
    apply head_None in Hhead.
    assert (x ∈ filter (λ x, matches [Field "slug" (Eq_ (VStr slug));
                                      not_deleted] x = true)
                  (D !!! "project")) as Hin
      by (apply list_elem_of_filter; split; [by apply slug_query_match|done]).
    rewrite Hhead in Hin. by apply elem_of_nil in Hin.
Qed.

Lemma is_published_match x :
  clause_match (as_dict x) is_published = true
  ↔ fields x !! "published" = Some (VBool true).
Proof.
  unfold is_published. cbn [clause_match cond_match].
  rewrite as_dict_lookup by done. unfold eq_match.
  destruct (fields x !! "published") as [[]|];
    rewrite bool_decide_eq_true; (split; [intros H | intros [= H]]);
    by simplify_eq.
Qed.

Lemma published_query q x :
  matches (not_deleted :: is_published :: q) x = true →
  fields x !! "published" = Some (VBool true).
Proof.
  rewrite !matches_cons, !andb_true_iff. intros (_ & H & _).
  by apply is_published_match.
Qed.

Lemma unpublished_not_rendered (sel : list doc) x :
  fields x !! "published" ≠ Some (VBool true) →
  (∀ y, y ∈ sel → fields y !! "published" = Some (VBool true)) →
  to_dict x ∉ to_dict <$> sel.
Proof.
  intros Hx Hsel [y [Heq Hy]]%list_elem_of_fmap. apply Hx.
  rewrite (to_dict_field x y "published" Heq); [by apply Hsel| |done|done].
  refine (bool_decide_unpack _ _). vm_compute. exact I.
Qed.

(** X5. A document that is not published (its [published] field is not
    [true]) is in no answer of the skill, testimonial and certificate
    lists, whatever their filters, and in no page of the project list
    asked with [published=true]. *)
Theorem unpublished_never_listed w D x :
  db w = Some D →
  fields x !! "published" ≠ Some (VBool true) →
  (∀ category search r w',
     list_skills category search w = (Ok r, w') →
     to_dict x ∉ response_items r)
  ∧ (∀ r w', list_testimonials w = (Ok r, w') → to_dict x ∉ response_items r)
  ∧ (∀ tag search r w',
       list_certificates tag search w = (Ok r, w') →
       to_dict x ∉ response_items r)
  ∧ (∀ tag search page limit r w',
       list_projects (Some true) tag search page limit w = (Ok r, w') →
       to_dict x ∉ response_items r).
Proof.
  intros Hdb Hx. repeat apply conj.
  - intros category search r w'. rewrite (list_skills_run _ _ w D Hdb).
    destruct (query_ok _); [|done]. intros [= <- _]. cbn [response_items].
    apply unpublished_not_rendered; [done|].
    intros y [Hy _]%elem_of_sort%list_elem_of_filter.
    exact (published_query _ y Hy).
  - intros r w'. rewrite (list_testimonials_run w D Hdb).
    intros [= <- _]. cbn [response_items].
    apply unpublished_not_rendered; [done|].
    intros y [Hy _]%elem_of_sort%list_elem_of_filter.
    exact (published_query [] y Hy).
  - intros tag search r w'. rewrite (list_certificates_run _ _ w D Hdb).
    destruct (query_ok _); [|done]. intros [= <- _]. cbn [response_items].
    apply unpublished_not_rendered; [done|].
    intros y [Hy _]%elem_of_sort%list_elem_of_filter.
    exact (published_query _ y Hy).
  - intros tag search page limit r w'.
    rewrite (list_projects_run _ _ _ _ _ w D Hdb).
    destruct (query_ok _); [|done]. destruct (_ <? 0)%Z; [done|].
    destruct (_ && _); [|done]. intros [= <- _]. cbn [response_items].
    apply unpublished_not_rendered; [done|].
    intros y Hy%elem_of_cursor_limit%elem_of_drop%elem_of_sort.
    apply list_elem_of_filter in Hy as [Hy _].
    exact (published_query _ y Hy).
Qed.

(** ** What the filters select *)

Lemma tagged_match t x :
  cond_match (In_ [VStr t]) (fields x !! "tags") = true ↔ tagged t x.
Proof.
  cbn [cond_match existsb]. rewrite orb_false_r. unfold tagged, eq_match.
  destruct (fields x !! "tags") as [[ |b|n|s|l|q|o|m]|];
    rewrite bool_decide_eq_true;
    (split; [intros H | intros [H|(l' & H & Hl)]; by simplify_eq]).
  - discriminate H.
  - discriminate H.
  - discriminate H.
  - left. by rewrite H.
  - right. exists l. by split.
  - discriminate H.
  - discriminate H.
  - discriminate H.
  - discriminate H.
Qed.

Lemma published_match (b : bool) x :
  cond_match (Eq_ (VBool b)) (fields x !! "published") = true
  ↔ fields x !! "published" = Some (VBool b).
Proof.
  cbn [cond_match]. unfold eq_match.
  destruct (fields x !! "published") as [[]|];
    rewrite bool_decide_eq_true; (split; [intros H | intros [= H]]);
    by simplify_eq.
Qed.

Lemma matches_app q1 q2 x :
  matches (q1 ++ q2) x = matches q1 x && matches q2 x.
Proof. unfold matches. apply forallb_app. Qed.

Lemma matches_nil x : matches [] x = true.
Proof. reflexivity. Qed.

Lemma projects_query_match published tag search x :
  matches (projects_query published tag search) x = true
  ↔ ¬ is_deleted x
    ∧ (∀ b, published = Some b → fields x !! "published" = Some (VBool b))
    ∧ (∀ t, tag = Some t → t ≠ "" → tagged t x)
    ∧ (∀ s, search = Some s → s ≠ "" →
         search_hit s "title" x ∨ search_hit s "shortDesc" x
         ∨ search_hit s "tags" x).
Proof.
  unfold projects_query. rewrite !matches_app, !andb_true_iff.
  rewrite matches_cons, matches_nil, andb_true_r, not_deleted_match.
  apply and_iff_compat_l.
  assert (matches match published with
                  | Some b => [Field "published" (Eq_ (VBool b))]
                  | None => []
                  end x = true
          ↔ ∀ b, published = Some b → fields x !! "published" = Some (VBool b))
    as ->.
  { destruct published as [b|]; [|by split].
    rewrite matches_cons, matches_nil, andb_true_r. cbn [clause_match].
    rewrite as_dict_lookup, published_match by done.
    split; [by intros ? ? [= <-] | by intros H; apply H]. }
  apply and_iff_compat_l.
  assert (matches match truthy tag with
                  | Some t => [Field "tags" (In_ [VStr t])]
                  | None => []
                  end x = true
          ↔ ∀ t, tag = Some t → t ≠ "" → tagged t x) as ->.
  { destruct tag as [[|c t]|]; cbn [truthy];
      [split; [intros _ ? [= <-] Hne; by destruct Hne | done]| |by split].
    rewrite matches_cons, matches_nil, andb_true_r. cbn [clause_match].
    rewrite as_dict_lookup, tagged_match by done.
    split; [by intros ? ? [= <-] | by intros H; apply H]. }
  apply and_iff_compat_l.
  destruct search as [[|c s]|]; cbn [truthy];
      [split; [intros _ ? [= <-] Hne; by destruct Hne | done]| |by split].
  rewrite matches_cons, matches_nil, andb_true_r.
  cbn [clause_match existsb fst snd cond_match].
  rewrite !as_dict_lookup by done. rewrite orb_false_r, !orb_true_iff.
  unfold search_hit.
  split; [by intros ? ? [= <-] | by intros H; apply H].
Qed.

Lemma category_match c x :
  cond_match (Eq_ (VStr c)) (fields x !! "category") = true ↔ has_category c x.
Proof. reflexivity. Qed.

Lemma skills_query_match category search x :
  matches (skills_query category search) x = true
  ↔ ¬ is_deleted x
    ∧ fields x !! "published" = Some (VBool true)
    ∧ (∀ c, category = Some c → c ≠ "" → has_category c x)
    ∧ (∀ s, search = Some s → s ≠ "" →
         search_hit s "name" x ∨ search_hit s "category" x).
Proof.
  unfold skills_query. rewrite !matches_app, !andb_true_iff.
  rewrite !matches_cons, matches_nil, andb_true_r, andb_true_iff.
  rewrite not_deleted_match, is_published_match, Logic.and_assoc.
  do 2 apply and_iff_compat_l.
  assert (matches match truthy category with
                  | Some c => [Field "category" (Eq_ (VStr c))]
                  | None => []
                  end x = true
          ↔ ∀ c, category = Some c → c ≠ "" → has_category c x) as ->.
  { destruct category as [[|a c]|]; cbn [truthy];
      [split; [intros _ ? [= <-] Hne; by destruct Hne | done]| |by split].
    rewrite matches_cons, matches_nil, andb_true_r. cbn [clause_match].
    rewrite as_dict_lookup, category_match by done.
    split; [by intros ? ? [= <-] | by intros H; apply H]. }
  apply and_iff_compat_l.
  destruct search as [[|a s]|]; cbn [truthy];
      [split; [intros _ ? [= <-] Hne; by destruct Hne | done]| |by split].
  rewrite matches_cons, matches_nil, andb_true_r.
  cbn [clause_match existsb fst snd cond_match].
  rewrite !as_dict_lookup by done. rewrite orb_false_r, !orb_true_iff.
  unfold search_hit.
  split; [by intros ? ? [= <-] | by intros H; apply H].
Qed.

Lemma certificates_query_match tag search x :
  matches (certificates_query tag search) x = true
  ↔ ¬ is_deleted x
    ∧ fields x !! "published" = Some (VBool true)
    ∧ (∀ t, tag = Some t → t ≠ "" → tagged t x)
    ∧ (∀ s, search = Some s → s ≠ "" →
         search_hit s "title" x ∨ search_hit s "issuer" x
         ∨ search_hit s "tags" x).
Proof.
  unfold certificates_query. rewrite !matches_app, !andb_true_iff.
  rewrite !matches_cons, matches_nil, andb_true_r, andb_true_iff.
  rewrite not_deleted_match, is_published_match, Logic.and_assoc.
  do 2 apply and_iff_compat_l.
  assert (matches match truthy tag with
                  | Some t => [Field "tags" (In_ [VStr t])]
                  | None => []
                  end x = true
          ↔ ∀ t, tag = Some t → t ≠ "" → tagged t x) as ->.
  { destruct tag as [[|c t]|]; cbn [truthy];
      [split; [intros _ ? [= <-] Hne; by destruct Hne | done]| |by split].
    rewrite matches_cons, matches_nil, andb_true_r. cbn [clause_match].
    rewrite as_dict_lookup, tagged_match by done.
    split; [by intros ? ? [= <-] | by intros H; apply H]. }
  apply and_iff_compat_l.
  destruct search as [[|c s]|]; cbn [truthy];
      [split; [intros _ ? [= <-] Hne; by destruct Hne | done]| |by split].
  rewrite matches_cons, matches_nil, andb_true_r.
  cbn [clause_match existsb fst snd cond_match].
  rewrite !as_dict_lookup by done. rewrite orb_false_r, !orb_true_iff.
  unfold search_hit.
  split; [by intros ? ? [= <-] | by intros H; apply H].
Qed.

Lemma cursor_limit_0 (l : list doc) : cursor_limit 0 l = l.
Proof. reflexivity. Qed.

(** X6. What the project list selects.  Every item of a page renders a
    project of the collection that is not soft-deleted, has the asked
    [published] value when one is asked, carries the tag when a non-empty
    tag is asked, and is hit by the search pattern on its title, short
    description or tags when a non-empty search is asked; an empty tag or
    search string filters nothing.  With [limit = 0] the page holds every
    such project. *)
Theorem list_projects_selects published tag search page limit w D r w' :
  db w = Some D →
  list_projects published tag search page limit w = (Ok r, w') →
  let selected x :=
    ¬ is_deleted x
    ∧ (∀ b, published = Some b → fields x !! "published" = Some (VBool b))
    ∧ (∀ t, tag = Some t → t ≠ "" → tagged t x)
    ∧ (∀ s, search = Some s → s ≠ "" →
         search_hit s "title" x ∨ search_hit s "shortDesc" x
         ∨ search_hit s "tags" x) in
  (∀ d, d ∈ response_items r →
     ∃ x, x ∈ D !!! "project" ∧ d = to_dict x ∧ selected x)
  ∧ (limit = 0%Z →
     ∀ x, x ∈ D !!! "project" → selected x → to_dict x ∈ response_items r).
Proof.
  intros Hdb. rewrite (list_projects_run _ _ _ _ _ w D Hdb).
  destruct (query_ok _); [|done]. destruct (_ <? 0)%Z eqn:Hskip; [done|].
  destruct (_ && _); [|done]. intros [= <- _] selected.
  cbn [response_items]. split.
  - intros d [x [-> Hx]]%list_elem_of_fmap.
    apply elem_of_cursor_limit, elem_of_drop, elem_of_sort in Hx.
    apply list_elem_of_filter in Hx as [Hq Hx].
    exists x. split; [done|]. split; [done|].
    by apply projects_query_match.
  - intros -> x Hx Hsel. rewrite Z.mul_0_r. change (Z.to_nat 0) with 0%nat.
    rewrite drop_0, cursor_limit_0.
    apply (rendered_when_selected _ (projects_query published tag search));
      [done|].
    by apply projects_query_match.
Qed.

(** X7. What the skill, testimonial and certificate lists select: the
    items render exactly the documents of the collection that are not
    soft-deleted and are published and, for skills, are of the asked
    category and hit by the search on name or category, for certificates,
    carry the asked tag and are hit by the search on title, issuer or
    tags.  Empty strings filter nothing. *)
Theorem lists_select w D :
  db w = Some D →
  (∀ category search r w',
     list_skills category search w = (Ok r, w') →
     ∀ d, d ∈ response_items r
          ↔ ∃ x, x ∈ D !!! "skill" ∧ d = to_dict x
                 ∧ ¬ is_deleted x
                 ∧ fields x !! "published" = Some (VBool true)
                 ∧ (∀ c, category = Some c → c ≠ "" → has_category c x)
                 ∧ (∀ s, search = Some s → s ≠ "" →
                      search_hit s "name" x ∨ search_hit s "category" x))
  ∧ (∀ r w',
       list_testimonials w = (Ok r, w') →
       ∀ d, d ∈ response_items r
            ↔ ∃ x, x ∈ D !!! "testimonial" ∧ d = to_dict x
                   ∧ ¬ is_deleted x
                   ∧ fields x !! "published" = Some (VBool true))
  ∧ (∀ tag search r w',
       list_certificates tag search w = (Ok r, w') →
       ∀ d, d ∈ response_items r
            ↔ ∃ x, x ∈ D !!! "certificate" ∧ d = to_dict x
                   ∧ ¬ is_deleted x
                   ∧ fields x !! "published" = Some (VBool true)
                   ∧ (∀ t, tag = Some t → t ≠ "" → tagged t x)
                   ∧ (∀ s, search = Some s → s ≠ "" →
                        search_hit s "title" x ∨ search_hit s "issuer" x
                        ∨ search_hit s "tags" x)).
Proof.
  intros Hdb. repeat apply conj.
  - intros category search r w'. rewrite (list_skills_run _ _ w D Hdb).
    destruct (query_ok _); [|done]. intros [= <- _] d. cbn [response_items].
    rewrite list_elem_of_fmap. split.
    + intros [x [-> Hx]]. apply elem_of_sort, list_elem_of_filter in Hx as [Hq Hx].
      exists x. split; [done|]. split; [done|]. by apply skills_query_match.
    + intros (x & Hx & -> & Hsel). exists x. split; [done|].
      apply elem_of_sort, list_elem_of_filter. split; [|done].
      by apply skills_query_match.
  - intros r w'. rewrite (list_testimonials_run w D Hdb).
    intros [= <- _] d. cbn [response_items]. rewrite list_elem_of_fmap. split.
    + intros [x [-> Hx]]. apply elem_of_sort, list_elem_of_filter in Hx as [Hq Hx].
      exists x. split; [done|]. split; [done|].
      split; [exact (live_query [is_published] x Hq)
             | exact (published_query [] x Hq)].
    + intros (x & Hx & -> & Hlive & Hpub). exists x. split; [done|].
      apply elem_of_sort, list_elem_of_filter. split; [|done].
      by apply live_published_match.
  - intros tag search r w'. rewrite (list_certificates_run _ _ w D Hdb).
    destruct (query_ok _); [|done]. intros [= <- _] d. cbn [response_items].
    rewrite list_elem_of_fmap. split.
    + intros [x [-> Hx]]. apply elem_of_sort, list_elem_of_filter in Hx as [Hq Hx].
      exists x. split; [done|]. split; [done|].
      by apply certificates_query_match.
    + intros (x & Hx & -> & Hsel). exists x. split; [done|].
      apply elem_of_sort, list_elem_of_filter. split; [|done].
      by apply certificates_query_match.
Qed.

(** ** The order of the lists *)

Lemma bson_compare_antisym a b :
  bson_compare b a = CompOpp (bson_compare a b).
Proof.
  destruct a as [[]|], b as [[]|]; cbn [bson_compare type_rank]; try done.
  - by destruct b, b0.
  - apply Z.compare_antisym.
  - rewrite String.compare_antisym. by destruct (String.compare s0 s).
  - symmetry. apply Qcompare_antisym.
  - apply N.compare_antisym.
Qed.

Lemma compare_by_antisym spec a b :
  compare_by spec b a = CompOpp (compare_by spec a b).
Proof.
  induction spec as [|[k dir] spec IH]; [done|]. cbn [compare_by].
  rewrite (bson_compare_antisym (a !! k) (b !! k)).
  destruct (bson_compare (a !! k) (b !! k)); cbn [CompOpp]; [done|..];
    by destruct (dir <? 0)%Z.
Qed.

#[local] Instance sort_le_total spec : Total (sort_le spec).
Proof.
  intros a b. unfold sort_le.
  rewrite (compare_by_antisym spec (as_dict a) (as_dict b)).
  destruct (compare_by spec (as_dict a) (as_dict b)); cbn [CompOpp];
    [by left | by left | by right].
Qed.

(** *** The sort order is a total preorder *)

Lemma orders_lt_le {A} (cmp : A → A → comparison) a b c :
  orders cmp → cmp a b = Lt → cmp b c ≠ Gt → cmp a c = Lt.
Proof.
  intros [Hopp Htrans] Hab Hbc. destruct (cmp a c) eqn:Hac; [|done|].
  - exfalso. apply (Htrans b c a Hbc).
    + by rewrite Hopp, Hac.
    + by rewrite Hopp, Hab.
  - exfalso. apply (Htrans a b c); [by rewrite Hab | done | done].
Qed.

Lemma orders_le_lt {A} (cmp : A → A → comparison) a b c :
  orders cmp → cmp a b ≠ Gt → cmp b c = Lt → cmp a c = Lt.
Proof.
  intros [Hopp Htrans] Hab Hbc. destruct (cmp a c) eqn:Hac; [|done|].
  - exfalso. apply (Htrans c a b); [by rewrite Hopp, Hac | done |].
    by rewrite Hopp, Hbc.
  - exfalso. apply (Htrans a b c); [done | by rewrite Hbc | done].
Qed.

Lemma orders_eq_l {A} (cmp : A → A → comparison) a b c :
  orders cmp → cmp a b = Eq → cmp a c = cmp b c.
Proof.
  intros Ho Hab. pose proof Ho as [Hopp Htrans].
  destruct (cmp b c) eqn:Hbc.
  - destruct (cmp a c) eqn:Hac; [done|..]; exfalso.
    + apply (Htrans c b a); [by rewrite Hopp, Hbc | by rewrite Hopp, Hab |].
      by rewrite Hopp, Hac.
    + apply (Htrans a b c); [by rewrite Hab | by rewrite Hbc | done].
  - apply (orders_le_lt cmp a b c); [done | by rewrite Hab | done].
  - assert (cmp c a = Lt) as Hca.
    { apply (orders_lt_le cmp c b a); [done | by rewrite Hopp, Hbc |].
      by rewrite Hopp, Hab. }
    by rewrite Hopp, Hca.
Qed.

Lemma orders_ext {A} (f g : A → A → comparison) :
  (∀ a b, f a b = g a b) → orders f → orders g.
Proof.
  intros Hfg [Hopp Htrans]. split.
  - intros a b. rewrite <- !Hfg. apply Hopp.
  - intros a b c. rewrite <- !Hfg. apply Htrans.
Qed.

Lemma orders_on {A B} (f : A → B) (cmp : B → B → comparison) :
  orders cmp → orders (λ a b, cmp (f a) (f b)).
Proof.
  intros [Hopp Htrans]. split.
  - intros a b. apply Hopp.
  - intros a b c. apply Htrans.
Qed.

Lemma orders_opp {A} (cmp : A → A → comparison) :
  orders cmp → orders (λ a b, CompOpp (cmp a b)).
Proof.
  intros [Hopp Htrans]. split.
  - intros a b. by rewrite Hopp.
  - intros a b c Hab Hbc. rewrite <- Hopp in *. by apply (Htrans c b a).
Qed.

Lemma orders_lex {A} (c1 c2 : A → A → comparison) :
  orders c1 → orders c2 →
  orders (λ a b, match c1 a b with Eq => c2 a b | c => c end).
Proof.
  intros H1 H2. pose proof H1 as [Hopp1 Htrans1].
  pose proof H2 as [Hopp2 Htrans2]. split.
  - intros a b. rewrite Hopp1. destruct (c1 a b); cbn [CompOpp]; [|done..].
    apply Hopp2.
  - intros a b c. destruct (c1 a b) eqn:Hab; [| |done].
    + rewrite (orders_eq_l c1 a b c H1 Hab).
      destruct (c1 b c); [apply Htrans2|done..].
    + intros _ Hbc. rewrite (orders_lt_le c1 a b c H1 Hab); [done|].
      by destruct (c1 b c).
Qed.

Lemma Z_compare_orders : orders Z.compare.
Proof.
  split; [intros a b; apply Z.compare_antisym|].
  intros a b c. rewrite !Z.compare_le_iff. lia.
Qed.

Lemma N_compare_orders : orders N.compare.
Proof.
  split; [intros a b; apply N.compare_antisym|].
  intros a b c. rewrite !N.compare_le_iff. lia.
Qed.

Lemma Q_compare_orders : orders Qcompare.
Proof.
  split; [intros a b; symmetry; apply Qcompare_antisym|].
  intros a b c. rewrite <- !Qle_alt. apply Qle_trans.
Qed.

Lemma bool_compare_orders : orders Bool.compare.
Proof. split; [by intros [] []|by intros [] [] []]. Qed.

Lemma string_compare_orders : orders String.compare.
Proof.
  split.
  - intros a b. rewrite (String.compare_antisym a b).
    by destruct (String.compare b a).
  - intros a b c Hab Hbc.
    destruct (String.compare a b) eqn:Eab; [| |done].
    + apply OrderedTypeEx.String_as_OT.cmp_eq in Eab. by subst.
    + destruct (String.compare b c) eqn:Ebc; [| |done].
      * apply OrderedTypeEx.String_as_OT.cmp_eq in Ebc. subst.
        by rewrite Eab.
      * apply OrderedTypeEx.String_as_OT.cmp_lt in Eab, Ebc.
        pose proof (OrderedTypeEx.String_as_OT.lt_trans _ _ _ Eab Ebc) as H.
        apply OrderedTypeEx.String_as_OT.cmp_lt in H.
        unfold OrderedTypeEx.String_as_OT.cmp in H. by rewrite H.
Qed.

Lemma bson_compare_orders : orders bson_compare.
Proof.
  split; [apply bson_compare_antisym|].
  intros a b c.
  destruct a as [[ |x|x|x|x|x|x|x]|], b as [[ |y|y|y|y|y|y|y]|],
           c as [[ |z|z|z|z|z|z|z]|];
    cbn [bson_compare type_rank];
    first [ done
          | apply bool_compare_orders | apply Z_compare_orders
          | apply string_compare_orders | apply Q_compare_orders
          | apply N_compare_orders ].
Qed.

Lemma compare_by_orders spec : orders (compare_by spec).
Proof.
  induction spec as [|[k dir] spec IH]; [by split|].
  eapply orders_ext;
    [|apply (orders_lex
               (λ a b, if (dir <? 0)%Z then CompOpp (bson_compare (a !! k) (b !! k))
                       else bson_compare (a !! k) (b !! k))
               (compare_by spec)); [|exact IH]].
  - intros a b. cbn [compare_by].
    by destruct (dir <? 0)%Z, (bson_compare (a !! k) (b !! k)).
  - destruct (dir <? 0)%Z.
    + apply (orders_opp (λ a b, bson_compare (a !! k) (b !! k))).
      apply (orders_on (λ a : gmap string value, a !! k)), bson_compare_orders.
    + apply (orders_on (λ a : gmap string value, a !! k)), bson_compare_orders.
Qed.

#[local] Instance sort_le_transitive spec : Transitive (sort_le spec).
Proof.
  intros a b c. unfold sort_le. apply compare_by_orders.
Qed.

Lemma bson_compare_refl a : bson_compare a a = Eq.
Proof.
  pose proof (bson_compare_antisym a a) as H.
  by destruct (bson_compare a a).
Qed.

Lemma StronglySorted_lookup {A} (R : relation A) l i j x y :
  StronglySorted R l → i < j → l !! i = Some x → l !! j = Some y → R x y.
Proof.
  intros Hl. revert i j. induction Hl as [|z l Hl IH Hz]; intros i j Hij Hi Hj;
    [done|].
  destruct j as [|j]; [lia|]. cbn in Hj. destruct i as [|i].
  - injection Hi as ->.
    apply (proj1 (Forall_forall _ _) Hz y). by apply list_elem_of_lookup_2 in Hj.
  - cbn in Hi. apply (IH i j); [lia|done|done].
Qed.

Lemma sort_sorted spec l : StronglySorted (sort_le spec) (sort spec l).
Proof. apply (StronglySorted_merge_sort _). Qed.

(** What the order on [_id], descending, says of two documents. *)
Lemma sort_le_id_desc x y : sort_le [("_id", (-1)%Z)] x y → (_id y ≤ _id x)%N.
Proof.
  unfold sort_le. cbn [compare_by]. unfold as_dict.
  rewrite !lookup_insert_eq. cbn [bson_compare].
  change (-1 <? 0)%Z with true. cbn [bson_compare].
  destruct (N.compare_spec (_id x) (_id y)); cbn [CompOpp]; [lia|done|lia].
Qed.

(** What the order of the project list says of two documents. *)
Lemma sort_le_project x y :
  sort_le [("featured", -1); ("orderIndex", 1); ("created_at", -1)]%Z x y →
  (fields x !! "featured" = Some (VBool false) →
   fields y !! "featured" ≠ Some (VBool true))
  ∧ (fields x !! "featured" = fields y !! "featured" →
     ∀ n m, fields x !! "orderIndex" = Some (VInt n) →
            fields y !! "orderIndex" = Some (VInt m) → (n ≤ m)%Z)
  ∧ (fields x !! "featured" = fields y !! "featured" →
     fields x !! "orderIndex" = fields y !! "orderIndex" →
     ∀ t u, fields x !! "created_at" = Some (VDate t) →
            fields y !! "created_at" = Some (VDate u) → (u <= t)%Q).
Proof.
  unfold sort_le. cbn [compare_by]. rewrite !as_dict_lookup by done.
  change (-1 <? 0)%Z with true. change (1 <? 0)%Z with false.
  intros Hle. split; [|split].
  - intros Hx Hy. rewrite Hx, Hy in Hle. by apply Hle.
  - intros Hf n m Hn Hm. rewrite Hf, bson_compare_refl, Hn, Hm in Hle.
    cbn [bson_compare] in Hle. revert Hle.
    destruct (Z.compare_spec n m); [lia|lia|done].
  - intros Hf Ho t u Ht Hu.
    rewrite Hf, bson_compare_refl, Ho, bson_compare_refl, Ht, Hu in Hle.
    cbn [bson_compare] in Hle. revert Hle.
    destruct (t ?= u)%Q eqn:Htu; cbn [CompOpp]; [|done|].
    + intros _. apply Qeq_alt in Htu. rewrite Htu. apply Qle_refl.
    + intros _. apply Qgt_alt in Htu. by apply Qlt_le_weak.
Qed.

(** X8. The lists come in the order the handlers ask of the cursor.  The
    project list renders a page (the documents past the skip, up to the
    limit) of the projects the filter selects, put in an order in which
    every document stands to every later one as the sort on [featured]
    descending, then [orderIndex] ascending, then [created_at] descending
    asks: a project that is not featured is not followed by a featured
    one; of two with the same [featured], the earlier has the smaller or
    the same integer [orderIndex]; of two that agree on both, the earlier
    has the later or the same date [created_at].  The skill and the
    testimonial list render the selected documents ordered by
    [orderIndex] ascending, the certificate list by [_id] descending: an
    earlier certificate has the greater or the same id. *)
Theorem lists_are_sorted w D :
  db w = Some D →
  (∀ published tag search page limit r w',
     list_projects published tag search page limit w = (Ok r, w') →
     ∃ cursor,
       cursor ≡ₚ filter (λ x, matches (projects_query published tag search) x
                               = true) (D !!! "project")
       ∧ StronglySorted (sort_le [("featured", -1); ("orderIndex", 1);
                                  ("created_at", -1)]%Z) cursor
       ∧ response_items r
         = to_dict <$> cursor_limit limit
                         (drop (Z.to_nat ((page - 1) * limit)) cursor)
       ∧ ∀ i j x y, i < j → cursor !! i = Some x → cursor !! j = Some y →
           (fields x !! "featured" = Some (VBool false) →
            fields y !! "featured" ≠ Some (VBool true))
           ∧ (fields x !! "featured" = fields y !! "featured" →
              ∀ n m, fields x !! "orderIndex" = Some (VInt n) →
                     fields y !! "orderIndex" = Some (VInt m) → (n ≤ m)%Z)
           ∧ (fields x !! "featured" = fields y !! "featured" →
              fields x !! "orderIndex" = fields y !! "orderIndex" →
              ∀ t u, fields x !! "created_at" = Some (VDate t) →
                     fields y !! "created_at" = Some (VDate u) → (u <= t)%Q))
  ∧ (∀ category search r w',
       list_skills category search w = (Ok r, w') →
       ∃ docs,
         docs ≡ₚ filter (λ x, matches (skills_query category search) x = true)
                        (D !!! "skill")
         ∧ StronglySorted (sort_le [("orderIndex", 1%Z)]) docs
         ∧ response_items r = to_dict <$> docs)
  ∧ (∀ r w',
       list_testimonials w = (Ok r, w') →
       ∃ docs,
         docs ≡ₚ filter (λ x, matches [not_deleted; is_published] x = true)
                        (D !!! "testimonial")
         ∧ StronglySorted (sort_le [("orderIndex", 1%Z)]) docs
         ∧ response_items r = to_dict <$> docs)
  ∧ (∀ tag search r w',
       list_certificates tag search w = (Ok r, w') →
       ∃ docs,
         docs ≡ₚ filter (λ x, matches (certificates_query tag search) x = true)
                        (D !!! "certificate")
         ∧ StronglySorted (sort_le [("_id", (-1)%Z)]) docs
         ∧ response_items r = to_dict <$> docs
         ∧ ∀ i j x y, i < j → docs !! i = Some x → docs !! j = Some y →
                      (_id y ≤ _id x)%N).
Proof.
  intros Hdb. repeat apply conj.
  - intros published tag search page limit r w'.
    rewrite (list_projects_run _ _ _ _ _ w D Hdb).
    destruct (query_ok _); [|done]. destruct (_ <? 0)%Z; [done|].
    destruct (_ && _); [|done]. intros [= <- _].
    eexists. split; [apply sort_Permutation|].
    split; [apply sort_sorted|]. split; [reflexivity|].
    intros i j x y Hij Hi Hj. apply sort_le_project.
    exact (StronglySorted_lookup _ _ i j x y (sort_sorted _ _) Hij Hi Hj).
  - intros category search r w'. rewrite (list_skills_run _ _ w D Hdb).
    destruct (query_ok _); [|done]. intros [= <- _].
    eexists. split; [apply sort_Permutation|].
    split; [apply sort_sorted | reflexivity].
  - intros r w'. rewrite (list_testimonials_run w D Hdb). intros [= <- _].
    eexists. split; [apply sort_Permutation|].
    split; [apply sort_sorted | reflexivity].
  - intros tag search r w'. rewrite (list_certificates_run _ _ w D Hdb).
    destruct (query_ok _); [|done]. intros [= <- _].
    eexists. split; [apply sort_Permutation|].
    split; [apply sort_sorted|]. split; [reflexivity|].
    intros i j x y Hij Hi Hj. apply sort_le_id_desc.
    exact (StronglySorted_lookup _ _ i j x y (sort_sorted _ _) Hij Hi Hj).
Qed.

(** Documents sorted on [orderIndex] alone, all with an integer there, are
    in non-decreasing order of that integer. *)
Lemma sort_le_order_index x y n m :
  sort_le [("orderIndex", 1%Z)] x y →
  order_index x = Some n → order_index y = Some m → (n ≤ m)%Z.
Proof.
  unfold sort_le, order_index. cbn [compare_by].
  rewrite !as_dict_lookup by done.
  destruct (fields x !! "orderIndex") as [[]|]; try done.
  destruct (fields y !! "orderIndex") as [[]|]; try done.
  intros Hle [= <-] [= <-]. cbn [bson_compare] in Hle.
  change (1 <? 0)%Z with false in Hle.
  revert Hle. destruct (Z.compare_spec n0 n1); [lia|lia|done].
Qed.

Lemma Sorted_order_index (docs : list doc) :
  Sorted (sort_le [("orderIndex", 1%Z)]) docs →
  Forall (λ x, is_Some (order_index x)) docs →
  ∀ i j x y n m,
    i < j → docs !! i = Some x → docs !! j = Some y →
    order_index x = Some n → order_index y = Some m → (n ≤ m)%Z.
Proof.
  intros Hs Hall.
  assert (StronglySorted
            (λ x y, ∀ n m, order_index x = Some n → order_index y = Some m →
                           (n ≤ m)%Z) docs) as Hss.
  { induction docs as [|x docs IH]; [constructor|].
    apply Sorted_inv in Hs as [Hs Hhd]. apply Forall_cons in Hall as [Hx Hall].
    specialize (IH Hs Hall). constructor; [done|].
    destruct docs as [|y docs]; [constructor|].
    apply HdRel_inv in Hhd. apply Forall_cons in Hall as [[my Hy] _].
    apply StronglySorted_inv in IH as [_ Hrest].
    constructor.
    - intros n m Hn Hm. by apply (sort_le_order_index x y).
    - eapply Forall_impl; [exact Hrest|]. intros z Hz n m Hn Hm.
      transitivity my; [by apply (sort_le_order_index x y) | by apply Hz]. }
  clear Hs Hall. intros i j x y n m Hij Hi Hj Hn Hm.
  revert i j Hij Hi Hj. induction Hss as [|z docs Hss IH Hz]; intros i j Hij Hi Hj;
    [done|].
  destruct j as [|j]; [lia|]. cbn in Hj. destruct i as [|i].
  - injection Hi as ->.
    apply (proj1 (Forall_forall _ _) Hz y); [|done|done].
    by apply list_elem_of_lookup_2 in Hj.
  - cbn in Hi. apply (IH i j); [lia|done|done].
Qed.

(** X9. When every skill (testimonial) the list renders has an integer
    [orderIndex], the list is in non-decreasing order of it: an item that
    comes earlier has the smaller or the same index. *)
Theorem skills_in_order w D :
  db w = Some D →
  (∀ category search r w',
     list_skills category search w = (Ok r, w') →
     ∃ docs, response_items r = to_dict <$> docs
       ∧ (Forall (λ x, is_Some (order_index x)) docs →
          ∀ i j x y n m,
            i < j → docs !! i = Some x → docs !! j = Some y →
            order_index x = Some n → order_index y = Some m → (n ≤ m)%Z))
  ∧ (∀ r w',
       list_testimonials w = (Ok r, w') →
       ∃ docs, response_items r = to_dict <$> docs
         ∧ (Forall (λ x, is_Some (order_index x)) docs →
            ∀ i j x y n m,
              i < j → docs !! i = Some x → docs !! j = Some y →
              order_index x = Some n → order_index y = Some m → (n ≤ m)%Z)).
Proof.
  intros Hdb. split.
  - intros category search r w'. rewrite (list_skills_run _ _ w D Hdb).
    destruct (query_ok _); [|done]. intros [= <- _].
    eexists. split; [reflexivity|]. apply Sorted_order_index.
    apply (Sorted_merge_sort _).
  - intros r w'. rewrite (list_testimonials_run w D Hdb). intros [= <- _].
    eexists. split; [reflexivity|]. apply Sorted_order_index.
    apply (Sorted_merge_sort _).
Qed.

(** ** Paging through the project list *)

Lemma cursor_limit_take limit (l : list doc) :
  (1 ≤ limit)%Z → cursor_limit limit l = take (Z.to_nat limit) l.
Proof.
  intros H. unfold cursor_limit. rewrite (proj2 (Z.eqb_neq limit 0)) by lia.
  by rewrite Z.abs_eq by lia.
Qed.

Lemma int64_inside n : (0 ≤ n < 2 ^ 63)%Z → int64 n = true.
Proof.
  intros [H0 H1]. unfold int64. apply andb_true_intro.
  split; [apply Z.leb_le | by apply Z.ltb_lt].
  transitivity 0%Z; [done|lia].
Qed.

(** X10. Paging loses and repeats nothing when the sort keys break every
    tie.  With a limit of at least 1, an unchanged store and no two
    selected projects equal on [featured], [orderIndex] and [created_at],
    there is one way only to put the selected projects in the asked order;
    the items of the pages 1 to [n], one after the other, are the first
    [n * limit] of them in that order; so once [n * limit] reaches their
    number the pages hold every selected project, each once, in order. *)
Theorem pages_partition published tag search limit n w D :
  db w = Some D →
  query_ok (projects_query published tag search) = true →
  (1 ≤ limit)%Z → (Z.of_nat n * limit < 2 ^ 63)%Z →
  no_ties [("featured", -1); ("orderIndex", 1); ("created_at", -1)]%Z
    (filter (λ x, matches (projects_query published tag search) x = true)
            (D !!! "project")) →
  let spec := [("featured", -1); ("orderIndex", 1); ("created_at", -1)]%Z in
  let found :=
    filter (λ x, matches (projects_query published tag search) x = true)
           (D !!! "project") in
  ∃ cursor,
    cursor ≡ₚ found
    ∧ StronglySorted (sort_le spec) cursor
    ∧ (∀ l, l ≡ₚ found → Sorted (sort_le spec) l → l = cursor)
    ∧ pages n published tag search limit w
      = to_dict <$> take (n * Z.to_nat limit) cursor
    ∧ ((Z.of_nat (length found) ≤ Z.of_nat n * limit)%Z →
       pages n published tag search limit w = to_dict <$> cursor).
Proof.
  intros Hdb Hq Hlimit Hfit Hties spec found.
  set (cursor := sort spec found).
  assert (pages n published tag search limit w
          = to_dict <$> take (n * Z.to_nat limit) cursor) as Hpages.
  { clear Hties. induction n as [|n IH]; [done|]. cbn [pages].
    rewrite IH by nia.
    rewrite (list_projects_run _ _ _ _ _ w D Hdb), Hq.
    replace ((Z.of_nat (S n) - 1) * limit)%Z with (Z.of_nat n * limit)%Z by lia.
    rewrite (proj2 (Z.ltb_ge (Z.of_nat n * limit) 0)) by nia.
    rewrite (int64_inside (Z.of_nat n * limit)) by nia.
    rewrite (int64_inside (Z.abs limit)) by (rewrite Z.abs_eq by lia; nia).
    cbn [andb fst items_of response_items]. fold spec. fold found. fold cursor.
    rewrite cursor_limit_take by done.
    rewrite Z2Nat.inj_mul, Nat2Z.id by lia.
    rewrite <- fmap_app, take_take_drop. f_equal. f_equal. lia. }
  exists cursor. split; [apply sort_Permutation|].
  split; [apply sort_sorted|]. split; [|split; [exact Hpages|]].
  - intros l Hperm Hl.
    apply (Sorted_unique_strong (sort_le spec) l cursor).
    + intros x y Hx Hy Hxy Hyx. apply Hties.
      * change (x ∈ found). by rewrite <- Hperm.
      * change (y ∈ found). unfold cursor in Hy. by apply elem_of_sort in Hy.
      * fold spec. unfold sort_le in Hxy, Hyx.
        rewrite (compare_by_antisym spec (as_dict x) (as_dict y)) in Hyx.
        by destruct (compare_by spec (as_dict x) (as_dict y)).
    + exact Hl.
    + apply (Sorted_merge_sort _).
    + unfold cursor. by rewrite sort_Permutation.
  - intros Hall. rewrite Hpages. f_equal.
    apply take_ge. unfold cursor. rewrite sort_Permutation.
    apply Nat2Z.inj_le. rewrite Nat2Z.inj_mul, Z2Nat.id by lia. exact Hall.
Qed.

(** ** The mutations on a working store *)

Lemma entity_not_log m : entity_of m ≠ "activitylog".
Proof. by destruct m. Qed.

Lemma slug_filter_iff slug x :
  matches [Field "slug" (Eq_ (VStr slug))] x = true ↔ has_slug slug x.
Proof.
  cbn [matches forallb clause_match cond_match].
  rewrite as_dict_lookup, andb_true_r by done. reflexivity.
Qed.

Lemma run_mutation_perform m w D :
  db w = Some D → slug_free m w →
  run_mutation m w = perform (entity_of m) (action_of m) w.
Proof.
  intros Hdb Hfree.
  destruct m; cbn [run_mutation perform action_of entity_of]; try reflexivity.
  - rewrite (create_project_unfold payload w D Hdb).
    destruct (head _) as [y|] eqn:Hhead; [|done]. exfalso.
    pose proof (head_Some_elem_of _ _ Hhead) as Hin.
    apply list_elem_of_filter in Hin. destruct Hin as [Hy Hin].
    apply (Hfree payload y eq_refl); [by rewrite (coll_of_db _ w D Hdb)|].
    exact (proj1 (slug_filter_iff _ y) Hy).
  - exact (update_project_unfold _ _ _ D Hdb).
  - exact (delete_project_unfold _ _ _ D Hdb).
Qed.

Lemma slug_free_not_create m w :
  (∀ p, m ≠ CreateProject p) → slug_free m w.
Proof. intros Hm p x ->. by destruct (Hm p). Qed.

Lemma ids_le_max (l : list oid) o :
  o ∈ l → (o ≤ foldr N.max 0 l)%N.
Proof.
  induction l as [|a l IH]; [by intros ?%elem_of_nil|].
  cbn [foldr]. intros [->|Hin]%elem_of_cons; [lia|].
  specialize (IH Hin). lia.
Qed.

Lemma new_oid_fresh l : new_oid l ∉ _id <$> l.
Proof.
  intros Hin%ids_le_max. unfold new_oid in Hin. lia.
Qed.

Lemma delete_first_fresh o d l :
  o ∉ _id <$> l →
  delete_first (matches (by_id o)) (l ++ [Doc o d]) = l.
Proof.
  induction l as [|x l IH]; cbn [fmap list_fmap app delete_first].
  - intros _. rewrite matches_by_id. by rewrite bool_decide_true.
  - intros [Hne Hl]%not_elem_of_cons. rewrite matches_by_id.
    rewrite bool_decide_false by done. by rewrite IH.
Qed.

Lemma filter_ids_absent o (l : list doc) :
  o ∉ _id <$> l → filter (λ y, _id y ≠ o) l = l.
Proof.
  induction l as [|x l IH]; [done|]. cbn [fmap list_fmap].
  intros [Hne Hl]%not_elem_of_cons. rewrite filter_cons.
  rewrite decide_True by (by intros ?). by rewrite IH.
Qed.

Lemma delete_first_by_id o l :
  NoDup (_id <$> l) →
  delete_first (matches (by_id o)) l = filter (λ y, _id y ≠ o) l.
Proof.
  induction l as [|x l IH]; [done|]. cbn [fmap list_fmap delete_first].
  intros [Hx Hl]%NoDup_cons. rewrite matches_by_id, filter_cons.
  destruct (decide (_id x = o)) as [Ho|Ho].
  - rewrite bool_decide_true by done.
    rewrite decide_False by (intros Hne; by apply Hne).
    symmetry. apply filter_ids_absent. by rewrite <- Ho.
  - rewrite bool_decide_false by done. rewrite decide_True by done.
    by rewrite IH.
Qed.

(** *** The ids the create handlers return *)

Lemma hex_val_char d : (d < 16)%N → hex_val (hex_char d) = Some d.
Proof.
  intros H. rewrite <- (N2Nat.id d).
  assert (N.to_nat d < 16) as Hlt by lia.
  destruct (N.to_nat d)
    as [|[|[|[|[|[|[|[|[|[|[|[|[|[|[|[|n]]]]]]]]]]]]]]]];
    [reflexivity..|lia].
Qed.

Lemma fromhex_hexlify k : ∀ n acc s,
  fromhex acc (hexlify k n s) = fromhex (acc * 16 ^ N.of_nat k + n mod 16 ^ N.of_nat k) s.
Proof.
  induction k as [|k IH]; intros n acc s.
  - cbn [hexlify]. f_equal. change (16 ^ N.of_nat 0)%N with 1%N.
    rewrite N.mod_1_r. lia.
  - cbn [hexlify]. rewrite IH. cbn [fromhex].
    rewrite hex_val_char by (apply N.mod_lt; lia). f_equal.
    rewrite Nat2N.inj_succ, N.pow_succ_r'.
    rewrite (N.Div0.mod_mul_r n 16 (16 ^ N.of_nat k)). lia.
Qed.

Lemma hexlify_length k : ∀ n s,
  String.length (hexlify k n s) = k + String.length s.
Proof.
  induction k as [|k IH]; intros n s; [done|].
  cbn [hexlify]. rewrite IH. cbn [String.length]. lia.
Qed.

Lemma str_oid_parses o : (o < 2 ^ 96)%N → oid_of_str (str_oid o) = Some o.
Proof.
  intros Ho. unfold oid_of_str, str_oid. rewrite hexlify_length.
  cbn [String.length Nat.add Nat.eqb]. rewrite fromhex_hexlify.
  cbn [fromhex]. f_equal. rewrite N.mul_0_l, N.add_0_l.
  apply N.mod_small. exact Ho.
Qed.

Lemma at_ms_refl t : at_ms t t.
Proof. unfold at_ms. split; [lra|apply Qle_refl]. Qed.

Lemma stored_refl v : stored v v.
Proof.
  destruct v; cbn [stored]; try done. eexists. split; [done|apply at_ms_refl].
Qed.

(** X11. A create on a working store (with a payload the driver can
    encode and, for a project, a slug no project carries) answers with the
    string of an ObjectId that no document of the collection had, appends
    to the collection one document under that id, which holds every field
    of the payload, [created_at] and [updated_at] set to the current time,
    and nothing else, appends one activity-log entry of the admin with
    [action = "create"], the collection as [entity] and that id as
    [entity_id], and changes nothing else.  (Dates are stored to the
    millisecond.) *)
Theorem create_appends m dump w D :
  db w = Some D → action_of m = Creating dump → slug_free m w →
  entity_of m ∉ down w → "activitylog" ∉ down w → encodable dump →
  let c := entity_of m in
  ∃ w' o x e,
    run_mutation m w = (Ok (Created (str_oid o)), w')
    ∧ (o ∉ _id <$> coll_of c w)
    ∧ coll_of c w' = coll_of c w ++ [x]
    ∧ _id x = o
    ∧ (∀ k v, dump !! k = Some v → k ≠ "created_at" → k ≠ "updated_at" →
         ∃ v', fields x !! k = Some v' ∧ stored v v')
    ∧ (∃ t, fields x !! "created_at" = Some (VDate t) ∧ at_ms (clock w) t)
    ∧ (∃ t, fields x !! "updated_at" = Some (VDate t) ∧ at_ms (clock w) t)
    ∧ (∀ k, dump !! k = None → k ≠ "created_at" → k ≠ "updated_at" →
            fields x !! k = None)
    ∧ coll_of "activitylog" w' = coll_of "activitylog" w ++ [e]
    ∧ audit "create" c (str_oid o) (clock w) e
    ∧ ∀ c', c' ≠ c → c' ≠ "activitylog" → coll_of c' w' = coll_of c' w.
Proof.
  intros Hdb Ha Hfree Hup Hlog Henc c.
  pose proof (entity_not_log m) as Hc. fold c in Hc, Hup.
  rewrite (run_mutation_perform m w D Hdb Hfree), Ha. cbn [perform]. fold c.
  rewrite (create_entity_run c dump w D Hdb Hup).
  rewrite decide_True by (by apply stamped_encodable).
  rewrite decide_False by done.
  rewrite !(coll_of_db _ w D Hdb).
  eexists _, (new_oid (D !!! c)), (Doc _ _), (Doc _ _).
  split; [reflexivity|]. split; [apply new_oid_fresh|].
  rewrite !coll_of_with_db.
  split; [by rewrite logged_other, lookup_total_insert_eq|].
  split; [reflexivity|]. cbn [fields]. split.
  { intros k v Hk Hk1 Hk2. exists v. rewrite !lookup_insert_ne by done.
    split; [exact Hk | apply stored_refl]. }
  split.
  { exists (clock w). rewrite lookup_insert_ne, lookup_insert_eq by done.
    split; [reflexivity | apply at_ms_refl]. }
  split.
  { exists (clock w). rewrite lookup_insert_eq.
    split; [reflexivity | apply at_ms_refl]. }
  split.
  { intros k Hk Hk1 Hk2. by rewrite !lookup_insert_ne. }
  split; [by rewrite logged_log, lookup_total_insert_ne|].
  split; [apply log_entry_audit|].
  intros c' Hc' Hlog'. rewrite coll_of_with_db, (coll_of_db _ w D Hdb).
  by rewrite logged_other, lookup_total_insert_ne.
Qed.

(** X12. The id a create returns names the new document: a hard delete
    with it, of the same entity, answers [{"ok": True}] and leaves the
    entity collection as it was before the create.  (The ObjectId the
    driver generated has 12 bytes.) *)
Theorem create_then_hard_delete m dump w D :
  db w = Some D → action_of m = Creating dump → slug_free m w →
  entity_of m ∉ down w → "activitylog" ∉ down w → encodable dump →
  (new_oid (coll_of (entity_of m) w) < 2 ^ 96)%N →
  ∃ id w1,
    run_mutation m w = (Ok (Created id), w1)
    ∧ ∀ m', entity_of m' = entity_of m → action_of m' = Deleting id true →
        ∃ w2, run_mutation m' w1 = (Ok OkTrue, w2)
              ∧ coll_of (entity_of m) w2 = coll_of (entity_of m) w.
Proof.
  intros Hdb Ha Hfree Hup Hlog Henc Hoid.
  set (c := entity_of m) in *. set (o := new_oid (coll_of c w)) in *.
  pose proof (entity_not_log m) as Hc. fold c in Hc.
  exists (str_oid o).
  rewrite (run_mutation_perform m w D Hdb Hfree), Ha. cbn [perform]. fold c.
  rewrite (create_entity_run c dump w D Hdb Hup).
  rewrite decide_True by (by apply stamped_encodable).
  rewrite decide_False by done.
  unfold o in *. rewrite !(coll_of_db _ w D Hdb) in *.
  eexists. split; [reflexivity|]. intros m' Hc' Ha'.
  set (D1 := logged _ _).
  assert (Hdb1 : db (with_db D1 w) = Some D1) by reflexivity.
  rewrite (run_mutation_perform m' _ D1 Hdb1)
    by (apply slug_free_not_create; intros p ->; discriminate Ha').
  rewrite Ha', Hc'. cbn [perform]. fold c.
  rewrite (delete_entity_run c _ true _ D1 _ Hdb1 Hup (str_oid_parses _ Hoid)).
  rewrite decide_False by done.
  eexists. split; [reflexivity|].
  rewrite coll_of_with_db, logged_other, lookup_total_insert_eq by done.
  unfold D1. rewrite logged_other, lookup_total_insert_eq by done.
  apply delete_first_fresh, new_oid_fresh.
Qed.

(** X13. An update with a well-formed id that no document of the
    collection carries answers 404 "Not found", a client error, writes no
    activity-log entry and leaves every collection as it was (unlike a
    delete of such an id, which answers [{"ok": True}] and is logged). *)
Theorem update_absent_not_found m id dump o w D :
  db w = Some D → action_of m = Updating id dump →
  oid_of_str id = Some o → o ∉ _id <$> coll_of (entity_of m) w →
  entity_of m ∉ down w → encodable dump →
  ∃ w',
    run_mutation m w = (Raise (HTTPException 404 "Not found"), w')
    ∧ is_client_error (status_of (run_mutation m w).1) = true
    ∧ ∀ c, coll_of c w' = coll_of c w.
Proof.
  intros Hdb Ha Hid Habs Hup Henc.
  rewrite (coll_of_db _ w D Hdb) in Habs.
  rewrite (run_mutation_perform m w D Hdb)
    by (apply slug_free_not_create; intros p ->; discriminate Ha).
  rewrite Ha. cbn [perform].
  rewrite (update_entity_run _ id dump w D o Hdb Hup Hid).
  rewrite decide_True by (by apply encodable_insert).
  rewrite bool_decide_false by done.
  eexists. split; [reflexivity|]. split; [reflexivity|].
  intros c. rewrite coll_of_with_db, (coll_of_db _ w D Hdb).
  rewrite update_first_absent by done.
  destruct (decide (c = entity_of m)) as [->|Hc].
  - by rewrite lookup_total_insert_eq.
  - by rewrite lookup_total_insert_ne.
Qed.

(** X14. An update that reaches a document (ids being unique in the
    collection) answers [{"ok": True}] and rewrites that document only:
    every document keeps its place and its [_id]; the one of the id takes
    every field of the payload dump and the current time as [updated_at],
    and keeps every field the dump does not name, such as [created_at];
    the other documents and the other collections stay as they were; one
    activity-log entry of the admin is appended, with [action = "update"],
    the collection as [entity] and the id as [entity_id].  (Dates are
    stored to the millisecond.) *)
Theorem update_rewrites_one m id dump o x w D :
  db w = Some D → action_of m = Updating id dump →
  oid_of_str id = Some o →
  entity_of m ∉ down w → "activitylog" ∉ down w → encodable dump →
  NoDup (_id <$> coll_of (entity_of m) w) →
  x ∈ coll_of (entity_of m) w → _id x = o →
  let c := entity_of m in
  ∃ w' e,
    run_mutation m w = (Ok OkTrue, w')
    ∧ length (coll_of c w') = length (coll_of c w)
    ∧ (∀ i y, coll_of c w !! i = Some y →
         ∃ y', coll_of c w' !! i = Some y'
               ∧ _id y' = _id y
               ∧ (_id y ≠ o → y' = y)
               ∧ (_id y = o →
                  (∀ k v, dump !! k = Some v → k ≠ "updated_at" →
                     ∃ v', fields y' !! k = Some v' ∧ stored v v')
                  ∧ (∃ t, fields y' !! "updated_at" = Some (VDate t)
                          ∧ at_ms (clock w) t)
                  ∧ ∀ k, dump !! k = None → k ≠ "updated_at" →
                         fields y' !! k = fields y !! k))
    ∧ coll_of "activitylog" w' = coll_of "activitylog" w ++ [e]
    ∧ audit "update" c id (clock w) e
    ∧ ∀ c', c' ≠ c → c' ≠ "activitylog" → coll_of c' w' = coll_of c' w.
Proof.
  intros Hdb Ha Hid Hup Hlog Henc Hnodup Hx Hxo c.
  pose proof (entity_not_log m) as Hc. fold c in Hc, Hup, Hnodup, Hx.
  rewrite (coll_of_db _ w D Hdb) in Hnodup, Hx.
  rewrite (run_mutation_perform m w D Hdb)
    by (apply slug_free_not_create; intros p ->; discriminate Ha).
  rewrite Ha. cbn [perform]. fold c.
  rewrite (update_entity_found c id o dump x w D) by done.
  rewrite !(coll_of_db _ w D Hdb).
  eexists _, (Doc _ _). split; [reflexivity|]. rewrite !coll_of_with_db.
  rewrite !logged_other, !lookup_total_insert_eq by done.
  split; [by rewrite length_fmap|]. split.
  { intros i y Hi. rewrite list_lookup_fmap, Hi.
    cbn [fmap option_fmap option_map].
    eexists. split; [reflexivity|].
    destruct (decide (_id y = o)) as [Hy|Hy].
    - rewrite bool_decide_true by done. split; [reflexivity|].
      split; [done|]. intros _. split; [|split].
      + intros k v Hk Hne. exists v. split; [|apply stored_refl].
        apply set_fields_lookup. by rewrite lookup_insert_ne.
      + exists (clock w). split; [|apply at_ms_refl].
        apply set_fields_lookup. by rewrite lookup_insert_eq.
      + intros k Hk Hne. apply set_fields_frame. by rewrite lookup_insert_ne.
    - rewrite bool_decide_false by done. done. }
  split; [by rewrite logged_log, lookup_total_insert_ne|].
  split; [apply log_entry_audit|].
  intros c' Hc' Hlog'. rewrite coll_of_with_db, (coll_of_db _ w D Hdb).
  by rewrite logged_other, lookup_total_insert_ne.
Qed.

Lemma soft_delete_lookup (now : Q) k :
  (list_to_map [("deleted", VBool true); ("updated_at", VDate now)]
    : gmap string value) !! k
  = if decide (k = "deleted") then Some (VBool true)
    else if decide (k = "updated_at") then Some (VDate now) else None.
Proof.
  cbn [list_to_map foldr fst snd uncurry].
  repeat case_decide; subst; by simplify_map_eq.
Qed.

(** X15. A delete that reaches a document (ids being unique in the
    collection) answers [{"ok": True}] and appends one activity-log entry
    of the admin with [action = "delete"], the collection as [entity] and
    the id as [entity_id].  A hard delete removes that document and no
    other.  A soft delete keeps every document in its place and, on that
    one, sets [deleted] to [true] and [updated_at] to the current time,
    keeping its other fields.  Other collections stay as they were.
    (Dates are stored to the millisecond.) *)
Theorem delete_reaches_one m id (hard : bool) o x w D :
  db w = Some D → action_of m = Deleting id hard →
  oid_of_str id = Some o →
  entity_of m ∉ down w → "activitylog" ∉ down w →
  NoDup (_id <$> coll_of (entity_of m) w) →
  x ∈ coll_of (entity_of m) w → _id x = o →
  let c := entity_of m in
  ∃ w' e,
    run_mutation m w = (Ok OkTrue, w')
    ∧ (hard = true →
       coll_of c w' = filter (λ y, _id y ≠ o) (coll_of c w)
       ∧ (x ∉ coll_of c w')
       ∧ S (length (coll_of c w')) = length (coll_of c w))
    ∧ (hard = false →
       length (coll_of c w') = length (coll_of c w)
       ∧ ∀ i y, coll_of c w !! i = Some y →
           ∃ y', coll_of c w' !! i = Some y'
                 ∧ _id y' = _id y
                 ∧ (_id y ≠ o → y' = y)
                 ∧ (_id y = o →
                    is_deleted y'
                    ∧ (∃ t, fields y' !! "updated_at" = Some (VDate t)
                            ∧ at_ms (clock w) t)
                    ∧ ∀ k, k ≠ "deleted" → k ≠ "updated_at" →
                           fields y' !! k = fields y !! k))
    ∧ coll_of "activitylog" w' = coll_of "activitylog" w ++ [e]
    ∧ audit "delete" c id (clock w) e
    ∧ ∀ c', c' ≠ c → c' ≠ "activitylog" → coll_of c' w' = coll_of c' w.
Proof.
  intros Hdb Ha Hid Hup Hlog Hnodup Hx Hxo c.
  pose proof (entity_not_log m) as Hc. fold c in Hc, Hup, Hnodup, Hx.
  rewrite (coll_of_db _ w D Hdb) in Hnodup, Hx.
  rewrite (run_mutation_perform m w D Hdb)
    by (apply slug_free_not_create; intros p ->; discriminate Ha).
  rewrite Ha. cbn [perform]. fold c.
  rewrite (delete_entity_run c id hard w D o Hdb Hup Hid).
  rewrite decide_False by done.
  rewrite !(coll_of_db _ w D Hdb).
  eexists _, (Doc _ _). split; [reflexivity|]. rewrite !coll_of_with_db.
  rewrite !logged_other, !lookup_total_insert_eq by done.
  split; [|split; [|split; [|split]]].
  - intros ->. rewrite delete_first_by_id by done. split; [done|]. split.
    + rewrite list_elem_of_filter. intros [Hne _]. by apply Hne.
    + assert (o ∈ _id <$> D !!! c) as Hin
        by (apply list_elem_of_fmap; exists x; by split).
      clear x Hx Hxo. revert Hin Hnodup.
      generalize (D !!! c). intros l. induction l as [|y l IH];
        [by intros ?%elem_of_nil|].
      cbn [fmap list_fmap]. intros Hin [Hy Hl]%NoDup_cons.
      rewrite filter_cons. destruct (decide (_id y = o)) as [Ho|Ho].
      * rewrite decide_False by (intros Hne; by apply Hne).
        rewrite filter_ids_absent by (by rewrite <- Ho). done.
      * rewrite decide_True by done. cbn [length]. f_equal.
        apply IH; [|done]. apply elem_of_cons in Hin as [Hin|Hin]; [|done].
        by destruct Ho.
  - intros ->. rewrite update_first_by_id by done.
    split; [by rewrite length_fmap|].
    intros i y Hi. rewrite list_lookup_fmap, Hi.
    cbn [fmap option_fmap option_map].
    eexists. split; [reflexivity|].
    destruct (decide (_id y = o)) as [Hy|Hy].
    + rewrite bool_decide_true by done. split; [reflexivity|].
      split; [done|]. intros _. unfold is_deleted. split; [|split].
      * apply set_fields_lookup. by rewrite soft_delete_lookup.
      * exists (clock w). split; [|apply at_ms_refl].
        apply set_fields_lookup. by rewrite soft_delete_lookup.
      * intros k Hk1 Hk2. apply set_fields_frame.
        rewrite soft_delete_lookup. by rewrite !decide_False.
    + rewrite bool_decide_false by done. done.
  - by rewrite logged_log, lookup_total_insert_ne.
  - apply log_entry_audit.
  - intros c' Hc' Hlog'. rewrite coll_of_with_db, (coll_of_db _ w D Hdb).
    by rewrite logged_other, lookup_total_insert_ne.
Qed.

(** ** A store that rejects the entity write *)

Lemma update_one_down c q upd w D :
  db w = Some D → c ∈ down w →
  ∃ e, update_one c q upd w = (Raise e, w) ∧ unhandled e.
Proof.
  intros Hdb Hdn. unfold update_one.
  rewrite (bind_run _ _ _ _ _ (collection_run c w D Hdb)).
  destruct (decide (encodable upd)) as [Henc|Henc].
  - rewrite (bind_run _ _ _ _ _ (encode_run upd w Henc)).
    destruct (query_ok q) eqn:Hq.
    + rewrite (bind_run _ _ _ _ _ (parse_run q w Hq)).
      exists PyMongoError.
      by rewrite (bind_raise _ _ _ _ _ (store_down c _ w D Hdb Hdn)).
    + exists OperationFailure.
      by rewrite (bind_raise _ _ _ _ _ (parse_refused q w Hq)).
  - exists OverflowError.
    by rewrite (bind_raise _ _ _ _ _ (encode_overflow upd w Henc)).
Qed.

Lemma delete_one_down c q w D :
  db w = Some D → c ∈ down w →
  ∃ e, delete_one c q w = (Raise e, w) ∧ unhandled e.
Proof.
  intros Hdb Hdn. unfold delete_one.
  rewrite (bind_run _ _ _ _ _ (collection_run c w D Hdb)).
  destruct (query_ok q) eqn:Hq.
  - rewrite (bind_run _ _ _ _ _ (parse_run q w Hq)).
    exists PyMongoError.
    by rewrite (bind_raise _ _ _ _ _ (store_down c _ w D Hdb Hdn)).
  - exists OperationFailure.
    by rewrite (bind_raise _ _ _ _ _ (parse_refused q w Hq)).
Qed.

Lemma perform_down c a w D :
  db w = Some D → c ∈ down w →
  ∃ e, perform c a w = (Raise e, w) ∧ unhandled e.
Proof.
  intros Hdb Hdn. destruct a as [dump|id dump|id hard]; cbn [perform].
  - unfold create_entity.
    rewrite (bind_run _ _ _ _ _ (datetime_now_run w)).
    set (data := <["updated_at" := _]> _).
    destruct (decide (encodable data)) as [Henc|Henc].
    + exists PyMongoError.
      by rewrite (bind_raise _ _ _ _ _ (insert_one_down c data w D Hdb Henc Hdn)).
    + exists OverflowError.
      by rewrite (bind_raise _ _ _ _ _ (insert_one_overflow c data w D Hdb Henc)).
  - unfold update_entity.
    rewrite (bind_run _ _ _ _ _ (datetime_now_run w)).
    rewrite (bind_run _ _ _ _ _ (collection_run c w D Hdb)).
    destruct (oid_of_str id) as [o|] eqn:Hid.
    + rewrite (bind_run _ _ _ _ _ (ObjectId_run id o w Hid)).
      destruct (update_one_down c (by_id o)
                  (<["updated_at" := VDate (clock w)]> dump) w D Hdb Hdn)
        as (e & Hrun & He).
      exists e. by rewrite (bind_raise _ _ _ _ _ Hrun).
    + exists InvalidId.
      by rewrite (bind_raise _ _ _ _ _ (ObjectId_invalid id w Hid)).
  - unfold delete_entity.
    rewrite (bind_run _ _ _ _ _ (datetime_now_run w)).
    destruct hard.
    + assert (∃ e, (collection c ;; o ← ObjectId id; delete_one c (by_id o)) w
                   = (Raise e, w) ∧ unhandled e) as (e & Hstep & He).
      { rewrite (bind_run _ _ _ _ _ (collection_run c w D Hdb)).
        destruct (oid_of_str id) as [o|] eqn:Hid.
        - rewrite (bind_run _ _ _ _ _ (ObjectId_run id o w Hid)).
          exact (delete_one_down c (by_id o) w D Hdb Hdn).
        - exists InvalidId.
          by rewrite (bind_raise _ _ _ _ _ (ObjectId_invalid id w Hid)). }
      exists e. by rewrite (bind_raise _ _ _ _ _ Hstep).
    + assert (∃ e, (collection c ;; o ← ObjectId id;
                    update_one c (by_id o)
                      (list_to_map [("deleted", VBool true);
                                    ("updated_at", VDate (clock w))])) w
                   = (Raise e, w) ∧ unhandled e) as (e & Hstep & He).
      { rewrite (bind_run _ _ _ _ _ (collection_run c w D Hdb)).
        destruct (oid_of_str id) as [o|] eqn:Hid.
        - rewrite (bind_run _ _ _ _ _ (ObjectId_run id o w Hid)).
          exact (update_one_down c (by_id o) _ w D Hdb Hdn).
        - exists InvalidId.
          by rewrite (bind_raise _ _ _ _ _ (ObjectId_invalid id w Hid)). }
      exists e. by rewrite (bind_raise _ _ _ _ _ Hstep).
Qed.

(** X16. While the store rejects writes to the collection of its entity,
    a mutation fails before anything is written: it leaves the whole state
    as it was, appends no activity-log entry, and answers with a 500 (an
    exception of the driver escapes), except a project creation on a slug
    that is taken, which still answers 400. *)
Theorem failed_write_changes_nothing m w D :
  db w = Some D → entity_of m ∈ down w →
  ∃ e, run_mutation m w = (Raise e, w)
       ∧ (unhandled e ∨ e = HTTPException 400 "Slug already exists").
Proof.
  intros Hdb Hdn.
  assert (∃ e, perform (entity_of m) (action_of m) w = (Raise e, w)
               ∧ unhandled e) as (e & Hrun & He)
    by exact (perform_down _ _ w D Hdb Hdn).
  destruct m; cbn [run_mutation];
    cbn [perform action_of entity_of] in Hrun;
    try (exists e; split; [exact Hrun | by left]).
  - rewrite (create_project_unfold payload w D Hdb).
    destruct (head _).
    + eexists. split; [reflexivity | by right].
    + exists e. split; [exact Hrun | by left].
  - rewrite (update_project_unfold id payload w D Hdb).
    exists e. split; [exact Hrun | by left].
  - rewrite (delete_project_unfold id hard w D Hdb).
    exists e. split; [exact Hrun | by left].
Qed.

(** ** What every endpoint keeps *)

#[local] Instance evolves_refl : Reflexive evolves.
Proof. intros w. by split. Qed.

#[local] Instance evolves_trans : Transitive evolves.
Proof.
  intros w1 w2 w3 (Hi1 & Hl1 & Hd1) (Hi2 & Hl2 & Hd2). split; [|split].
  - intros c Hc. by apply Hi2, Hi1.
  - by transitivity (coll_of "activitylog" w2).
  - by rewrite Hd2.
Qed.

Lemma steps_bind {A B} (R : relation World) `{!Transitive R}
    (m : M A) (k : A → M B) :
  steps R m → (∀ a, steps R (k a)) → steps R (m ≫= k).
Proof.
  intros Hm Hk w. unfold mbind, M_bind, bind. specialize (Hm w).
  destruct (m w) as [[a|e] w1]; cbn [snd] in *; [|done].
  transitivity w1; [done|apply Hk].
Qed.

Lemma steps_pure {A} (R : relation World) `{!Reflexive R} (m : M A) :
  (∀ w, (m w).2 = w) → steps R m.
Proof. intros Hm w. by rewrite Hm. Qed.

Lemma steps_ret {A} (R : relation World) `{!Reflexive R} (a : A) :
  steps R (mret a).
Proof. by apply steps_pure. Qed.

Lemma steps_raise {A} (R : relation World) `{!Reflexive R} e :
  steps R (raise e : M A).
Proof. by apply steps_pure. Qed.

Lemma collection_pure c w : (collection c w).2 = w.
Proof. unfold collection. by destruct (db w). Qed.

Lemma encode_pure d w : (encode d w).2 = w.
Proof. unfold encode. by destruct (decide _). Qed.

Lemma parse_pure q w : (parse q w).2 = w.
Proof. unfold parse. by destruct (query_ok q). Qed.

Lemma ObjectId_pure id w : (ObjectId id w).2 = w.
Proof. unfold ObjectId. by destruct (oid_of_str id). Qed.

Lemma require_db_pure w : (require_db w).2 = w.
Proof. unfold require_db. by destruct (db w). Qed.

Lemma cursor_skip_pure n w : (cursor_skip n w).2 = w.
Proof. unfold cursor_skip. by destruct (n <? 0)%Z. Qed.

Lemma cursor_iter_pure skip limit cur w : (cursor_iter skip limit cur w).2 = w.
Proof. unfold cursor_iter. by destruct (_ && _). Qed.

(** A write of [l'] over the collection [c] evolves the state when it
    keeps the ids unique and, on the activity log, extends it. *)
Lemma evolves_write c l' w D :
  db w = Some D →
  (NoDup (_id <$> D !!! c) → NoDup (_id <$> l')) →
  (c = "activitylog" → D !!! c `prefix_of` l') →
  evolves w (store c l' w).2.
Proof.
  intros Hdb Hids Hlog. unfold store. rewrite Hdb.
  destruct (decide (c ∈ down w)); [reflexivity|]. cbn [snd].
  split; [|split; [|done]].
  - intros c'. rewrite coll_of_with_db, (coll_of_db _ w D Hdb).
    destruct (decide (c' = c)) as [->|Hne].
    + by rewrite lookup_total_insert_eq.
    + by rewrite lookup_total_insert_ne.
  - rewrite coll_of_with_db, (coll_of_db _ w D Hdb).
    destruct (decide (c = "activitylog")) as [->|Hne].
    + rewrite lookup_total_insert_eq. by apply Hlog.
    + by rewrite lookup_total_insert_ne.
Qed.

Lemma ids_update_first p upd l :
  _id <$> update_first p (set_fields upd) l = _id <$> l.
Proof.
  induction l as [|x l IH]; [done|]. cbn [update_first].
  destruct (p x); cbn [fmap list_fmap]; [done|]. f_equal. exact IH.
Qed.

Lemma ids_delete_first p l :
  _id <$> delete_first p l `sublist_of` _id <$> l.
Proof.
  induction l as [|x l IH]; [done|]. cbn [delete_first].
  destruct (p x); cbn [fmap list_fmap].
  - by apply sublist_cons.
  - by apply sublist_skip.
Qed.

Lemma insert_one_evolves c data : steps evolves (insert_one c data).
Proof.
  intros w. unfold insert_one.
  destruct (db w) as [D|] eqn:Hdb.
  - rewrite (bind_run _ _ _ _ _ (collection_run c w D Hdb)).
    destruct (decide (encodable data)) as [Henc|Henc].
    + rewrite (bind_run _ _ _ _ _ (encode_run data w Henc)).
      pose proof (evolves_write c (D !!! c ++ [Doc (new_oid (D !!! c)) data])
                    w D Hdb) as Hw.
      unfold mbind, M_bind, bind.
      destruct (store c _ w) as [[[]|e] w1]; cbn [snd] in *; apply Hw.
      * intros Hnd. rewrite fmap_app. apply NoDup_app. split; [done|].
        split; [|apply NoDup_singleton].
        intros o Ho ->%list_elem_of_singleton. by apply new_oid_fresh in Ho.
      * intros _. by apply prefix_app_r.
      * intros Hnd. rewrite fmap_app. apply NoDup_app. split; [done|].
        split; [|apply NoDup_singleton].
        intros o Ho ->%list_elem_of_singleton. by apply new_oid_fresh in Ho.
      * intros _. by apply prefix_app_r.
    + by rewrite (bind_raise _ _ _ _ _ (encode_overflow data w Henc)).
  - by rewrite (bind_raise _ _ _ _ _ (collection_none c w Hdb)).
Qed.

Lemma write_steps {A} c (l' : list doc → list doc) (a : list doc → A) :
  c ≠ "activitylog" →
  (∀ l, NoDup (_id <$> l) → NoDup (_id <$> l' l)) →
  ∀ w D, db w = Some D →
    evolves w ((store c (l' (D !!! c)) ;; mret (a (D !!! c))) w).2.
Proof.
  intros Hc Hids w D Hdb.
  pose proof (evolves_write c (l' (D !!! c)) w D Hdb (Hids _)
                ltac:(intros ?; done)) as Hw.
  unfold mbind, M_bind, bind.
  by destruct (store c _ w) as [[[]|e] w1].
Qed.

Lemma update_one_evolves c q upd :
  c ≠ "activitylog" → steps evolves (update_one c q upd).
Proof.
  intros Hc w. unfold update_one.
  destruct (db w) as [D|] eqn:Hdb.
  - rewrite (bind_run _ _ _ _ _ (collection_run c w D Hdb)).
    destruct (decide (encodable upd)) as [Henc|Henc];
      [|by rewrite (bind_raise _ _ _ _ _ (encode_overflow upd w Henc))].
    rewrite (bind_run _ _ _ _ _ (encode_run upd w Henc)).
    destruct (query_ok q) eqn:Hq;
      [|by rewrite (bind_raise _ _ _ _ _ (parse_refused q w Hq))].
    rewrite (bind_run _ _ _ _ _ (parse_run q w Hq)).
    apply (write_steps c (update_first (matches q) (set_fields upd))
             (λ l, if existsb (matches q) l then 1 else 0)%nat Hc); [|done].
    intros l Hl. by rewrite ids_update_first.
  - by rewrite (bind_raise _ _ _ _ _ (collection_none c w Hdb)).
Qed.

Lemma update_many_evolves c q upd :
  c ≠ "activitylog" → steps evolves (update_many c q upd).
Proof.
  intros Hc w. unfold update_many.
  destruct (db w) as [D|] eqn:Hdb.
  - rewrite (bind_run _ _ _ _ _ (collection_run c w D Hdb)).
    destruct (decide (encodable upd)) as [Henc|Henc];
      [|by rewrite (bind_raise _ _ _ _ _ (encode_overflow upd w Henc))].
    rewrite (bind_run _ _ _ _ _ (encode_run upd w Henc)).
    destruct (query_ok q) eqn:Hq;
      [|by rewrite (bind_raise _ _ _ _ _ (parse_refused q w Hq))].
    rewrite (bind_run _ _ _ _ _ (parse_run q w Hq)).
    apply (write_steps c
             (fmap (λ x, if matches q x then set_fields upd x else x))
             (λ l, length (filter (λ x, matches q x = true) l)) Hc); [|done].
    intros l Hl. rewrite <- list_fmap_compose.
    erewrite list_fmap_ext; [exact Hl|].
    intros i x _. cbn. by destruct (matches q x).
  - by rewrite (bind_raise _ _ _ _ _ (collection_none c w Hdb)).
Qed.

Lemma delete_one_evolves c q :
  c ≠ "activitylog" → steps evolves (delete_one c q).
Proof.
  intros Hc w. unfold delete_one.
  destruct (db w) as [D|] eqn:Hdb.
  - rewrite (bind_run _ _ _ _ _ (collection_run c w D Hdb)).
    destruct (query_ok q) eqn:Hq;
      [|by rewrite (bind_raise _ _ _ _ _ (parse_refused q w Hq))].
    rewrite (bind_run _ _ _ _ _ (parse_run q w Hq)).
    apply (write_steps c (delete_first (matches q))
             (λ l, if existsb (matches q) l then 1 else 0)%nat Hc); [|done].
    intros l Hl. eapply sublist_NoDup; [exact Hl|apply ids_delete_first].
  - by rewrite (bind_raise _ _ _ _ _ (collection_none c w Hdb)).
Qed.

Lemma set_rate_cache_evolves ip entry : steps evolves (set_rate_cache ip entry).
Proof. intros w. by split. Qed.

Ltac steps_go :=
  cbv zeta;
  repeat lazymatch goal with
    | |- steps _ (mbind _ _) => apply (steps_bind _); [|intros ?]
    | |- steps _ (mret _) => apply (steps_ret _)
    | |- steps _ (raise _) => apply (steps_raise _)
    | |- steps _ (insert_one _ _) => apply insert_one_evolves
    | |- steps _ (update_one _ _ _) => apply update_one_evolves; done
    | |- steps _ (update_many _ _ _) => apply update_many_evolves; done
    | |- steps _ (delete_one _ _) => apply delete_one_evolves; done
    | |- steps _ (set_rate_cache _ _) => apply set_rate_cache_evolves
    | |- steps _ (collection _) =>
        apply (steps_pure _); intros ?; apply collection_pure
    | |- steps _ (encode _) => apply (steps_pure _); intros ?; apply encode_pure
    | |- steps _ (parse _) => apply (steps_pure _); intros ?; apply parse_pure
    | |- steps _ (ObjectId _) =>
        apply (steps_pure _); intros ?; apply ObjectId_pure
    | |- steps _ require_db =>
        apply (steps_pure _); intros ?; apply require_db_pure
    | |- steps _ (cursor_skip _) =>
        apply (steps_pure _); intros ?; apply cursor_skip_pure
    | |- steps _ (cursor_iter _ _ _) =>
        apply (steps_pure _); intros ?; apply cursor_iter_pure
    | |- steps _ datetime_now => apply (steps_pure _); intros ?; reflexivity
    | |- steps _ (get_rate_cache _) =>
        apply (steps_pure _); intros ?; reflexivity
    | |- steps _ db_is_None => apply (steps_pure _); intros ?; reflexivity
    | |- steps _ (if ?b then _ else _) => destruct b
    | |- steps _ (match ?x with _ => _ end) => destruct x
    end.

Lemma find_steps c q : steps evolves (find c q).
Proof. unfold find. steps_go. Qed.

Lemma find_one_steps c q : steps evolves (find_one c q).
Proof. unfold find_one. steps_go. Qed.

Lemma count_documents_steps c q : steps evolves (count_documents c q).
Proof. unfold count_documents. steps_go. Qed.

Lemma create_entity_steps c dump : steps evolves (create_entity c dump).
Proof. unfold create_entity. steps_go. Qed.

Lemma update_entity_steps c id dump :
  c ≠ "activitylog" → steps evolves (update_entity c id dump).
Proof. intros Hc. unfold update_entity. steps_go. Qed.

Lemma delete_entity_steps c id hard :
  c ≠ "activitylog" → steps evolves (delete_entity c id hard).
Proof. intros Hc. unfold delete_entity. steps_go. Qed.

Lemma object_ids_steps ids : steps evolves (object_ids ids).
Proof.
  induction ids as [|x ids IH]; cbn [object_ids]; [steps_go|].
  apply (steps_bind _); [steps_go|]. intros o.
  apply (steps_bind _); [exact IH|]. intros os. steps_go.
Qed.

Lemma reorder_from_steps ids : ∀ idx, steps evolves (reorder_from idx ids).
Proof.
  induction ids as [|x ids IH]; intros idx; cbn [reorder_from]; [steps_go|].
  apply (steps_bind _); [steps_go|]. intros _.
  apply (steps_bind _); [steps_go|]. intros o.
  apply (steps_bind _); [by apply update_one_evolves|]. intros _. apply IH.
Qed.

Lemma handler_evolves e : steps evolves (handler e).
Proof.
  destruct e as [published tag search page limit|slug|category search|
                 |tag search|m|ids published|ordered_ids|form client];
    cbn [handler].
  - unfold list_projects, find, count_documents. steps_go.
  - unfold get_project, find_one. steps_go.
  - unfold list_skills, find. steps_go.
  - unfold list_testimonials, find. steps_go.
  - unfold list_certificates, find. steps_go.
  - destruct m; cbn [run_mutation].
    + unfold create_project, find_one. steps_go.
    + unfold update_project. apply (steps_bind _); [steps_go|]. intros _.
      exact (update_entity_steps "project" _ _ ltac:(done)).
    + unfold delete_project. apply (steps_bind _); [steps_go|]. intros _.
      exact (delete_entity_steps "project" _ _ ltac:(done)).
    + exact (create_entity_steps "skill" _).
    + exact (update_entity_steps "skill" _ _ ltac:(done)).
    + exact (delete_entity_steps "skill" _ _ ltac:(done)).
    + exact (create_entity_steps "testimonial" _).
    + exact (update_entity_steps "testimonial" _ _ ltac:(done)).
    + exact (delete_entity_steps "testimonial" _ _ ltac:(done)).
    + exact (create_entity_steps "certificate" _).
    + exact (update_entity_steps "certificate" _ _ ltac:(done)).
    + exact (delete_entity_steps "certificate" _ _ ltac:(done)).
  - unfold bulk_publish_projects.
    apply (steps_bind _); [steps_go|]. intros now.
    apply (steps_bind _); [apply object_ids_steps|]. intros oids. steps_go.
  - unfold reorder_projects. apply (steps_bind _); [apply reorder_from_steps|].
    intros _. steps_go.
  - unfold contact. steps_go.
Qed.

(** X17. Unique ids are an invariant of the API: if no two documents of a
    collection share their [_id] before a call of an endpoint, none do
    after it, whatever the endpoint, its parameters, the faults of the
    store and the outcome of the call. *)
Theorem ids_stay_unique e w :
  ids_unique w → ids_unique (handler e w).2.
Proof.
  intros Hw c. destruct (handler_evolves e w) as (Hids & _). by apply Hids.
Qed.

(** X18. The activity log is append-only: after a call of any endpoint,
    whatever its outcome, the log holds the entries it held before, in
    their order and unchanged, followed by those the call appended. *)
Theorem activity_log_append_only e w :
  coll_of "activitylog" w `prefix_of` coll_of "activitylog" (handler e w).2.
Proof. by destruct (handler_evolves e w) as (_ & Hlog & _). Qed.

End Store.

(** * Concrete runs *)

Ltac by_evaluation := refine (bool_decide_unpack _ _); vm_compute; exact I.

Ltac soft_deleted_target :=
  split; [by_evaluation|]; split; [by_evaluation|]; split; [by_evaluation|];
  split; reflexivity.

(** The soft-deleted project a is in no public read of [world0], and the
    lookup of its slug answers 404. *)
Lemma soft_deleted_never_read_witness :
  is_deleted project_a
  ∧ (∀ published tag search page limit r w',
       list_projects literal_compile epoch_seconds published tag search page limit
         world0 = (Ok r, w') →
       to_dict epoch_seconds project_a ∉ response_items r)
  ∧ get_project literal_compile epoch_seconds "alpha" world0
    = (Raise (HTTPException 404 "Not found"), world0).
Proof.
  pose proof (soft_deleted_never_read literal_compile epoch_seconds
                world0 store0 project_a eq_refl eq_refl)
    as (Hlist & _ & _ & _ & _ & Hslug).
  split; [reflexivity|]. split; [exact Hlist|].
  apply Hslug. intros y Hy Hs.
  change (y ∈ [project_a; project_b; project_c]) in Hy.
  rewrite !elem_of_cons in Hy.
  destruct Hy as [->|[->|[->|Hy]]].
  - reflexivity.
  - vm_compute in Hs. discriminate Hs.
  - vm_compute in Hs. discriminate Hs.
  - by apply elem_of_nil in Hy.
Defined.

(** Creating a project with the slug of the soft-deleted project a. *)
Lemma create_project_conflict_witness :
  create_project literal_compile (sample_payload "alpha") world0
  = (Raise (HTTPException 400 "Slug already exists"), world0)
  ∧ is_client_error
      (status_of (create_project literal_compile (sample_payload "alpha") world0).1)
    = true.
Proof.
  apply (create_project_conflict literal_compile (sample_payload "alpha")
           world0 store0 project_a).
  - reflexivity.
  - by_evaluation.
  - reflexivity.
Defined.

(** C3, as stated, fails: with the activity log rejecting writes, creating
    a project that a healthy store accepts is answered with a 500, not with
    success, although the project has been inserted. *)
Lemma log_failure_not_swallowed :
  is_ok (create_project literal_compile (sample_payload "delta") world0).1 = true
  ∧ (create_project literal_compile (sample_payload "delta") world_log_down).1
    = Raise PyMongoError
  ∧ status_of
      (create_project literal_compile (sample_payload "delta") world_log_down).1
    = 500%Z
  ∧ length (coll_of "project"
              (create_project literal_compile (sample_payload "delta")
                 world_log_down).2) = 4%nat.
Proof. vm_compute. repeat split; reflexivity. Qed.

Lemma log_failure_fails_mutation_witness :
  ∃ w',
    run_mutation literal_compile (CreateProject (sample_payload "delta"))
      world_log_down = (Raise PyMongoError, w')
    ∧ status_of
        (run_mutation literal_compile (CreateProject (sample_payload "delta"))
           world_log_down).1 = 500%Z
    ∧ coll_of "project" w'
      = coll_of "project"
          (run_mutation literal_compile (CreateProject (sample_payload "delta"))
             world0).2
    ∧ coll_of "activitylog" w' = coll_of "activitylog" world_log_down.
Proof.
  apply (log_failure_fails_mutation literal_compile
           (CreateProject (sample_payload "delta")) world_log_down world0 store0
           (Created "00000000000000000000000d")).
  - reflexivity.
  - reflexivity.
  - reflexivity.
  - reflexivity.
  - reflexivity.
  - vm_compute. reflexivity.
Defined.

(** C4, as stated, fails: a malformed id makes the update handler answer
    500, a server error. *)
Lemma malformed_id_not_client_error :
  (update_project literal_compile "not-an-id" (sample_payload "delta") world0).1
  = Raise InvalidId
  ∧ is_client_error
      (status_of
         (update_project literal_compile "not-an-id" (sample_payload "delta")
            world0).1) = false.
Proof. vm_compute. split; reflexivity. Qed.

Lemma malformed_id_server_error_witness :
  status_of
    (update_project literal_compile "not-an-id" (sample_payload "delta") world0).1
  = 500%Z
  ∧ status_of
      (reorder_projects literal_compile [id_b; "not-an-id"; id_c] world0).1
    = 500%Z.
Proof.
  pose proof (malformed_id_server_error literal_compile "not-an-id" world0 eq_refl)
    as (Hupdate & _ & _ & _ & _ & _ & _ & _ & _ & Hreorder & _).
  split; [apply Hupdate|]. apply Hreorder. by_evaluation.
Defined.

(** C5, as stated, fails: [limit = 0] is not rejected; the call succeeds
    and returns every matching project. *)
Lemma limit_zero_not_rejected :
  ∃ items,
    (list_projects literal_compile epoch_seconds None None None 1 0 world0).1
    = Ok (Page items 2 1 0)
    ∧ length items = 2%nat.
Proof. eexists. vm_compute. split; reflexivity. Qed.

(** A page number below 1 with a positive limit is a 500. *)
Example page_zero_server_error :
  (list_projects literal_compile epoch_seconds None None None 0 5 world0).1
  = Raise ValueError.
Proof. vm_compute. reflexivity. Qed.

(** A search pattern the store does not compile, and a page beyond the
    integers the driver can send, both end in a 500. *)
Example search_pattern_refused :
  (list_projects literal_compile epoch_seconds None None (Some "(") 1 20
     world0).1 = Raise OperationFailure.
Proof. vm_compute. reflexivity. Qed.

Example page_overflow :
  (list_projects literal_compile epoch_seconds None None None (2 ^ 63) 20
     world0).1 = Raise OverflowError.
Proof. vm_compute. reflexivity. Qed.

Lemma list_projects_pagination_witness :
  ∃ items,
    list_projects literal_compile epoch_seconds None None None 2 1 world0
    = (Ok (Page items 2 2 1), world0)
    ∧ length items = 1%nat.
Proof.
  pose proof (list_projects_pagination literal_compile epoch_seconds
                None None None 2 1 world0 store0 eq_refl eq_refl)
    as (_ & _ & Hok).
  destruct Hok as (items & Hrun & _ & Hpage); [done..|].
  exists items. split; [exact Hrun|].
  destruct Hpage as [_ Hlen]; [done..|]. exact Hlen.
Defined.

(** Reordering the three projects as b, a, c, with an id that matches no
    project in between. *)
Lemma reorder_sets_positions_witness :
  ∃ w',
    reorder_projects literal_compile [id_b; id_a; id_absent; id_c] world0
    = (Ok OkTrue, w')
    ∧ length (coll_of "project" w') = 3%nat.
Proof.
  destruct (reorder_sets_positions literal_compile
              [id_b; id_a; id_absent; id_c] [11; 10; 9; 12]%N world0 store0)
    as (w' & Hrun & _ & Hlen & _).
  - reflexivity.
  - by_evaluation.
  - by_evaluation.
  - repeat constructor.
  - by_evaluation.
  - exists w'. split; [exact Hrun | exact Hlen].
Defined.

(** On a collection holding exactly the ids a, b and c, [reorder([b, a, c])]
    yields orderIndex b = 0, a = 1, c = 2. *)
Example reorder_b_a_c :
  let w' := (reorder_projects literal_compile [id_b; id_a; id_c] world0).2 in
  (λ x, (str_oid (_id x), fields x !! "orderIndex")) <$> coll_of "project" w'
  = [(id_a, Some (VInt 1)); (id_b, Some (VInt 0)); (id_c, Some (VInt 2))].
Proof. vm_compute. reflexivity. Qed.

(** Publishing c and an id that matches no project. *)
Lemma bulk_publish_frame_witness :
  ∃ w',
    bulk_publish_projects literal_compile [id_c; id_absent] true world0
    = (Ok OkTrue, w')
    ∧ length (coll_of "project" w') = 3%nat.
Proof.
  destruct (bulk_publish_frame literal_compile [id_c; id_absent] [12; 9]%N
              true world0 store0)
    as (w' & Hrun & _ & Hlen & _).
  - reflexivity.
  - by_evaluation.
  - repeat constructor.
  - exists w'. split; [exact Hrun | exact Hlen].
Defined.

Example bulk_publish_c :
  let w' := (bulk_publish_projects literal_compile [id_c; id_absent] true
               world0).2 in
  coll_of "project" w'
  = [project_a; project_b;
     set_fields (list_to_map [("published", VBool true);
                              ("updated_at", VDate 1000)]) project_c].
Proof. vm_compute. reflexivity. Qed.

(** Three submissions within 60 seconds are let pass and accepted, so the
    fourth is refused. *)
Lemma rate_limit_counts_attempts_witness :
  (serve (submission 30)
     (serve_all [submission 0; submission 10; submission 20] world0).2).1
  = Raise (HTTPException 429 "Too many requests").
Proof.
  apply (rate_limit_counts_attempts [submission 0; submission 10; submission 20]
           (submission 30) world0).
  - reflexivity.
  - repeat constructor; by vm_compute.
  - vm_compute. lia.
Defined.

(** While the store rejects the log write, three submissions are answered
    with a 500, none is accepted, and the fourth is refused with 429. *)
Lemma failed_submissions_are_counted :
  (serve_all [submission 0; submission 10; submission 20; submission 30]
     world_log_down).1
  = [Raise PyMongoError; Raise PyMongoError; Raise PyMongoError;
     Raise (HTTPException 429 "Too many requests")]
  ∧ accepted "10.0.0.1"
      [submission 0; submission 10; submission 20]
      (serve_all [submission 0; submission 10; submission 20]
         world_log_down).1
    = [].
Proof. split; vm_compute; reflexivity. Qed.

(** Three accepted, the fourth within the window refused; once the first
    is 60 seconds old a submission passes again, the next is refused while
    the second still counts, and passes when that one has aged out too. *)
Example rate_limit_timeline :
  fst (serve_all [submission 0; submission 10; submission 20; submission 30;
                  submission 60; submission 69.5; submission 70] world0)
  = [Ok OkTrue; Ok OkTrue; Ok OkTrue;
     Raise (HTTPException 429 "Too many requests");
     Ok OkTrue;
     Raise (HTTPException 429 "Too many requests");
     Ok OkTrue].
Proof. vm_compute. reflexivity. Qed.

(** Full updates, with [deleted = False], of the soft-deleted project,
    skill, testimonial and certificate of id a. *)
Lemma update_resurrects_witness :
  (∃ w',
     update_project literal_compile id_a (sample_payload "alpha") world_entities
     = (Ok OkTrue, w')
     ∧ ∃ y, get_project literal_compile epoch_seconds "alpha" w'
            = (Ok (Item (to_dict epoch_seconds y)), w'))
  ∧ (∃ w' items,
       update_skill literal_compile id_a sample_skill world_entities
       = (Ok OkTrue, w')
       ∧ list_skills literal_compile epoch_seconds None None w'
         = (Ok (Items items), w')
       ∧ to_dict epoch_seconds
           (updated (Skill.model_dump sample_skill) 1000 skill_a) ∈ items)
  ∧ (∃ w' items,
       update_testimonial literal_compile id_a sample_testimonial world_entities
       = (Ok OkTrue, w')
       ∧ list_testimonials literal_compile epoch_seconds w'
         = (Ok (Items items), w')
       ∧ to_dict epoch_seconds
           (updated (Testimonial.model_dump sample_testimonial) 1000
              testimonial_a) ∈ items)
  ∧ (∃ w' items,
       update_certificate literal_compile id_a sample_certificate world_entities
       = (Ok OkTrue, w')
       ∧ list_certificates literal_compile epoch_seconds None None w'
         = (Ok (Items items), w')
       ∧ to_dict epoch_seconds
           (updated (Certificate.model_dump sample_certificate) 1000
              certificate_a) ∈ items).
Proof.
  destruct (update_resurrects literal_compile epoch_seconds id_a 10%N
              world_entities store_entities eq_refl)
    as (Hproject & Hskill & Htestimonial & Hcertificate).
  - by_evaluation.
  - reflexivity.
  - split; [|split; [|split]].
    + destruct (Hproject (sample_payload "alpha") project_a)
        as (w' & Hrun & _ & _ & _ & Hlive).
      * soft_deleted_target.
      * reflexivity.
      * exists w'. split; [exact Hrun|].
        destruct Hlive as (_ & _ & Hslug); [reflexivity|exact Hslug].
    + destruct (Hskill sample_skill skill_a)
        as (w' & Hrun & _ & _ & _ & Hlive).
      * soft_deleted_target.
      * reflexivity.
      * reflexivity.
      * destruct Hlive as (_ & items & Hlist & Hin); [reflexivity..|].
        exists w', items. split; [exact Hrun|]. split; [exact Hlist|exact Hin].
    + destruct (Htestimonial sample_testimonial testimonial_a)
        as (w' & Hrun & _ & _ & _ & Hlive).
      * soft_deleted_target.
      * reflexivity.
      * destruct Hlive as (_ & items & Hlist & Hin); [reflexivity..|].
        exists w', items. split; [exact Hrun|]. split; [exact Hlist|exact Hin].
    + destruct (Hcertificate sample_certificate certificate_a)
        as (w' & Hrun & _ & _ & _ & Hlive).
      * soft_deleted_target.
      * destruct Hlive as (_ & items & Hlist & Hin); [reflexivity..|].
        exists w', items. split; [exact Hrun|]. split; [exact Hlist|exact Hin].
Defined.

Example lookup_before_and_after_update :
  (get_project literal_compile epoch_seconds "alpha" world0).1
  = Raise (HTTPException 404 "Not found")
  ∧ is_ok (get_project literal_compile epoch_seconds "alpha"
             (update_project literal_compile id_a (sample_payload "alpha")
                world0).2).1 = true.
Proof. vm_compute. split; reflexivity. Qed.

(** Deleting an id that matches no project. *)
Lemma delete_absent_id_logged_witness :
  ∃ w' e,
    delete_project literal_compile id_absent false world0 = (Ok OkTrue, w')
    ∧ coll_of "project" w' = coll_of "project" world0
    ∧ coll_of "activitylog" w' = coll_of "activitylog" world0 ++ [e]
    ∧ audit "delete" "project" id_absent 1000 e.
Proof.
  pose proof (delete_absent_id_logged literal_compile id_absent 9%N false
                world0 store0 eq_refl) as Hthm.
  destruct Hthm as [Hproject _].
  - by_evaluation.
  - reflexivity.
  - apply Hproject; by_evaluation.
Defined.

(** The project list over 25 published projects: with [limit = 10], page 1
    holds 10 of them and page 3 the last 5, and [total] is 25 on both. *)
Example pagination_25 :
  (∃ items,
     (list_projects literal_compile epoch_seconds (Some true) None None 1 10
        world25).1 = Ok (Page items 25 1 10) ∧ length items = 10%nat)
  ∧ (∃ items,
       (list_projects literal_compile epoch_seconds (Some true) None None 3 10
          world25).1 = Ok (Page items 25 3 10) ∧ length items = 5%nat).
Proof. split; eexists; vm_compute; split; reflexivity. Qed.

(** * Concrete runs of the further properties *)

(** Without a store: a guarded read, an unguarded mutation and a contact. *)
Lemma no_store_configured_witness :
  list_testimonials literal_compile epoch_seconds world_no_db
  = (Raise (HTTPException 500 "Database not configured"), world_no_db)
  ∧ create_skill sample_skill world_no_db
    = (Raise TypeError, world_no_db)
  ∧ (contact
       {| ContactForm.name := "Ann"; ContactForm.email := "ann@example.com";
          ContactForm.message := "hello" |} None world_no_db).1
    = Ok OkTrue.
Proof.
  destruct (no_store_configured literal_compile epoch_seconds world_no_db
              eq_refl)
    as (_ & _ & _ & Htestimonials & _ & _ & Hunguarded & _).
  split; [exact Htestimonials|]. split.
  - exact (Hunguarded (CreateSkill sample_skill) ltac:(discriminate)).
  - vm_compute. reflexivity.
Defined.

(** The live project b is found under its slug. *)
Lemma get_project_finds_live_witness :
  get_project literal_compile epoch_seconds "beta" world0
  = (Ok (Item (to_dict epoch_seconds project_b)), world0).
Proof.
  destruct (get_project_finds_live literal_compile epoch_seconds "beta" world0
              store0 eq_refl) as [_ Hfound].
  destruct (Hfound project_b) as [_ Hone].
  - by_evaluation.
  - reflexivity.
  - by_evaluation.
  - apply Hone. intros y Hy Hslug _. revert Hslug.
    apply list_elem_of_lookup in Hy as [i Hi].
    destruct i as [|[|[|i]]]; cbn in Hi; try discriminate Hi;
      injection Hi as <-; [|done|]; intros Hslug; vm_compute in Hslug;
      discriminate Hslug.
Defined.

(** Project c of [world0] is a draft. *)
Lemma unpublished_never_listed_witness :
  ∃ items total,
    list_projects literal_compile epoch_seconds (Some true) None None 1 20
      world0 = (Ok (Page items total 1 20), world0)
    ∧ to_dict epoch_seconds project_c ∉ items.
Proof.
  destruct (unpublished_never_listed literal_compile epoch_seconds world0
              store0 project_c eq_refl) as (_ & _ & _ & Hprojects).
  - by_evaluation.
  - eexists _, _. split; [vm_compute; reflexivity|].
    refine (Hprojects None None 1%Z 20%Z (Page _ _ 1 20) world0 _).
    vm_compute. reflexivity.
Defined.

(** The tag filter on [world0], with no limit. *)
Lemma list_projects_selects_witness :
  ∃ items total,
    list_projects literal_compile epoch_seconds None (Some "design") None 1 0
      world0 = (Ok (Page items total 1 0), world0)
    ∧ to_dict epoch_seconds project_b ∈ items.
Proof.
  eexists _, _. split; [vm_compute; reflexivity|].
  edestruct (list_projects_selects literal_compile epoch_seconds None
               (Some "design") None 1 0 world0 store0) as [_ Hall].
  - reflexivity.
  - vm_compute. reflexivity.
  - apply (Hall eq_refl project_b); [by_evaluation|].
    split; [intros H; vm_compute in H; discriminate H|].
    split; [intros b Hb; discriminate Hb|].
    split; [|intros s Hs; discriminate Hs].
    intros t [= <-] _. right. exists ["design"; "3d"].
    split; [reflexivity | by_evaluation].
Defined.

(** The live testimonial of [world_live] is listed. *)
Lemma lists_select_witness :
  ∃ items,
    list_testimonials literal_compile epoch_seconds world_live
    = (Ok (Items items), world_live)
    ∧ to_dict epoch_seconds testimonial_b ∈ items.
Proof.
  destruct (lists_select literal_compile epoch_seconds world_live store_live
              eq_refl) as (_ & Htestimonials & _).
  eexists. split; [vm_compute; reflexivity|].
  refine (proj2 (Htestimonials (Items _) world_live _ _) _);
    [vm_compute; reflexivity|].
  exists testimonial_b. split; [by_evaluation|]. split; [reflexivity|].
  split; [intros H; vm_compute in H; discriminate H | reflexivity].
Defined.

(** The skill list of [world_live]. *)
Lemma lists_are_sorted_witness :
  ∃ docs r,
    list_skills literal_compile epoch_seconds None None world_live
    = (Ok r, world_live)
    ∧ docs ≡ₚ filter (λ x, matches literal_compile (skills_query None None) x
                           = true) (store_live !!! "skill")
    ∧ StronglySorted (sort_le [("orderIndex", 1%Z)]) docs
    ∧ response_items r = to_dict epoch_seconds <$> docs.
Proof.
  destruct (lists_are_sorted literal_compile epoch_seconds world_live
              store_live eq_refl) as (_ & Hskills & _).
  edestruct (Hskills None None) as (docs & Hperm & Hsorted & Hitems);
    [vm_compute; reflexivity|].
  eexists docs, _.
  split; [|split; [exact Hperm | split; [exact Hsorted | exact Hitems]]].
  vm_compute. reflexivity.
Defined.

Lemma skills_in_order_witness :
  ∃ docs r,
    list_skills literal_compile epoch_seconds None None world_live
    = (Ok r, world_live)
    ∧ response_items r = to_dict epoch_seconds <$> docs
    ∧ (Forall (λ x, is_Some (order_index x)) docs →
       ∀ i j x y n m,
         i < j → docs !! i = Some x → docs !! j = Some y →
         order_index x = Some n → order_index y = Some m → (n ≤ m)%Z).
Proof.
  destruct (skills_in_order literal_compile epoch_seconds world_live
              store_live eq_refl) as (Hskills & _).
  edestruct (Hskills None None) as (docs & Hitems & Horder);
    [vm_compute; reflexivity|].
  eexists docs, _. split; [|split; [exact Hitems | exact Horder]].
  vm_compute. reflexivity.
Defined.

(** Three pages of ten over the 25 published projects, no two of which
    have the same [orderIndex]. *)
Lemma pages_partition_witness :
  ∃ cursor,
    cursor ≡ₚ filter (λ x, matches literal_compile
                             (projects_query (Some true) None None) x = true)
                     (numbered_project <$> seq 1 25)
    ∧ pages literal_compile epoch_seconds 3 (Some true) None None 10 world25
      = to_dict epoch_seconds <$> cursor.
Proof.
  destruct (pages_partition literal_compile epoch_seconds (Some true) None
              None 10 3 world25 _ eq_refl)
    as (cursor & Hperm & _ & _ & _ & Hall).
  - reflexivity.
  - lia.
  - lia.
  - assert (Forall (λ x,
              Forall (λ y,
                compare_by [("featured", -1); ("orderIndex", 1);
                            ("created_at", -1)]%Z (as_dict x) (as_dict y) = Eq →
                x = y)
                (filter (λ x, matches literal_compile
                                (projects_query (Some true) None None) x = true)
                        (numbered_project <$> seq 1 25)))
              (filter (λ x, matches literal_compile
                              (projects_query (Some true) None None) x = true)
                      (numbered_project <$> seq 1 25))) as Hties
      by by_evaluation.
    intros x y Hx Hy.
    exact (proj1 (Forall_forall _ _) (proj1 (Forall_forall _ _) Hties x Hx)
             y Hy).
  - exists cursor. split; [exact Hperm|]. apply Hall. by_evaluation.
Defined.

(** Creating a skill in [world0], and deleting it again. *)
Lemma create_appends_witness :
  ∃ w' o x e,
    run_mutation literal_compile (CreateSkill sample_skill) world0
    = (Ok (Created (str_oid o)), w')
    ∧ coll_of "skill" w' = coll_of "skill" world0 ++ [x]
    ∧ _id x = o
    ∧ coll_of "activitylog" w' = coll_of "activitylog" world0 ++ [e]
    ∧ audit "create" "skill" (str_oid o) 1000 e.
Proof.
  destruct (create_appends literal_compile (CreateSkill sample_skill)
              (Skill.model_dump sample_skill) world0 store0 eq_refl eq_refl)
    as (w' & o & x & e & Hrun & _ & Hcoll & Ho & _ & _ & _ & _ & Hlog & He & _).
  - intros p y Hm. discriminate Hm.
  - by_evaluation.
  - by_evaluation.
  - by_evaluation.
  - exists w', o, x, e. split; [exact Hrun|]. split; [exact Hcoll|].
    split; [exact Ho|]. split; [exact Hlog | exact He].
Defined.

Lemma create_then_hard_delete_witness :
  ∃ id w1 w2,
    run_mutation literal_compile (CreateSkill sample_skill) world0
    = (Ok (Created id), w1)
    ∧ run_mutation literal_compile (DeleteSkill id true) w1 = (Ok OkTrue, w2)
    ∧ coll_of "skill" w2 = coll_of "skill" world0.
Proof.
  destruct (create_then_hard_delete literal_compile (CreateSkill sample_skill)
              (Skill.model_dump sample_skill) world0 store0 eq_refl eq_refl)
    as (id & w1 & Hrun & Hdelete).
  - intros p x Hm. discriminate Hm.
  - by_evaluation.
  - by_evaluation.
  - by_evaluation.
  - by_evaluation.
  - destruct (Hdelete (DeleteSkill id true) eq_refl eq_refl) as (w2 & Hrun2 & Hcoll).
    exists id, w1, w2. split; [exact Hrun|]. split; [exact Hrun2 | exact Hcoll].
Defined.

(** Updating the project of an id that [world0] does not hold. *)
Lemma update_absent_not_found_witness :
  ∃ w',
    run_mutation literal_compile
      (UpdateProject id_absent (sample_payload "alpha")) world0
    = (Raise (HTTPException 404 "Not found"), w')
    ∧ coll_of "activitylog" w' = coll_of "activitylog" world0.
Proof.
  destruct (update_absent_not_found literal_compile
              (UpdateProject id_absent (sample_payload "alpha")) id_absent
              (Project.model_dump (sample_payload "alpha")) 9%N world0 store0
              eq_refl eq_refl eq_refl) as (w' & Hrun & _ & Hsame).
  - by_evaluation.
  - by_evaluation.
  - by_evaluation.
  - exists w'. split; [exact Hrun | apply Hsame].
Defined.

(** Updating and deleting project b of [world0]. *)
Lemma update_rewrites_one_witness :
  ∃ w' e y',
    run_mutation literal_compile
      (UpdateProject id_b (sample_payload "beta")) world0
    = (Ok OkTrue, w')
    ∧ coll_of "project" w' !! 1 = Some y'
    ∧ fields y' !! "created_at" = Some (VDate 500)
    ∧ coll_of "activitylog" w' = coll_of "activitylog" world0 ++ [e]
    ∧ audit "update" "project" id_b 1000 e.
Proof.
  destruct (update_rewrites_one literal_compile
              (UpdateProject id_b (sample_payload "beta")) id_b
              (Project.model_dump (sample_payload "beta")) 11%N project_b
              world0 store0 eq_refl eq_refl eq_refl)
    as (w' & e & Hrun & _ & Hdocs & Hlog & He & _).
  - by_evaluation.
  - by_evaluation.
  - by_evaluation.
  - by_evaluation.
  - by_evaluation.
  - reflexivity.
  - destruct (Hdocs 1 project_b eq_refl) as (y' & Hy' & _ & _ & Hnew).
    destruct (Hnew eq_refl) as (_ & _ & Hframe).
    exists w', e, y'. split; [exact Hrun|]. split; [exact Hy'|].
    split; [|split; [exact Hlog | exact He]].
    refine (eq_trans (Hframe "created_at" _ _) _);
      [reflexivity | done | reflexivity].
Defined.

Lemma delete_reaches_one_witness :
  ∃ w' e,
    run_mutation literal_compile (DeleteProject id_b true) world0
    = (Ok OkTrue, w')
    ∧ coll_of "project" w' = [project_a; project_c]
    ∧ coll_of "activitylog" w' = coll_of "activitylog" world0 ++ [e]
    ∧ audit "delete" "project" id_b 1000 e.
Proof.
  destruct (delete_reaches_one literal_compile (DeleteProject id_b true) id_b
              true 11%N project_b world0 store0 eq_refl eq_refl eq_refl)
    as (w' & e & Hrun & Hhard & _ & Hlog & He & _).
  - by_evaluation.
  - by_evaluation.
  - by_evaluation.
  - by_evaluation.
  - reflexivity.
  - exists w', e. split; [exact Hrun|].
    destruct (Hhard eq_refl) as (Hcoll & _).
    split; [|split; [exact Hlog | exact He]].
    refine (eq_trans Hcoll _). vm_compute. reflexivity.
Defined.

(** A project update while the store rejects writes to the projects. *)
Lemma failed_write_changes_nothing_witness :
  ∃ e,
    run_mutation literal_compile
      (UpdateProject id_b (sample_payload "beta")) world_project_down
    = (Raise e, world_project_down)
    ∧ (unhandled e ∨ e = HTTPException 400 "Slug already exists").
Proof.
  apply (failed_write_changes_nothing literal_compile _ world_project_down
           store0 eq_refl).
  by_evaluation.
Defined.

(** The ids of [world0] are unique, and stay so under a create. *)
Lemma ids_stay_unique_witness :
  ids_unique
    (handler literal_compile epoch_seconds (Mutate (CreateSkill sample_skill))
       world0).2.
Proof.
  apply (ids_stay_unique literal_compile epoch_seconds).
  intros c. unfold coll_of, world0, db, store0.
  destruct (decide (c = "project")) as [->|Hc].
  - by_evaluation.
  - rewrite lookup_total_singleton_ne by done. apply NoDup_nil_2.
Defined.
